(** * ORB-ATR trading bot: order execution and position lifecycle

    A shallow embedding of [src/ATR-ORB.py].

    Numbers.  Python floats are read as exact rationals ([Q]); [int()] is
    truncation toward zero, [round()] is round-half-to-even, and a division
    whose divisor is zero raises [ZeroDivisionError].  The price change of
    line 1248 is a quotient of numpy values, which does not raise on a zero
    divisor but yields inf, -inf or nan; it is modelled that way ([np_div]).
    Statements about equality of prices use [Qeq] ([==]).

    Effects.  Broker calls are recorded as a list of [event]s; what the broker
    answers (order statuses, positions, clock readings) is an explicit
    environment passed to each function. *)

From Stdlib Require Import ZArith QArith Qround Qabs Qminmax Lia Lqa List String Bool.
From Stdlib Require Import DecimalString.
Import ListNotations.

Local Open Scope Q_scope.

(** ** Python exceptions as an error monad *)

Inductive pyerror : Type :=
| ZeroDivisionError
| IndexError.

Inductive exc (A : Type) : Type :=
| Ok (a : A)
| Raise (e : pyerror).

Arguments Ok {A} a.
Arguments Raise {A} e.

Definition bind {A B : Type} (m : exc A) (k : A -> exc B) : exc B :=
  match m with
  | Ok a => k a
  | Raise e => Raise e
  end.

Notation "x <- m ;; k" := (bind m (fun x => k))
  (at level 61, m at next level, right associativity).

(** ** Python numeric primitives *)

Module PyNum.

(** [int(x)] on a float: truncation toward zero. *)
Definition py_int (x : Q) : Z := Z.quot (Qnum x) (Zpos (Qden x)).

(** [round(x)] on a float: nearest integer, ties to the even neighbour. *)
Definition py_round (x : Q) : Z :=
  let f := Qfloor x in
  match Qcompare (x - inject_Z f) (1 # 2) with
  | Lt => f
  | Gt => (f + 1)%Z
  | Eq => if Z.even f then f else (f + 1)%Z
  end.

(** [round(x, 2)]. *)
Definition py_round2 (x : Q) : Q := inject_Z (py_round (x * 100)) / 100.

(** [x / y]: raises on a zero divisor. *)
Definition py_div (x y : Q) : exc Q :=
  if Qeq_bool y 0 then Raise ZeroDivisionError else Ok (x / y).

(** [divmod(x, y)] for a positive [y]. *)
Definition py_divmod (x y : Q) : Q * Q :=
  let q := inject_Z (Qfloor (x / y)) in (q, x - q * y).

(** A [numpy.float64] result: a number, or what a division by zero leaves
    behind. *)
Inductive npfloat : Type :=
| NpFinite (x : Q)
| NpInf
| NpNegInf
| NpNaN.

(** [x / y] on [numpy.float64] operands.  Unlike a Python float, a zero
    divisor does not raise: numpy warns and returns inf, -inf or nan. *)
Definition np_div (x y : Q) : npfloat :=
  if Qeq_bool y 0 then
    if Qlt_le_dec 0 x then NpInf
    else if Qlt_le_dec x 0 then NpNegInf
    else NpNaN
  else NpFinite (x / y).

(** [a * 100]. *)
Definition np_times_100 (a : npfloat) : npfloat :=
  match a with
  | NpFinite x => NpFinite (x * 100)
  | other => other
  end.

(** [a > 0] and [a < 0]; both are false on nan. *)
Definition np_positive (a : npfloat) : bool :=
  match a with
  | NpFinite x => if Qlt_le_dec 0 x then true else false
  | NpInf => true
  | NpNegInf | NpNaN => false
  end.

Definition np_negative (a : npfloat) : bool :=
  match a with
  | NpFinite x => if Qlt_le_dec x 0 then true else false
  | NpNegInf => true
  | NpInf | NpNaN => false
  end.

End PyNum.
Import PyNum.

(** ** Price quantization (lines 326-337) *)

Section Tick.

(** The module-level [global_min_tick]; [None] is Python's [None]. *)
Variable global_min_tick : option Q.

(** The value of the local [effective_tick_size] when line 337 is reached. *)
Definition effective_tick_size : Q :=
  let effective_tick_size := 1 # 100 in
  let effective_tick_size :=
    match global_min_tick with
    | Some t => if Qlt_le_dec 0 t then t else effective_tick_size
    | None => effective_tick_size
    end in
  if Qle_bool effective_tick_size 0 then 1 # 100 else effective_tick_size.

Definition format_price (price : Q) : exc Q :=
  q <- py_div price effective_tick_size ;;
  Ok (inject_Z (py_round q) * effective_tick_size).

(** The value line 337 returns, written without the fallible division. *)
Definition quantized (price : Q) : Q :=
  inject_Z (py_round (price / effective_tick_size)) * effective_tick_size.

End Tick.

(** ** Data model *)

Local Open Scope string_scope.
Local Open Scope list_scope.

(** A row of the bar DataFrame; [date] is seconds since the epoch. *)
Record Bar : Type := {
  date : Q;
  open : Q;
  high : Q;
  low : Q;
  close : Q;
  volume : Q
}.

(** The ib_insync order constructors the script uses. *)
Inductive Order : Type :=
| LimitOrder (action : string) (totalQuantity : Z) (lmtPrice : Q)
| StopOrder (action : string) (totalQuantity : Z) (stopPrice : Q)
| MarketOrder (action : string) (totalQuantity : Z).

(** Broker calls that change broker state.  [CancelListed] cancels an order
    taken from a listing (identified by its order id), [CancelOrder] one the
    script created itself. *)
Inductive event : Type :=
| PlaceOrder (o : Order)
| CancelOrder (o : Order)
| CancelListed (orderId : Z)
| Disconnect.

Definition is_place (e : event) : bool :=
  match e with
  | PlaceOrder _ => true
  | _ => false
  end.

(** US/Eastern wall clock reading: the [hour] and [minute] fields of the
    datetime, and the instant in seconds. *)
Record datetime : Type := {
  hour : Z;
  minute : Z;
  timestamp : Q
}.

Definition total_seconds (later earlier : datetime) : Q :=
  timestamp later - timestamp earlier.

(** One dict of [trades_record].  Every dict is built at lines 1359-1373 with
    the same thirteen keys, so the membership test ['EntryPrice' in trade]
    always holds.  [Duration] is the (hours, minutes, seconds) triple that the
    script renders into a string, and [None] stands for the empty string in
    [Duration] and [ExitTime]. *)
Record TradeRecord : Type := {
  Time : datetime;
  Direction : string;
  EntryPrice : Q;
  Quantity : Z;
  StopLoss : Q;
  PnL : Q;
  PnLPercent : Q;
  Symbol : string;
  Duration : option (Z * Z * Z);
  Result : string;
  ExitTime : option datetime;
  ExitReason : string;
  ExitPrice : Q
}.

(** ** Broker effects: a trace of events plus a result or an exception *)

Definition io (A : Type) : Type := list event * exc A.

Definition ret {A : Type} (a : A) : io A := ([], Ok a).

Definition emit (e : event) : io unit := ([e], Ok tt).

Definition emit_all (es : list event) : io unit := (es, Ok tt).

Definition lift {A : Type} (m : exc A) : io A := ([], m).

Definition iobind {A B : Type} (m : io A) (k : A -> io B) : io B :=
  match m with
  | (ev, Ok a) => let '(ev', r) := k a in (ev ++ ev', r)
  | (ev, Raise e) => (ev, Raise e)
  end.

(** [try: m except Exception: h]. *)
Definition try_except {A : Type} (m : io A) (h : io A) : io A :=
  match m with
  | (ev, Ok a) => (ev, Ok a)
  | (ev, Raise _) => let '(ev', r) := h in (ev ++ ev', r)
  end.

Notation "x <<- m ;; k" := (iobind m (fun x => k))
  (at level 61, m at next level, right associativity).
Notation "m ;;; k" := (iobind m (fun _ => k))
  (at level 61, right associativity).

(** ** Volatility (lines 317-323) *)

(** The [TR] column.  In the first row the two columns built from
    [close.shift(1)] are NaN and [max(axis=1)] skips them. *)
Fixpoint true_ranges (prev_close : option Q) (df : list Bar) : list Q :=
  match df with
  | [] => []
  | b :: rest =>
      let hl := high b - low b in
      let tr :=
        match prev_close with
        | None => hl
        | Some pc => Qmax hl (Qmax (Qabs (high b - pc)) (Qabs (low b - pc)))
        end in
      tr :: true_ranges (Some (close b)) rest
  end.

Definition mean (l : list Q) : Q :=
  fold_right Qplus 0 l / inject_Z (Z.of_nat (List.length l)).

(** The last entry of the rolling mean; [None] is NaN (fewer rows than the
    window), and [iloc[-1]] on an empty frame raises. *)
Definition calculate_atr (df : list Bar) (period : nat) : exc (option Q) :=
  let TR := true_ranges None df in
  match df with
  | [] => Raise IndexError
  | _ =>
      if (List.length df <? period)%nat then Ok None
      else Ok (Some (mean (skipn (List.length TR - period) TR)))
  end.

(** ** Signal and position size (module main, lines 1245-1307) *)

Inductive signal : Type :=
| NoSignal
| Signal (action : string) (stop_price_reference : Q).

(** Lines 1248-1270.  [latest_bar] is a row of the frame, so its prices are
    [numpy.float64] values and line 1248 divides the numpy way. *)
Definition generate_signal (global_min_tick : option Q) (latest_bar : Bar)
    (R : Q) : exc signal :=
  let price_change_percent :=
    np_times_100
      (np_div (close latest_bar - open latest_bar) (open latest_bar)) in
  if np_positive price_change_percent then
    let raw_stop_price := close latest_bar - R in
    stop_price_reference <- format_price global_min_tick raw_stop_price ;;
    Ok (Signal "BUY" stop_price_reference)
  else if np_negative price_change_percent then
    let raw_stop_price := close latest_bar + R in
    stop_price_reference <- format_price global_min_tick raw_stop_price ;;
    Ok (Signal "SELL" stop_price_reference)
  else Ok NoSignal.

(** [qty_min] is [qty] as assigned at line 1284, [qty] its value after the
    final leverage check of lines 1298-1307. *)
Record sizing : Type := {
  qty_risk : Z;
  qty_leverage : Z;
  qty_min : Z;
  leverage_check_fired : bool;
  qty : Z
}.

(** Lines 1274-1307, with the module constants of lines 229-231 as
    parameters.  For a bar closing at exactly 0 the script raises at line
    1280 ([int()] of an infinite quotient); the model raises at the same
    place, under the name of the division. *)
Definition position_size (ACCOUNT_SIZE LEVERAGE RISK_PCT R close_price : Q)
    : exc sizing :=
  let risk_amount := ACCOUNT_SIZE * RISK_PCT in
  q_risk <- py_div risk_amount R ;;
  let qty_risk := Z.max 1 (py_int q_risk) in
  let max_position := ACCOUNT_SIZE * LEVERAGE in
  q_lev <- py_div max_position close_price ;;
  let qty_leverage := Z.max 1 (py_int q_lev) in
  let qty := Z.min qty_risk qty_leverage in
  let actual_risk_amount := inject_Z qty * R in
  actual_risk_frac <- py_div actual_risk_amount ACCOUNT_SIZE ;;
  let actual_position_size := inject_Z qty * close_price in
  actual_leverage <- py_div actual_position_size ACCOUNT_SIZE ;;
  if Qlt_le_dec LEVERAGE actual_leverage then
    q_max <- py_div max_position close_price ;;
    let max_allowed_qty := py_int q_max in
    let actual_position_size := inject_Z max_allowed_qty * close_price in
    actual_leverage <- py_div actual_position_size ACCOUNT_SIZE ;;
    Ok {| qty_risk := qty_risk; qty_leverage := qty_leverage; qty_min := qty;
          leverage_check_fired := true; qty := max_allowed_qty |}
  else
    Ok {| qty_risk := qty_risk; qty_leverage := qty_leverage; qty_min := qty;
          leverage_check_fired := false; qty := qty |}.

(** The module constants of lines 229-231. *)
Definition ACCOUNT_SIZE : Q := 25000.
Definition LEVERAGE : Q := 4.
Definition RISK_PCT : Q := 1 # 100.

(** ** From the completed bar to the trade decision (lines 1212-1307) *)

(** [Abort code] is [ib.disconnect(); exit(code)]; [Enter] reaches the call
    of [place_trade] at line 1321. *)
Inductive decision : Type :=
| Abort (code : Z)
| Enter (action : string) (qty : Z) (stop_price_reference : Q) (R : Q).

Definition main_decision (global_min_tick : option Q) (df : list Bar)
    (next_candle_end : Q) (daily_df : list Bar) : exc decision :=
  match rev df with
  | [] => Ok (Abort 1)
  | latest_bar :: _ =>
      let bar_time := date latest_bar in
      let expected_time := next_candle_end - 1 in
      let time_diff := Qabs (bar_time - expected_time) in
      if Qlt_le_dec 300 time_diff then Ok (Abort 1)
      else if (List.length daily_df <? 14)%nat then Ok (Abort 1)
      else
        ATR <- calculate_atr daily_df 14 ;;
        match ATR with
        | None => Ok (Abort 1)
        | Some ATR =>
            if Qle_bool ATR 0 then Ok (Abort 1)
            else
              let R := ATR * (1 # 10) in
              s <- generate_signal global_min_tick latest_bar R ;;
              match s with
              | NoSignal => Ok (Abort 0)
              | Signal action stop_price_reference =>
                  sz <- position_size ACCOUNT_SIZE LEVERAGE RISK_PCT R
                          (close latest_bar) ;;
                  Ok (Enter action (qty sz) stop_price_reference R)
              end
        end
  end.

(** What one run of the script leaves behind: its broker events and the
    process exit code. *)
Record run : Type := {
  trace : list event;
  exit_code : Z
}.

Section Main.

Variable global_min_tick : option Q.

(** Lines 1321-1385, from [place_trade] on: the events they issue.  Every
    exception raised there is caught, so the run then ends with code 0. *)
Variable trade_and_monitor : string -> Z -> Q -> Q -> list event.

(** The open orders listed in the [finally] block. *)
Variable open_orders_at_exit : list Z.

Definition cleanup : list event :=
  map CancelListed open_orders_at_exit ++ [Disconnect].

(** [exit(code)] raises [SystemExit], which [except Exception] does not
    catch; any other exception is caught and the script ends normally. *)
Definition main (df : list Bar) (next_candle_end : Q) (daily_df : list Bar)
    : run :=
  match main_decision global_min_tick df next_candle_end daily_df with
  | Ok (Abort code) =>
      {| trace := Disconnect :: cleanup; exit_code := code |}
  | Ok (Enter action qty stop_price_reference R) =>
      {| trace := trade_and_monitor action qty stop_price_reference R ++ cleanup;
         exit_code := 0 |}
  | Raise _ => {| trace := cleanup; exit_code := 0 |}
  end.

End Main.

(** ** Protective stop order (lines 525-627) *)

Definition in_list (s : string) (l : list string) : bool :=
  existsb (String.eqb s) l.

(** What the broker answers while the stop order is placed. *)
Record stoploss_env : Type := {
  (** ids of the orders [cancel_all_orders()] cancels *)
  sl_cancelled : list Z;
  (** [sl_trade.orderStatus.status] at poll [i] *)
  sl_status : nat -> string;
  (** [new_trade.orderStatus.status] of the retry issued at poll [i] *)
  sl_retry_status : nat -> string;
  (** outcome of the open-order listing check, lines 601-621 *)
  sl_listing_confirms : bool
}.

Definition stoploss_action (entry_action : string) : string :=
  if entry_action =? "BUY" then "SELL" else "BUY".

(** Lines 533-538: [stop_price] after the adjustment against the fill. *)
Definition adjusted_stop_price (entry_action : string)
    (stop_price fill_price : Q) : Q :=
  let sl_action := stoploss_action entry_action in
  if sl_action =? "BUY" then Qmax stop_price (fill_price * (1001 # 1000))
  else Qmin stop_price (fill_price * (999 # 1000)).

(** Line 541: the price of the stop order. *)
Definition formatted_stop_price (global_min_tick : option Q)
    (entry_action : string) (stop_price fill_price : Q) : exc Q :=
  format_price global_min_tick
    (adjusted_stop_price entry_action stop_price fill_price).

(** The loop of lines 563-599; [remaining] iterations are left and [i] is the
    loop index.  [None]: the loop ran to its end. *)
Fixpoint poll_stop_order (env : stoploss_env) (global_min_tick : option Q)
    (sl_action : string) (quantity : Z) (formatted_stop_price : Q)
    (remaining i : nat) : io (option bool) :=
  match remaining with
  | O => ret None
  | S n =>
      let status := sl_status env i in
      if in_list status ["Submitted"; "PreSubmitted"; "Filled"] then
        ret (Some true)
      else if (status =? "PendingSubmit") && (8 <=? i)%nat then
        emit (CancelOrder (StopOrder sl_action quantity formatted_stop_price)) ;;;
        let adjustment := 1 # 100 in
        new_price <<- lift (format_price global_min_tick
                              (formatted_stop_price +
                               (if sl_action =? "BUY" then adjustment
                                else - adjustment))) ;;
        emit (PlaceOrder (StopOrder sl_action quantity new_price)) ;;;
        let new_status := sl_retry_status env i in
        if in_list new_status ["Submitted"; "PreSubmitted"] then
          ret (Some true)
        else
          poll_stop_order env global_min_tick sl_action quantity
            formatted_stop_price n (S i)
      else
        poll_stop_order env global_min_tick sl_action quantity
          formatted_stop_price n (S i)
  end.

Definition place_stoploss_order (env : stoploss_env)
    (global_min_tick : option Q) (entry_action : string) (quantity : Z)
    (stop_price fill_price : Q) : io bool :=
  let sl_action := stoploss_action entry_action in
  emit_all (map CancelListed (sl_cancelled env)) ;;;
  formatted <<- lift (formatted_stop_price global_min_tick entry_action
                        stop_price fill_price) ;;
  try_except
    (emit (PlaceOrder (StopOrder sl_action quantity formatted)) ;;;
     r <<- poll_stop_order env global_min_tick sl_action quantity formatted
             10 0 ;;
     match r with
     | Some b => ret b
     | None => ret (sl_listing_confirms env)
     end)
    (ret false).

(** ** Trade economics and the ledger update *)

(** [hours/minutes/seconds] of lines 1008-1010 and 1151-1153. *)
Definition duration_parts (duration_seconds : Q) : Z * Z * Z :=
  let '(hours, remainder) := py_divmod duration_seconds 3600 in
  let '(minutes, seconds) := py_divmod remainder 60 in
  (py_int hours, py_int minutes, py_int seconds).

(** Lines 1013-1020 and 1155-1162: signed PnL, percentage PnL and the result
    label. *)
Definition profit_and_result (action : string) (quantity : Z)
    (entry_price exit_price : Q) : exc (Q * Q * string) :=
  let diff :=
    if action =? "BUY" then exit_price - entry_price
    else entry_price - exit_price in
  let profit_loss := diff * inject_Z quantity in
  q <- py_div diff entry_price ;;
  let profit_percent := q * 100 in
  let result :=
    if Qlt_le_dec 0 profit_loss then "Profit"
    else if Qlt_le_dec profit_loss 0 then "Loss"
    else "Breakeven" in
  Ok (profit_loss, profit_percent, result).

Definition entry_matches (trade : TradeRecord) (entry_price : Q) : bool :=
  if Qlt_le_dec (Qabs (EntryPrice trade - entry_price)) (1 # 10) then true
  else false.

(** The seven assignments of lines 1027-1033 and 1171-1177. *)
Definition record_exit (trade : TradeRecord) (exit_price profit_loss
    profit_percent : Q) (duration : Z * Z * Z) (result : string)
    (trade_end_time : datetime) (exit_reason : string) : TradeRecord :=
  {| Time := Time trade;
     Direction := Direction trade;
     EntryPrice := EntryPrice trade;
     Quantity := Quantity trade;
     StopLoss := StopLoss trade;
     PnL := py_round2 profit_loss;
     PnLPercent := py_round2 profit_percent;
     Symbol := Symbol trade;
     Duration := Some duration;
     Result := result;
     ExitTime := Some trade_end_time;
     ExitReason := exit_reason;
     ExitPrice := exit_price |}.

(** The [for trade in trades_record: ... break] loop: only the first match is
    rewritten. *)
Fixpoint update_first_match (trades_record : list TradeRecord)
    (entry_price : Q) (upd : TradeRecord -> TradeRecord)
    : list TradeRecord :=
  match trades_record with
  | [] => []
  | trade :: rest =>
      if entry_matches trade entry_price then upd trade :: rest
      else trade :: update_first_match rest entry_price upd
  end.

(** ** Market close (lines 1081-1192) *)

Record close_env : Type := {
  (** ids of the orders listed by [ib.reqAllOpenOrders()] *)
  ce_open_orders : list Z;
  (** [status] and [avgFillPrice] of the close order at poll [attempt] *)
  ce_status : nat -> string * Q;
  (** the clock when the fill is booked *)
  ce_end_time : datetime
}.

(** The loop of lines 1131-1144: the fill price at the first poll that reports
    ['Filled']. *)
Fixpoint poll_close_order (env : close_env) (remaining attempt : nat)
    : option Q :=
  match remaining with
  | O => None
  | S n =>
      let '(status, avgFillPrice) := ce_status env attempt in
      if status =? "Filled" then Some avgFillPrice
      else poll_close_order env n (S attempt)
  end.

Definition close_position_at_market (env : close_env)
    (trades_record : list TradeRecord) (action : string) (quantity : Z)
    (entry_price : Q) (start_time : datetime)
    (determined_exit_reason : string) : io (bool * list TradeRecord) :=
  try_except
    (let close_action := if action =? "BUY" then "SELL" else "BUY" in
     emit_all (map CancelListed (ce_open_orders env)) ;;;
     emit (PlaceOrder (MarketOrder close_action quantity)) ;;;
     match poll_close_order env 40 0 with
     | Some exit_price =>
         if Qeq_bool exit_price 0 then ret (false, trades_record)
         else
           let trade_end_time := ce_end_time env in
           let duration_seconds := total_seconds trade_end_time start_time in
           let duration := duration_parts duration_seconds in
           pr <<- lift (profit_and_result action quantity entry_price
                          exit_price) ;;
           let '(profit_loss, profit_percent, result) := pr in
           ret (true,
                update_first_match trades_record entry_price
                  (fun trade =>
                     record_exit trade exit_price profit_loss profit_percent
                       duration result trade_end_time determined_exit_reason))
     | None => ret (false, trades_record)
     end)
    (ret (false, trades_record)).

(** ** Position monitor (lines 918-1078) *)

Definition EOD_HOUR : Z := 15.
Definition EOD_MINUTE_START : Z := 50.

Definition string_of_Z (n : Z) : string := NilZero.string_of_int (Z.to_int n).

(** Lines 971-983: [(exit_triggered_by_strategy, exit_reason_for_strategy)]. *)
Definition exit_policy_check (config_exit_strategy : string)
    (config_max_hold_duration_minutes : Z) (current_time : datetime)
    (elapsed_minutes : Q) : bool * string :=
  if config_exit_strategy =? "EOD" then
    if (hour current_time =? EOD_HOUR)%Z
       && (EOD_MINUTE_START <=? minute current_time)%Z
    then (true, "EOD Market Close")
    else (false, "")
  else if config_exit_strategy =? "MAX_DURATION" then
    if Qle_bool (inject_Z config_max_hold_duration_minutes) elapsed_minutes
    then (true,
          String.append "Max Duration ("
            (String.append (string_of_Z config_max_hold_duration_minutes)
               " min) Reached"))
    else (false, "")
  else (false, "").

(** What the script observes in one pass of the [while] loop. *)
Record wake : Type := {
  (** [datetime.now(eastern_tz)] at the top of the pass *)
  w_now : datetime;
  (** symbols of [ib.positions()] *)
  w_positions : list string;
  (** the clock when a vanished position is booked *)
  w_end_time : datetime;
  (** the ticker's price at a status refresh; [None] when there is none *)
  w_market_price : option Q;
  (** the broker's answers if the market close is invoked in this pass *)
  w_close : close_env
}.

Inductive monitor_exit : Type :=
| PolicyClose (reason : string) (closed : bool)
| StopTriggered
| MonitorError
| WakesExhausted.

(** The status refresh of lines 1041-1069 changes nothing but may raise. *)
Definition status_refresh (action : string) (entry_price : Q)
    (current_market_price : option Q) : exc unit :=
  match current_market_price with
  | Some p =>
      if Qlt_le_dec 0 p then
        _ <- py_div (if action =? "BUY" then p - entry_price
                     else entry_price - p) entry_price ;;
        Ok tt
      else Ok tt
  | None => Ok tt
  end.

Section Monitor.

(** [contract.symbol]. *)
Variable contract_symbol : string.

Variables (action : string) (quantity : Z) (entry_price stop_price : Q).
Variables (config_exit_strategy : string)
          (config_max_hold_duration_minutes : Z).
Variable start_time : datetime.

(** How one pass of the loop ends: through [break], or by sleeping and
    going round again with the new [last_update_time]. *)
Inductive pass_result : Type :=
| Break (how : monitor_exit) (trades_record : list TradeRecord)
| Continue (last_update_time : datetime).

(** The body of the [while not is_position_closed] loop (lines 967-1071). *)
Definition monitor_pass (last_update_time : datetime)
    (trades_record : list TradeRecord) (w : wake) : io pass_result :=
  let current_time := w_now w in
  let elapsed_minutes := total_seconds current_time start_time / 60 in
  let time_since_last_update :=
    total_seconds current_time last_update_time in
  let '(exit_triggered_by_strategy, exit_reason_for_strategy) :=
    exit_policy_check config_exit_strategy
      config_max_hold_duration_minutes current_time elapsed_minutes in
  if exit_triggered_by_strategy then
    r <<- close_position_at_market (w_close w) trades_record action
            quantity entry_price start_time exit_reason_for_strategy ;;
    ret (Break (PolicyClose exit_reason_for_strategy (fst r)) (snd r))
  else if negb (in_list contract_symbol (w_positions w)) then
    let exit_price := stop_price in
    let trade_end_time := w_end_time w in
    let duration_seconds := total_seconds trade_end_time start_time in
    let duration := duration_parts duration_seconds in
    pr <<- lift (profit_and_result action quantity entry_price
                   exit_price) ;;
    let '(profit_loss, profit_percent, result) := pr in
    ret (Break StopTriggered
           (update_first_match trades_record entry_price
              (fun trade =>
                 record_exit trade exit_price profit_loss profit_percent
                   duration result trade_end_time "Stop Loss Triggered")))
  else if Qle_bool 60 time_since_last_update then
    lift (status_refresh action entry_price (w_market_price w)) ;;;
    ret (Continue current_time)
  else ret (Continue last_update_time).

(** The loop itself, one [wake] per pass.  It is left through [break] only;
    [WakesExhausted] means the given observations ended while the position
    was still monitored. *)
Fixpoint monitor_loop (last_update_time : datetime)
    (trades_record : list TradeRecord) (wakes : list wake)
    : io (monitor_exit * list TradeRecord) :=
  match wakes with
  | [] => ret (WakesExhausted, trades_record)
  | w :: rest =>
      r <<- monitor_pass last_update_time trades_record w ;;
      match r with
      | Break how trades_record => ret (how, trades_record)
      | Continue last_update_time =>
          monitor_loop last_update_time trades_record rest
      end
  end.

(** [wakes] are the passes of the loop; the first clock reading is
    [start_time]. *)
Definition monitor_trade_and_exit (trades_record : list TradeRecord)
    (wakes : list wake) : io (monitor_exit * list TradeRecord) :=
  try_except (monitor_loop start_time trades_record wakes)
    (ret (MonitorError, trades_record)).

End Monitor.

(** ** After the entry fill (lines 1323-1377) *)

Definition new_trade_record (trade_time : datetime) (action : string)
    (fill_price : Q) (qty : Z) (stop_price : Q) (symbol : string)
    : TradeRecord :=
  {| Time := trade_time;
     Direction := action;
     EntryPrice := fill_price;
     Quantity := qty;
     StopLoss := stop_price;
     PnL := 0;
     PnLPercent := 0;
     Symbol := symbol;
     Duration := None;
     Result := "";
     ExitTime := None;
     ExitReason := "";
     ExitPrice := 0 |}.

(** [fill] is the pair returned by [place_trade]; the branch is taken when its
    price is neither [None] nor zero. *)
Definition main_after_trade (global_min_tick : option Q)
    (sl_env : stoploss_env) (contract_symbol : string)
    (trade_exit_strategy : string) (trade_max_hold_duration_minutes : Z)
    (trades_record : list TradeRecord) (action : string) (qty : Z) (R : Q)
    (fill : option (Q * datetime)) (start_time : datetime)
    (wakes : list wake) : io (option monitor_exit * list TradeRecord) :=
  match fill with
  | None => ret (None, trades_record)
  | Some (fill_price, trade_time) =>
      if Qeq_bool fill_price 0 then ret (None, trades_record)
      else
        stop_price <<- lift (if action =? "BUY"
                             then format_price global_min_tick (fill_price - R)
                             else format_price global_min_tick (fill_price + R)) ;;
        stoploss_success <<- place_stoploss_order sl_env global_min_tick
                               action qty stop_price fill_price ;;
        let risk_amount := inject_Z qty * Qabs (fill_price - stop_price) in
        risk_frac <<- lift (py_div risk_amount ACCOUNT_SIZE) ;;
        let position_value := inject_Z qty * fill_price in
        leverage <<- lift (py_div position_value ACCOUNT_SIZE) ;;
        let trades_record :=
          trades_record ++
          [new_trade_record trade_time action fill_price qty stop_price
             contract_symbol] in
        r <<- monitor_trade_and_exit contract_symbol action qty fill_price
                stop_price trade_exit_strategy
                trade_max_hold_duration_minutes start_time trades_record
                wakes ;;
        ret (Some (fst r), snd r)
  end.

(** ** The position size as the specification words it *)

(** [min(floor(accountSize*riskFraction/R), floor(accountSize*leverageCap/price))],
    each component floored to an integer that is at least 1. *)
Definition spec_quantity (accountSize riskFraction leverageCap price R : Q)
    : Z :=
  Z.min (Z.max 1 (Qfloor (accountSize * riskFraction / R)))
        (Z.max 1 (Qfloor (accountSize * leverageCap / price))).

(** Wall-clock order on (hour, minute): [at_or_after h m t] is "t >= h:m". *)
Definition at_or_after (h m : Z) (t : datetime) : Prop :=
  (h < hour t \/ (hour t = h /\ m <= minute t))%Z.

(** The broker calls of one market close: the cancellations, then the order. *)
Definition close_events (env : close_env) (action : string) (quantity : Z)
    : list event :=
  map CancelListed (ce_open_orders env)
  ++ [PlaceOrder (MarketOrder (if action =? "BUY" then "SELL" else "BUY")
                    quantity)].

(** Poll [i] of the stop order neither accepts it nor starts the retry. *)
Definition poll_idle (env : stoploss_env) (i : nat) : bool :=
  negb (in_list (sl_status env i) ["Submitted"; "PreSubmitted"; "Filled"])
  && negb ((sl_status env i =? "PendingSubmit") && (8 <=? i)%nat).

(** The price of the retry (lines 583-584) for an order at [formatted]. *)
Definition retry_price (global_min_tick : option Q) (sl_action : string)
    (formatted : Q) : Q :=
  quantized global_min_tick
    (formatted + (if sl_action =? "BUY" then 1 # 100 else - (1 # 100))).

(** No order is submitted in a trace. *)
Definition no_order_placed (t : list event) : Prop :=
  forall o : Order, ~ In (PlaceOrder o) t.

(** Fourteen flat-range daily bars around [c]: each has true range 20. *)
Definition daily_bars_around (c : Q) : list Bar :=
  repeat {| date := 0; open := c; high := c + 10; low := c - 10; close := c;
            volume := 0 |} 14.

(** ** Entry order (lines 340-466) *)

(** What the broker and the clock answer while the entry order is worked. *)
Record trade_env : Type := {
  (** ids of the orders [cancel_all_orders()] cancels *)
  pt_cancelled : list Z;
  (** [time.time()] at line 381 *)
  pt_start : Q;
  (** [status] and [avgFillPrice] of the current order at poll [attempt] *)
  pt_status : nat -> string * Q;
  (** [time.time()] at line 407 in poll [attempt] *)
  pt_clock : nat -> Q;
  (** [time.time()] at line 437 after the reprice of poll [attempt] *)
  pt_restart : nat -> Q;
  (** the clock when the fill is confirmed *)
  pt_entry_time : datetime
}.

(** How the polling loop of lines 385-437 is left: through [break] on a fill,
    through [return None, None] on a dead order, or by running to its end.
    [trade] is the order the variable [trade] then refers to. *)
Inductive entry_poll : Type :=
| EntryFilled (fill_price : Q) (trade : Order)
| EntryDead (trade : Order)
| EntryPending (trade : Order).

Fixpoint poll_entry_order (env : trade_env) (global_min_tick : option Q)
    (action : string) (quantity : Z) (trade : Order)
    (limit_price start_time : Q) (price_adjustment_count : nat)
    (remaining attempt : nat) : io entry_poll :=
  match remaining with
  | O => ret (EntryPending trade)
  | S n =>
      let '(status, avgFillPrice) := pt_status env attempt in
      if status =? "Filled" then ret (EntryFilled avgFillPrice trade)
      else if in_list status ["Cancelled"; "ApiCancelled"; "Inactive"] then
        ret (EntryDead trade)
      else
        let elapsed_time := pt_clock env attempt - start_time in
        if (if Qlt_le_dec 20 elapsed_time then true else false)
           && (price_adjustment_count <? 2)%nat
           && (status =? "Submitted")
        then
          new_limit_price <<- lift (if action =? "BUY"
                                    then format_price global_min_tick
                                           (limit_price * (1001 # 1000))
                                    else format_price global_min_tick
                                           (limit_price * (999 # 1000))) ;;
          emit (CancelOrder trade) ;;;
          let new_order := LimitOrder action quantity new_limit_price in
          emit (PlaceOrder new_order) ;;;
          poll_entry_order env global_min_tick action quantity new_order
            new_limit_price (pt_restart env attempt)
            (S price_adjustment_count) n (S attempt)
        else
          poll_entry_order env global_min_tick action quantity trade
            limit_price start_time price_adjustment_count n (S attempt)
  end.

(** [signal_candle_data] is the module global set at lines 1310-1317; the
    parameter [stop_price] is not used by the function.  The result is the
    pair [(fill_price, entry_time)], [None] standing for [(None, None)]. *)
Definition place_trade (env : trade_env) (global_min_tick : option Q)
    (signal_candle_data : option Bar) (action : string) (quantity : Z)
    (stop_price : Q) : io (option (Q * datetime)) :=
  try_except
    (emit_all (map CancelListed (pt_cancelled env)) ;;;
     match signal_candle_data with
     | None => ret None
     | Some candle =>
         limit_price <<- lift (format_price global_min_tick (close candle)) ;;
         let order := LimitOrder action quantity limit_price in
         emit (PlaceOrder order) ;;;
         r <<- poll_entry_order env global_min_tick action quantity order
                 limit_price (pt_start env) 0 40 0 ;;
         match r with
         | EntryFilled fill_price trade =>
             if Qeq_bool fill_price 0 then
               emit (CancelOrder trade) ;;; ret None
             else ret (Some (fill_price, pt_entry_time env))
         | EntryDead _ => ret None
         | EntryPending trade => emit (CancelOrder trade) ;;; ret None
         end
     end)
    (ret None).

(** *** Order bookkeeping over a trace *)

Definition order_eqb (o1 o2 : Order) : bool :=
  match o1, o2 with
  | LimitOrder a1 q1 p1, LimitOrder a2 q2 p2 =>
      (a1 =? a2) && (q1 =? q2)%Z && Qeq_bool p1 p2
  | StopOrder a1 q1 p1, StopOrder a2 q2 p2 =>
      (a1 =? a2) && (q1 =? q2)%Z && Qeq_bool p1 p2
  | MarketOrder a1 q1, MarketOrder a2 q2 => (a1 =? a2) && (q1 =? q2)%Z
  | _, _ => false
  end.

(** Replays a trace against the one order the script may have outstanding:
    an order may be placed only when none is outstanding, and a cancellation
    must name the outstanding order.  [Some live] is the order outstanding at
    the end; [None] means the discipline was broken. *)
Fixpoint live_after (live : option Order) (t : list event)
    : option (option Order) :=
  match t with
  | [] => Some live
  | PlaceOrder o :: t' =>
      match live with
      | None => live_after (Some o) t'
      | Some _ => None
      end
  | CancelOrder o :: t' =>
      match live with
      | Some l => if order_eqb l o then live_after None t' else None
      | None => None
      end
  | _ :: t' => live_after live t'
  end.

Definition count_placed (t : list event) : nat :=
  List.length (filter is_place t).

(** The limit prices of the orders placed in a trace, in order. *)
Fixpoint placed_limits (t : list event) : list Q :=
  match t with
  | [] => []
  | PlaceOrder (LimitOrder _ _ p) :: t' => p :: placed_limits t'
  | _ :: t' => placed_limits t'
  end.

(** Poll [attempt] of the entry order reports no terminal status. *)
Definition entry_poll_open (env : trade_env) (attempt : nat) : bool :=
  negb (fst (pt_status env attempt) =? "Filled")
  && negb (in_list (fst (pt_status env attempt))
             ["Cancelled"; "ApiCancelled"; "Inactive"]).

(** The order the variable [trade] refers to when the polling loop is left. *)
Definition poll_trade (r : entry_poll) : Order :=
  match r with
  | EntryFilled _ trade => trade
  | EntryDead trade => trade
  | EntryPending trade => trade
  end.

(** Poll [j] is the first one that reports a terminal status. *)
Definition first_terminal (env : trade_env) (from j : nat) : Prop :=
  entry_poll_open env j = false
  /\ forall i, (from <= i < j)%nat -> entry_poll_open env i = true.

(** Each price is at most the next one. *)
Fixpoint ascending (l : list Q) : Prop :=
  match l with
  | a :: (b :: _) as t => a <= b /\ ascending t
  | _ => True
  end.

(** Each price is at least the next one. *)
Fixpoint descending (l : list Q) : Prop :=
  match l with
  | a :: (b :: _) as t => b <= a /\ descending t
  | _ => True
  end.

(** A BUY is repriced upward and a SELL downward. *)
Definition limits_move_toward_fill (action : string) (l : list Q) : Prop :=
  if action =? "BUY" then ascending l else descending l.

(** [p] is an integer multiple of the effective tick. *)
Definition on_tick_grid (global_min_tick : option Q) (p : Q) : Prop :=
  exists k : Z, p == inject_Z k * effective_tick_size global_min_tick.

(** The ledger after an exit is booked: unchanged, or changed in the first
    record within 0.1 of the entry price and nowhere else. *)
Definition ledger_step (entry_price : Q) (old new : list TradeRecord)
    : Prop :=
  new = old
  \/ exists before trade trade' after,
       old = before ++ trade :: after
       /\ new = before ++ trade' :: after
       /\ forallb (fun t => negb (entry_matches t entry_price)) before = true
       /\ entry_matches trade entry_price = true
       /\ EntryPrice trade' = EntryPrice trade.

(** An order-changing call made while the stop order is placed and polled:
    a stop order of the given side and size is submitted at a price on the
    tick grid, or the stop order submitted first is cancelled. *)
Definition stop_event (global_min_tick : option Q) (sl_action : string)
    (quantity : Z) (original : Q) (e : event) : Prop :=
  match e with
  | PlaceOrder o =>
      exists p, o = StopOrder sl_action quantity p
                /\ on_tick_grid global_min_tick p
  | CancelOrder o => o = StopOrder sl_action quantity original
  | _ => False
  end.

(** Lines 1325-1328: the stop price the main flow computes from the fill; it
    goes into the ledger and into the monitor. *)
Definition recorded_stop (global_min_tick : option Q) (action : string)
    (fill_price R : Q) : Q :=
  if action =? "BUY" then quantized global_min_tick (fill_price - R)
  else quantized global_min_tick (fill_price + R).

(** ** Waiting for the five-minute candle (lines 268-314 and 630-691) *)

(** A US/Eastern clock reading with the fields the timing helpers read.
    [wc_day] counts the calendar days from a fixed day. *)
Record wallclock : Type := {
  wc_day : Z;
  wc_hour : Z;
  wc_minute : Z;
  wc_second : Z;
  wc_microsecond : Z
}.

(** The field ranges of a Python [datetime]. *)
Definition wc_valid (c : wallclock) : Prop :=
  (0 <= wc_hour c < 24 /\ 0 <= wc_minute c < 60 /\ 0 <= wc_second c < 60
   /\ 0 <= wc_microsecond c < 1000000)%Z.

(** The reading in seconds.  The readings compared and subtracted by the
    helpers carry the same [tzinfo], so Python compares and subtracts their
    wall-clock fields. *)
Definition wc_seconds (c : wallclock) : Q :=
  inject_Z (wc_day c * 86400 + wc_hour c * 3600 + wc_minute c * 60
            + wc_second c)
  + inject_Z (wc_microsecond c) / 1000000.

(** Lines 630-646. *)
Definition calculate_wait_time_to_next_5min (now : wallclock) : Z :=
  let current_minute := wc_minute now in
  let seconds_passed := wc_second now in
  let minutes_to_next := (5 - current_minute mod 5)%Z in
  if ((minutes_to_next =? 5) && (seconds_passed =? 0))%Z then 0%Z
  else
    let seconds_to_next := (minutes_to_next * 60 - seconds_passed)%Z in
    Z.max 15 seconds_to_next.

(** How [wait_for_next_5min_candle] ends: [time.sleep] raises [ValueError]
    on a negative argument; otherwise the pair of line 691 is returned after
    the sleep. *)
Inductive candle_wait : Type :=
| CandleWaited (wait_seconds next_candle_start next_candle_end : Q)
| SleepValueError (wait_seconds : Q).

(** Lines 648-691; the datetimes are given in seconds. *)
Definition wait_for_next_5min_candle (now : wallclock) : candle_wait :=
  let current_minute := wc_minute now in
  let current_5min := (current_minute / 5 * 5)%Z in
  let next_5min := ((current_5min + 5) mod 60)%Z in
  let next_hour :=
    if (next_5min <? current_5min)%Z then ((wc_hour now + 1) mod 24)%Z
    else wc_hour now in
  let next_candle_start :=
    wc_seconds {| wc_day := wc_day now; wc_hour := next_hour;
                  wc_minute := next_5min; wc_second := 0;
                  wc_microsecond := 0 |} in
  let next_candle_start :=
    if Qle_bool next_candle_start (wc_seconds now)
    then next_candle_start + 300 else next_candle_start in
  let next_candle_end := next_candle_start + 300 in
  let wait_seconds := next_candle_start - wc_seconds now in
  if Qlt_le_dec wait_seconds 0 then SleepValueError wait_seconds
  else CandleWaited wait_seconds next_candle_start next_candle_end.

(** Lines 275-283: [bar_end_time], in seconds. *)
Definition latest_bar_end_time (now : wallclock) : Q :=
  let minutes := wc_minute now in
  let latest_bar_minute := (minutes / 5 * 5)%Z in
  let bar_end_time :=
    wc_seconds {| wc_day := wc_day now; wc_hour := wc_hour now;
                  wc_minute := latest_bar_minute; wc_second := 0;
                  wc_microsecond := 0 |} in
  if ((minutes mod 5 =? 0) && (wc_second now <? 3))%Z
  then bar_end_time - 300 else bar_end_time.

(** Lines 268-314.  [reqHistoricalData end] is the broker's answer to the
    request for the bars ending at [end]; [None] stands for a call that
    raises. *)
Definition get_latest_complete_5min_bar (now : wallclock)
    (reqHistoricalData : Q -> option (list Bar)) : option Bar :=
  match reqHistoricalData (latest_bar_end_time now) with
  | Some bars =>
      match rev bars with
      | [] => None
      | latest_bar :: _ => Some latest_bar
      end
  | None => None
  end.

(** [t] falls on a five-minute boundary of the clock. *)
Definition on_5min_boundary (t : Q) : Prop :=
  exists k : Z, t == inject_Z (300 * k).

(** ** The run summary (lines 762-799) *)

(** The [for] loop of lines 775-793 over the accumulators
    [(total_pnl, winning_trades, total_trades)]. *)
Fixpoint summary_loop (trades_record : list TradeRecord) (total_pnl : Q)
    (winning_trades total_trades : Z) : Q * Z * Z :=
  match trades_record with
  | [] => (total_pnl, winning_trades, total_trades)
  | trade :: rest =>
      if Qlt_le_dec 0 (ExitPrice trade) then
        summary_loop rest (total_pnl + PnL trade)
          (if Qlt_le_dec 0 (PnL trade) then winning_trades + 1
           else winning_trades)
          (total_trades + 1)
      else summary_loop rest total_pnl winning_trades total_trades
  end.

(** The figures of the closing line, [(total_trades, win_rate, total_pnl)];
    [None] when the ledger is empty and only "no trades" is logged. *)
Definition print_trade_summary (trades_record : list TradeRecord)
    : exc (option (Z * Q * Q)) :=
  match trades_record with
  | [] => Ok None
  | _ =>
      let '(total_pnl, winning_trades, total_trades) :=
        summary_loop trades_record 0 0 0 in
      win_rate <-
        (if (0 <? total_trades)%Z then
           q <- py_div (inject_Z winning_trades) (inject_Z total_trades) ;;
           Ok (q * 100)
         else Ok 0) ;;
      Ok (Some (total_trades, win_rate, total_pnl))
  end.

(** A ledger record counts as closed when its exit price is positive. *)
Definition closed_trade (trade : TradeRecord) : bool :=
  if Qlt_le_dec 0 (ExitPrice trade) then true else false.

Definition sum_pnl (l : list TradeRecord) : Q :=
  fold_right (fun trade acc => PnL trade + acc) 0 l.

(** ** Resolving the contract (lines 76-203) *)

Record trading_config : Type := {
  trade_symbol : string;
  trade_sec_type : string;
  trade_exchange : string;
  trade_currency : string;
  trade_last_trade_date : option string;
  trade_what_to_show : string
}.

(** The ib_insync constructors called at lines 90-117, with their
    arguments. *)
Inductive base_contract : Type :=
| Future (symbol exchange currency lastTradeDateOrContractMonth : string)
| Stock (symbol exchange currency : string)
| Contract (symbol secType exchange currency : string)
| Forex (pair exchange : string).

(** Lines 90-117; [None] is the early [return None]. *)
Definition base_contract_of (cfg : trading_config) : option base_contract :=
  if trade_sec_type cfg =? "FUT" then
    match trade_last_trade_date cfg with
    | Some d =>
        if d =? "" then None
        else Some (Future (trade_symbol cfg) (trade_exchange cfg)
                     (trade_currency cfg) d)
    | None => None
    end
  else if trade_sec_type cfg =? "STK" then
    Some (Stock (trade_symbol cfg) (trade_exchange cfg) (trade_currency cfg))
  else if trade_sec_type cfg =? "CMDTY" then
    Some (Contract (trade_symbol cfg) (trade_sec_type cfg)
            (trade_exchange cfg) (trade_currency cfg))
  else if trade_sec_type cfg =? "CASH" then
    if (trade_symbol cfg =? "XAU") && (trade_currency cfg =? "USD") then
      Some (Forex "XAUUSD" (trade_exchange cfg))
    else if (String.length (trade_symbol cfg) =? 3)%nat
            && (String.length (trade_currency cfg) =? 3)%nat then
      Some (Forex (String.append (trade_symbol cfg) (trade_currency cfg))
              (trade_exchange cfg))
    else None
  else None.

Section ContractLookup.

(** The broker's contract objects. *)
Variable IBContract : Type.

(** The broker's answers; [None] stands for a call that raises.  A details
    entry is the pair of its [contract] and [minTick]; for
    [reqHistoricalData] only whether any bar came back matters. *)
Variable qualifyContracts : base_contract -> option (list IBContract).
Variable reqContractDetails_base :
  base_contract -> option (list (IBContract * Q)).
Variable reqContractDetails : IBContract -> option (list (IBContract * Q)).
Variable reqHistoricalData : IBContract -> string -> option bool.

(** Lines 121-142: [(qualified_contract, current_contract_min_tick)]. *)
Definition resolve_contract (base : base_contract)
    : option (IBContract * Q) :=
  match base with
  | Future _ _ _ _ | Stock _ _ _ =>
      match qualifyContracts base with
      | Some (c :: _) => Some (c, 1 # 100)
      | _ => None
      end
  | _ =>
      match reqContractDetails_base base with
      | Some ((c, minTick) :: _) =>
          Some (c, if Qlt_le_dec 0 minTick then minTick else 1 # 100)
      | _ => None
      end
  end.

(** Lines 145-154. *)
Definition detailed_min_tick (qualified_contract : IBContract)
    (current_contract_min_tick : Q) : Q :=
  if Qeq_bool current_contract_min_tick (1 # 100) then
    match reqContractDetails qualified_contract with
    | Some ((_, minTick) :: _) =>
        if Qlt_le_dec 0 minTick then minTick else current_contract_min_tick
    | _ => current_contract_min_tick
    end
  else current_contract_min_tick.

(** The function returns the contract or [None]; the second component is
    the value of the global [global_min_tick] when it returns. *)
Definition get_contract_from_config (cfg : trading_config)
    (global_min_tick : Q) : option IBContract * Q :=
  match base_contract_of cfg with
  | None => (None, global_min_tick)
  | Some base =>
      match resolve_contract base with
      | None => (None, global_min_tick)
      | Some (qualified_contract, tick) =>
          let current_contract_min_tick :=
            detailed_min_tick qualified_contract tick in
          match reqHistoricalData qualified_contract
                  (trade_what_to_show cfg) with
          | None => (None, global_min_tick)
          | Some true => (Some qualified_contract, current_contract_min_tick)
          | Some false =>
              if negb (trade_what_to_show cfg =? "MIDPOINT")
                 && negb (trade_sec_type cfg =? "FUT") then
                match reqHistoricalData qualified_contract "MIDPOINT" with
                | Some true =>
                    (Some qualified_contract, current_contract_min_tick)
                | _ => (None, global_min_tick)
                end
              else (None, global_min_tick)
          end
      end
  end.

End ContractLookup.

(** ** The trade history file (lines 804-915) *)

Section DailyReport.

(** The columns [print_daily_report] only carries along. *)
Variable other_columns : Type.

(** A row of the history frame with the columns the function reads.  The
    history file is written by line 913 only, from frames built out of the
    ledger dicts, so it has the ledger's columns and every [Time] is the
    string of line 1360. *)
Record report_row : Type := {
  row_Time : string;
  row_EntryPrice : Q;
  row_PnL : Q;
  row_PnLPercent : Q;
  row_other : other_columns
}.

(** [.round(2)] on the two PnL columns (lines 813-816 and 838-841). *)
Definition round_row (r : report_row) : report_row :=
  {| row_Time := row_Time r;
     row_EntryPrice := row_EntryPrice r;
     row_PnL := py_round2 (row_PnL r);
     row_PnLPercent := py_round2 (row_PnLPercent r);
     row_other := row_other r |}.

(** The inner loop of lines 849-854. *)
Definition is_duplicate (new_trade : report_row)
    (existing_trades_df : list report_row) : bool :=
  existsb
    (fun existing_trade =>
       (row_Time new_trade =? row_Time existing_trade)
       && (if Qlt_le_dec
                (Qabs (row_EntryPrice new_trade
                       - row_EntryPrice existing_trade)) (1 # 10)
           then true else false))
    existing_trades_df.

(** [csv] is the history file as read at line 834, [None] when there is no
    file or the [try] block of lines 833-872 raises.  The result is the frame
    written back at line 913; nothing is written for an empty ledger. *)
Definition print_daily_report (csv : option (list report_row))
    (trades_record : list report_row) : option (list report_row) :=
  match trades_record with
  | [] => None
  | _ =>
      let current_trades_df := map round_row trades_record in
      Some
        match csv with
        | None => current_trades_df
        | Some existing_trades_df =>
            let existing_trades_df := map round_row existing_trades_df in
            let new_trades :=
              filter (fun new_trade =>
                        negb (is_duplicate new_trade existing_trades_df))
                current_trades_df in
            match new_trades with
            | [] => existing_trades_df
            | _ => existing_trades_df ++ new_trades
            end
        end
  end.

End DailyReport.

(** * Properties *)

(** ** Numeric primitives *)

Lemma py_int_nonneg (x : Q) : 0 <= x -> py_int x = Qfloor x.
Proof.
  destruct x as [n d]; unfold Qle, py_int, Qfloor; simpl; intros H.
  apply Z.quot_div_nonneg; lia.
Qed.

Lemma py_round_cases (x : Q) :
  py_round x = Qfloor x \/ py_round x = (Qfloor x + 1)%Z.
Proof.
  unfold py_round.
  destruct (Qcompare _ _); [destruct (Z.even _)| |]; auto.
Qed.

Lemma py_round_upper (x : Q) : inject_Z (py_round x) - x <= 1 # 2.
Proof.
  pose proof (Qfloor_le x) as Hlo.
  unfold py_round.
  destruct (Qcompare (x - inject_Z (Qfloor x)) (1 # 2)) eqn:E.
  - apply (proj2 (Qeq_alt _ _)) in E.
    destruct (Z.even (Qfloor x)); [lra|].
    rewrite inject_Z_plus; change (inject_Z 1) with 1; lra.
  - lra.
  - apply (proj2 (Qgt_alt _ _)) in E.
    rewrite inject_Z_plus; change (inject_Z 1) with 1; lra.
Qed.

Lemma py_round_lower (x : Q) : x - inject_Z (py_round x) <= 1 # 2.
Proof.
  pose proof (Qlt_floor x) as Hhi.
  rewrite inject_Z_plus in Hhi; change (inject_Z 1) with 1 in Hhi.
  unfold py_round.
  destruct (Qcompare (x - inject_Z (Qfloor x)) (1 # 2)) eqn:E.
  - apply (proj2 (Qeq_alt _ _)) in E.
    destruct (Z.even (Qfloor x)); [lra|].
    rewrite inject_Z_plus; change (inject_Z 1) with 1; lra.
  - apply (proj2 (Qlt_alt _ _)) in E; lra.
  - rewrite inject_Z_plus; change (inject_Z 1) with 1; lra.
Qed.

Lemma py_round_half (x : Q) : Qabs (inject_Z (py_round x) - x) <= 1 # 2.
Proof.
  apply Qabs_Qle_condition; split.
  - pose proof (py_round_lower x); lra.
  - apply py_round_upper.
Qed.

Lemma py_round_comp (x y : Q) : x == y -> py_round x = py_round y.
Proof.
  intros H; unfold py_round.
  rewrite (Qfloor_comp _ _ H).
  replace (Qcompare (x - inject_Z (Qfloor y)) (1 # 2))
    with (Qcompare (y - inject_Z (Qfloor y)) (1 # 2)); [reflexivity|].
  apply Qcompare_comp; [rewrite H|]; reflexivity.
Qed.

Lemma py_round_inject (k : Z) : py_round (inject_Z k) = k.
Proof.
  unfold py_round; rewrite Qfloor_Z.
  replace (Qcompare (inject_Z k - inject_Z k) (1 # 2)) with Lt; [reflexivity|].
  symmetry; apply (proj1 (Qlt_alt _ _)); lra.
Qed.

Lemma inject_Z_succ_le (a b : Z) : (a < b)%Z -> inject_Z a + 1 <= inject_Z b.
Proof.
  intros H.
  assert (Hle : (a + 1 <= b)%Z) by lia.
  rewrite Zle_Qle, inject_Z_plus in Hle; exact Hle.
Qed.

Lemma py_round_le_int (x : Q) (k : Z) :
  x <= inject_Z k -> (py_round x <= k)%Z.
Proof.
  intros H.
  destruct (Z_le_gt_dec (py_round x) k) as [|Hgt]; [assumption|].
  pose proof (py_round_upper x).
  pose proof (inject_Z_succ_le k (py_round x) ltac:(lia)).
  lra.
Qed.

Lemma py_round_ge_int (x : Q) (k : Z) :
  inject_Z k <= x -> (k <= py_round x)%Z.
Proof.
  intros H.
  destruct (Z_le_gt_dec k (py_round x)) as [|Hgt]; [assumption|].
  pose proof (py_round_lower x).
  pose proof (inject_Z_succ_le (py_round x) k ltac:(lia)).
  lra.
Qed.

(** [round] picks an integer that no other integer beats. *)
Lemma py_round_nearest (x : Q) (k : Z) :
  Qabs (inject_Z (py_round x) - x) <= Qabs (inject_Z k - x).
Proof.
  pose proof (py_round_half x) as Hhalf.
  pose proof (py_round_upper x) as Hup.
  pose proof (py_round_lower x) as Hlo.
  destruct (Z.lt_trichotomy k (py_round x)) as [Hlt | [Heq | Hgt]].
  - pose proof (inject_Z_succ_le _ _ Hlt).
    apply Qle_trans with (x - inject_Z k); [lra|].
    rewrite <- (Qabs_opp (inject_Z k - x)).
    apply Qle_trans with (- (inject_Z k - x)); [lra | apply Qle_Qabs].
  - subst k; apply Qle_refl.
  - pose proof (inject_Z_succ_le _ _ Hgt).
    apply Qle_trans with (inject_Z k - x); [lra | apply Qle_Qabs].
Qed.

(** ** Price quantization *)

Lemma effective_tick_size_eq (global_min_tick : option Q) :
  effective_tick_size global_min_tick =
  match global_min_tick with
  | Some t => if Qlt_le_dec 0 t then t else 1 # 100
  | None => 1 # 100
  end.
Proof.
  unfold effective_tick_size.
  destruct global_min_tick as [t|]; [|reflexivity].
  destruct (Qlt_le_dec 0 t) as [Hpos|]; [|reflexivity].
  destruct (Qle_bool t 0) eqn:E; [|reflexivity].
  apply Qle_bool_iff in E; lra.
Qed.

Lemma effective_tick_size_pos (global_min_tick : option Q) :
  0 < effective_tick_size global_min_tick.
Proof.
  rewrite effective_tick_size_eq.
  destruct global_min_tick as [t|]; [|reflexivity].
  destruct (Qlt_le_dec 0 t); [assumption | reflexivity].
Qed.

Lemma py_div_nonzero (x y : Q) : ~ y == 0 -> py_div x y = Ok (x / y).
Proof.
  intros H; unfold py_div.
  destruct (Qeq_bool y 0) eqn:E; [|reflexivity].
  apply Qeq_bool_eq in E; contradiction.
Qed.

Lemma format_price_ok (global_min_tick : option Q) (price : Q) :
  format_price global_min_tick price =
  Ok (inject_Z (py_round (price / effective_tick_size global_min_tick))
      * effective_tick_size global_min_tick).
Proof.
  pose proof (effective_tick_size_pos global_min_tick) as Hpos.
  unfold format_price.
  rewrite py_div_nonzero; [reflexivity | lra].
Qed.

Section Quantized.

Variable global_min_tick : option Q.

Let tick := effective_tick_size global_min_tick.

Lemma tick_pos : 0 < tick.
Proof. apply effective_tick_size_pos. Qed.

Lemma quantized_error (price : Q) :
  quantized global_min_tick price - price ==
  (inject_Z (py_round (price / tick)) - price / tick) * tick.
Proof.
  pose proof tick_pos as Hpos.
  unfold quantized; fold tick; field; lra.
Qed.

Lemma quantized_within_half_tick (price : Q) :
  Qabs (quantized global_min_tick price - price) <= tick / 2.
Proof.
  pose proof tick_pos as Hpos.
  rewrite quantized_error, Qabs_Qmult, (Qabs_pos tick) by lra.
  pose proof (py_round_half (price / tick)) as Hhalf.
  setoid_replace (tick / 2) with ((1 # 2) * tick) by field.
  apply Qmult_le_compat_r; [assumption | lra].
Qed.

Lemma quantized_le_multiple (price : Q) (k : Z) :
  price <= inject_Z k * tick -> quantized global_min_tick price <= inject_Z k * tick.
Proof.
  pose proof tick_pos as Hpos; intros H.
  unfold quantized; fold tick.
  apply Qmult_le_compat_r; [|lra].
  rewrite <- Zle_Qle; apply py_round_le_int.
  apply Qle_shift_div_r; assumption.
Qed.

Lemma quantized_ge_multiple (price : Q) (k : Z) :
  inject_Z k * tick <= price -> inject_Z k * tick <= quantized global_min_tick price.
Proof.
  pose proof tick_pos as Hpos; intros H.
  unfold quantized; fold tick.
  apply Qmult_le_compat_r; [|lra].
  rewrite <- Zle_Qle; apply py_round_ge_int.
  apply Qle_shift_div_l; assumption.
Qed.

Lemma quantized_nearest (price : Q) (k : Z) :
  Qabs (quantized global_min_tick price - price) <= Qabs (inject_Z k * tick - price).
Proof.
  pose proof tick_pos as Hpos.
  rewrite quantized_error.
  setoid_replace (inject_Z k * tick - price)
    with ((inject_Z k - price / tick) * tick) by (field; lra).
  rewrite !Qabs_Qmult.
  apply Qmult_le_compat_r; [apply py_round_nearest | apply Qabs_nonneg].
Qed.

End Quantized.

Lemma format_price_quantized (global_min_tick : option Q) (price : Q) :
  format_price global_min_tick price = Ok (quantized global_min_tick price).
Proof. apply format_price_ok. Qed.

(** C10.  [format_price] never raises: whatever [global_min_tick] holds, the
    tick it divides by is [global_min_tick] when that is a positive number and
    0.01 when it is [None], zero or negative, so it is strictly positive; the
    value returned is [round(price/tick)*tick], and no other multiple of the
    tick is closer to [price]. *)
Theorem format_price_total (global_min_tick : option Q) (price : Q) :
  let tick := effective_tick_size global_min_tick in
  tick = match global_min_tick with
         | Some t => if Qlt_le_dec 0 t then t else 1 # 100
         | None => 1 # 100
         end
  /\ 0 < tick
  /\ format_price global_min_tick price
     = Ok (inject_Z (py_round (price / tick)) * tick)
  /\ forall k : Z,
       Qabs (inject_Z (py_round (price / tick)) * tick - price)
       <= Qabs (inject_Z k * tick - price).
Proof.
  cbv zeta; repeat split.
  - apply effective_tick_size_eq.
  - apply effective_tick_size_pos.
  - apply format_price_ok.
  - intros k; apply (quantized_nearest global_min_tick price k).
Qed.

(** ** Signal generation *)





(** A bar that closes at its open gives neither comparison, also at open 0,
    where the quotient is nan. *)
Lemma price_change_flat (o c : Q) :
  c == o ->
  np_positive (np_times_100 (np_div (c - o) o)) = false
  /\ np_negative (np_times_100 (np_div (c - o) o)) = false.
Proof.
  intros Hflat. unfold np_div.
  destruct (Qeq_bool o 0) eqn:E.
  - destruct (Qlt_le_dec 0 (c - o)) as [H|_]; [lra|].
    destruct (Qlt_le_dec (c - o) 0) as [H|_]; [lra|].
    split; reflexivity.
  - apply Qeq_bool_neq in E.
    assert (Hz : (c - o) / o * 100 == 0) by (rewrite Hflat; field; assumption).
    cbn [np_times_100 np_positive np_negative].
    destruct (Qlt_le_dec 0 _) as [H|_]; [lra|].
    destruct (Qlt_le_dec _ 0) as [H|_]; [lra|].
    split; reflexivity.
Qed.

Lemma generate_signal_flat (global_min_tick : option Q) (b : Bar) (R : Q) :
  close b == open b -> generate_signal global_min_tick b R = Ok NoSignal.
Proof.
  intros Hflat. unfold generate_signal.
  destruct (price_change_flat (open b) (close b) Hflat) as [-> ->].
  reflexivity.
Qed.


Example signal_buy_example :
  generate_signal (Some (1 # 100))
    {| date := 0; open := 2000; high := 2002; low := 1999; close := 2001;
       volume := 0 |} (20 * (1 # 10))
  = Ok (Signal "BUY" (199900 # 100)).
Proof. vm_compute; reflexivity. Qed.

(** With an open of 0 the quotient of line 1248 is inf and the bar still
    gives a BUY. *)
Example signal_at_zero_open :
  generate_signal (Some (1 # 100))
    {| date := 0; open := 0; high := 1; low := 0; close := 1; volume := 0 |}
    (1 # 10)
  = Ok (Signal "BUY" (90 # 100)).
Proof. vm_compute; reflexivity. Qed.

(** ** Position size *)

Lemma Qdiv_pos (x y : Q) : 0 < x -> 0 < y -> 0 < x / y.
Proof.
  intros Hx Hy; apply Qlt_shift_div_l; [assumption | lra].
Qed.

Lemma Qfloor_mult_le (x p : Q) : 0 < p -> inject_Z (Qfloor (x / p)) * p <= x.
Proof.
  intros Hp.
  pose proof (Qfloor_le (x / p)) as H.
  apply Qle_trans with (x / p * p).
  - apply Qmult_le_compat_r; [assumption | lra].
  - setoid_replace (x / p * p) with x by (field; lra); apply Qle_refl.
Qed.

Lemma Qfloor_pos_nonneg (x : Q) : 0 < x -> (0 <= Qfloor x)%Z.
Proof.
  intros H.
  change 0%Z with (Qfloor 0); apply Qfloor_resp_le; lra.
Qed.

Section Sizing.

Variables a L r R p : Q.
Hypothesis Ha : 0 < a.
Hypothesis HL : 0 < L.
Hypothesis Hr : 0 < r.
Hypothesis HR : 0 < R.
Hypothesis Hp : 0 < p.

Let risk_floor := Qfloor (a * r / R).
Let lev_floor := Qfloor (a * L / p).
Let qmin := Z.min (Z.max 1 risk_floor) (Z.max 1 lev_floor).

(** The value of [position_size], branch by branch. *)
Lemma position_size_value :
  (L < inject_Z qmin * p / a /\
   position_size a L r R p =
   Ok {| qty_risk := Z.max 1 risk_floor; qty_leverage := Z.max 1 lev_floor;
         qty_min := qmin; leverage_check_fired := true; qty := lev_floor |})
  \/ (inject_Z qmin * p / a <= L /\
      position_size a L r R p =
      Ok {| qty_risk := Z.max 1 risk_floor; qty_leverage := Z.max 1 lev_floor;
            qty_min := qmin; leverage_check_fired := false; qty := qmin |}).
Proof.
  assert (Hq1 : 0 <= a * r / R)
    by (apply Qlt_le_weak, Qdiv_pos; [nra | assumption]).
  assert (Hq2 : 0 <= a * L / p)
    by (apply Qlt_le_weak, Qdiv_pos; [nra | assumption]).
  unfold position_size.
  repeat (rewrite py_div_nonzero by lra; cbn [bind]).
  rewrite !py_int_nonneg by assumption.
  fold risk_floor lev_floor; fold qmin.
  destruct (Qlt_le_dec L (inject_Z qmin * p / a)) as [Hf|Hf].
  - left; split; [assumption|].
    repeat (rewrite py_div_nonzero by lra; cbn [bind]).
    reflexivity.
  - right; split; [assumption | reflexivity].
Qed.

Lemma qmin_within_cap : (1 <= lev_floor)%Z -> inject_Z qmin * p / a <= L.
Proof.
  intros H1.
  assert (Hle : (qmin <= lev_floor)%Z) by (unfold qmin; lia).
  rewrite Zle_Qle in Hle.
  pose proof (Qfloor_mult_le (a * L) p Hp) as Hfl; fold lev_floor in Hfl.
  apply Qle_shift_div_r; [assumption|].
  apply Qle_trans with (inject_Z lev_floor * p); [|lra].
  apply Qmult_le_compat_r; [assumption | lra].
Qed.

(** When the final leverage check fires the recomputed quantity is zero. *)
Lemma fired_quantity_zero :
  L < inject_Z qmin * p / a -> lev_floor = 0%Z.
Proof.
  intros Hf.
  assert (0 <= lev_floor)%Z
    by (apply Qfloor_pos_nonneg, Qdiv_pos; [nra | assumption]).
  destruct (Z_le_gt_dec 1 lev_floor) as [H1|H1]; [|lia].
  pose proof (qmin_within_cap H1); lra.
Qed.


End Sizing.

(** ** The signal and its stop *)










Example position_size_example :
  position_size ACCOUNT_SIZE LEVERAGE RISK_PCT 2 2000
  = Ok {| qty_risk := 125; qty_leverage := 50; qty_min := 50;
          leverage_check_fired := false; qty := 50 |}.
Proof. vm_compute; reflexivity. Qed.

(** Whenever the final leverage check fires on positive inputs, the quantity
    it assigns is zero. *)
Lemma leverage_check_fired_zero (accountSize riskFraction leverageCap price
    R : Q) (sz : sizing) :
  0 < accountSize -> 0 < riskFraction -> 0 < leverageCap -> 0 < price ->
  0 < R ->
  position_size accountSize leverageCap riskFraction R price = Ok sz ->
  leverage_check_fired sz = true -> qty sz = 0%Z.
Proof.
  intros Ha Hr HL Hp HR E Hfired.
  destruct (position_size_value accountSize leverageCap riskFraction R price
              Ha HL Hr HR Hp) as [[Hf E'] | [Hf E']];
    rewrite E' in E; injection E as <-; cbn in Hfired |- *;
    [|discriminate].
  apply (fired_quantity_zero accountSize leverageCap riskFraction R price);
    assumption.
Qed.

(** C2 (the code departs from it).  With the script's constants, a bar closing
    at 700000 and R = 2, the final leverage check fires and replaces the
    quantity 1 by [int(100000/700000) = 0]; the run then reaches
    [place_trade] with quantity 0. *)
Theorem leverage_clamp_submits_zero :
  position_size ACCOUNT_SIZE LEVERAGE RISK_PCT 2 700000
  = Ok {| qty_risk := 125; qty_leverage := 1; qty_min := 1;
          leverage_check_fired := true; qty := 0 |}
  /\ exists stop R,
       main_decision (Some (1 # 100))
         [{| date := 299; open := 699000; high := 700000; low := 699000;
             close := 700000; volume := 0 |}] 300
         (daily_bars_around 700000)
       = Ok (Enter "BUY" 0 stop R) /\ R == 2.
Proof.
  split; [vm_compute; reflexivity|].
  eexists; eexists; split; [vm_compute; reflexivity|].
  vm_compute; reflexivity.
Qed.

(** ** Fatal checks and the no-signal exit *)

Lemma cleanup_no_order (open_orders_at_exit : list Z) :
  no_order_placed (cleanup open_orders_at_exit).
Proof.
  intros o H; unfold cleanup in H.
  apply in_app_or in H; destruct H as [H | [H | []]]; [|discriminate].
  apply in_map_iff in H; destruct H as [x [H _]]; discriminate.
Qed.

Lemma abort_no_order (open_orders_at_exit : list Z) :
  no_order_placed (Disconnect :: cleanup open_orders_at_exit).
Proof.
  intros o [H | H]; [discriminate|].
  exact (cleanup_no_order open_orders_at_exit o H).
Qed.

Section Exits.

Variable global_min_tick : option Q.
Variable trade_and_monitor : string -> Z -> Q -> Q -> list event.
Variable open_orders_at_exit : list Z.

Let run_main := main global_min_tick trade_and_monitor open_orders_at_exit.

Lemma main_abort (df : list Bar) (next_candle_end : Q) (daily_df : list Bar)
    (code : Z) :
  main_decision global_min_tick df next_candle_end daily_df = Ok (Abort code) ->
  exit_code (run_main df next_candle_end daily_df) = code
  /\ no_order_placed (trace (run_main df next_candle_end daily_df)).
Proof.
  intros E; unfold run_main, main; rewrite E; cbn [exit_code trace].
  split; [reflexivity | apply abort_no_order].
Qed.

Lemma main_raise (df : list Bar) (next_candle_end : Q) (daily_df : list Bar)
    (e : pyerror) :
  main_decision global_min_tick df next_candle_end daily_df = Raise e ->
  exit_code (run_main df next_candle_end daily_df) = 0%Z
  /\ no_order_placed (trace (run_main df next_candle_end daily_df)).
Proof.
  intros E; unfold run_main, main; rewrite E; cbn [exit_code trace].
  split; [reflexivity | apply cleanup_no_order].
Qed.

Lemma fatal_decision (df : list Bar) (next_candle_end : Q)
    (daily_df : list Bar) :
  (List.length daily_df < 14)%nat
  \/ calculate_atr daily_df 14 = Ok None
  \/ (exists ATR, calculate_atr daily_df 14 = Ok (Some ATR) /\ ATR <= 0) ->
  main_decision global_min_tick df next_candle_end daily_df = Ok (Abort 1).
Proof.
  intros H; unfold main_decision.
  destruct (rev df) as [|latest_bar rest]; [reflexivity|].
  destruct (Qlt_le_dec 300 _); [reflexivity|].
  destruct (List.length daily_df <? 14)%nat eqn:Elen; [reflexivity|].
  apply Nat.ltb_ge in Elen.
  destruct H as [H | [H | [ATR [H Hle]]]]; [lia | |]; rewrite H; cbn [bind].
  - reflexivity.
  - apply Qle_bool_iff in Hle; rewrite Hle; reflexivity.
Qed.

Lemma no_signal_decision (earlier : list Bar) (latest_bar : Bar)
    (next_candle_end : Q) (daily_df : list Bar) (ATR : Q) :
  Qabs (date latest_bar - (next_candle_end - 1)) <= 300 ->
  (14 <= List.length daily_df)%nat ->
  calculate_atr daily_df 14 = Ok (Some ATR) -> 0 < ATR ->
  close latest_bar == open latest_bar ->
  main_decision global_min_tick (earlier ++ [latest_bar]) next_candle_end
    daily_df = Ok (Abort 0).
Proof.
  intros Htime Hlen HATR Hpos Hflat; unfold main_decision.
  rewrite rev_app_distr; cbn [rev app].
  destruct (Qlt_le_dec 300 _) as [Hlt|_]; [lra|].
  apply Nat.ltb_ge in Hlen; rewrite Hlen, HATR; cbn [bind].
  destruct (Qle_bool ATR 0) eqn:E; [apply Qle_bool_iff in E; lra|].
  rewrite (generate_signal_flat global_min_tick latest_bar _ Hflat).
  reflexivity.
Qed.

(** C8.  The run ends with exit code 1, and no order is ever placed, whenever
    fewer than 14 daily bars were retrieved or the computed ATR is NaN or not
    positive; and when every earlier check passes and the latest bar closes
    exactly at its open, the run ends with exit code 0 and no order is
    placed. *)
Theorem fatal_and_no_signal_exits (earlier : list Bar) (latest_bar : Bar)
    (next_candle_end : Q) (daily_df : list Bar) :
  let df := earlier ++ [latest_bar] in
  let r := main global_min_tick trade_and_monitor open_orders_at_exit df
             next_candle_end daily_df in
  ((List.length daily_df < 14)%nat
   \/ calculate_atr daily_df 14 = Ok None
   \/ (exists ATR, calculate_atr daily_df 14 = Ok (Some ATR) /\ ATR <= 0) ->
   exit_code r = 1%Z /\ exit_code r <> 0%Z /\ no_order_placed (trace r))
  /\ (Qabs (date latest_bar - (next_candle_end - 1)) <= 300 ->
      (14 <= List.length daily_df)%nat ->
      (exists ATR, calculate_atr daily_df 14 = Ok (Some ATR) /\ 0 < ATR) ->
      close latest_bar == open latest_bar ->
      exit_code r = 0%Z /\ no_order_placed (trace r)).
Proof.
  cbv zeta; split.
  - intros H.
    pose proof (fatal_decision (earlier ++ [latest_bar]) next_candle_end
                  daily_df H) as E.
    destruct (main_abort _ _ _ _ E) as [Hc Hn]; fold run_main.
    rewrite Hc; repeat split; [discriminate | exact Hn].
  - intros Htime Hlen [ATR [HATR Hpos]] Hflat.
    exact (main_abort _ _ _ _
             (no_signal_decision earlier latest_bar next_candle_end daily_df
                ATR Htime Hlen HATR Hpos Hflat)).
Qed.

End Exits.

Lemma fatal_and_no_signal_exits_witness :
  let b := {| date := 299; open := 2000; high := 2001; low := 1999;
              close := 2000; volume := 0 |} in
  let run_with := main (Some (1 # 100)) (fun _ _ _ _ => []) [] [b] 300 in
  exit_code (run_with []) = 1%Z
  /\ exit_code (run_with (daily_bars_around 2000)) = 0%Z.
Proof.
  cbv zeta; split.
  - apply (proj1 (fatal_and_no_signal_exits (Some (1 # 100))
                    (fun _ _ _ _ => []) [] []
                    {| date := 299; open := 2000; high := 2001; low := 1999;
                       close := 2000; volume := 0 |} 300 [])).
    left; cbn; lia.
  - apply (proj2 (fatal_and_no_signal_exits (Some (1 # 100))
                    (fun _ _ _ _ => []) [] []
                    {| date := 299; open := 2000; high := 2001; low := 1999;
                       close := 2000; volume := 0 |} 300
                    (daily_bars_around 2000))).
    + apply Qle_bool_imp_le; vm_compute; reflexivity.
    + cbn; lia.
    + eexists; split; [vm_compute; reflexivity | reflexivity].
    + reflexivity.
Defined.

(** ** Market close *)

Lemma close_position_at_market_events (env : close_env)
    (trades_record : list TradeRecord) (action : string) (quantity : Z)
    (entry_price : Q) (start_time : datetime) (reason : string) :
  exists closed trades',
    close_position_at_market env trades_record action quantity entry_price
      start_time reason
    = (close_events env action quantity, Ok (closed, trades')).
Proof.
  unfold close_position_at_market, close_events.
  destruct (poll_close_order env 40 0) as [exit_price|];
    [destruct (Qeq_bool exit_price 0);
     [|destruct (profit_and_result action quantity entry_price exit_price)
         as [[[pl pp] res]|e]]|];
    cbn; rewrite ?app_nil_r; eexists; eexists; reflexivity.
Qed.

(** A close order that is never reported filled, or filled at price zero,
    leaves the ledger as it was. *)
Lemma close_position_at_market_unfilled (env : close_env)
    (trades_record : list TradeRecord) (action : string) (quantity : Z)
    (entry_price : Q) (start_time : datetime) (reason : string) :
  poll_close_order env 40 0 = None
  \/ (exists p, poll_close_order env 40 0 = Some p /\ p == 0) ->
  close_position_at_market env trades_record action quantity entry_price
    start_time reason
  = (close_events env action quantity, Ok (false, trades_record)).
Proof.
  unfold close_position_at_market, close_events.
  intros [H | [p [H Hz]]]; rewrite H.
  - cbn; rewrite ?app_nil_r; reflexivity.
  - apply Qeq_eq_bool in Hz; rewrite Hz.
    cbn; rewrite ?app_nil_r; reflexivity.
Qed.

(** ** Position monitor *)

Section MonitorFacts.

Variable contract_symbol : string.
Variables (action : string) (quantity : Z) (entry_price stop_price : Q).
Variable config_max_hold_duration_minutes : Z.
Variable start_time : datetime.

Let pass := monitor_pass contract_symbol action quantity entry_price
              stop_price.
Let loop := monitor_loop contract_symbol action quantity entry_price
              stop_price.

Lemma eod_check (t : datetime) (elapsed : Q) :
  exit_policy_check "EOD" config_max_hold_duration_minutes t elapsed
  = if (hour t =? 15)%Z && (50 <=? minute t)%Z
    then (true, "EOD Market Close") else (false, "").
Proof. reflexivity. Qed.

(** A pass in which the exit policy fires ends in [PolicyClose], after the
    market close has been invoked with the policy's reason. *)
Lemma pass_policy_fires (strategy : string) (last_update_time : datetime)
    (trades_record : list TradeRecord) (w : wake) (reason : string) :
  exit_policy_check strategy config_max_hold_duration_minutes (w_now w)
    (total_seconds (w_now w) start_time / 60) = (true, reason) ->
  pass strategy config_max_hold_duration_minutes start_time last_update_time
    trades_record w
  = (r <<- close_position_at_market (w_close w) trades_record action quantity
             entry_price start_time reason ;;
     ret (Break (PolicyClose reason (fst r)) (snd r))).
Proof.
  intros H; unfold pass, monitor_pass; rewrite H; reflexivity.
Qed.

(** A pass in which the exit policy does not fire never ends in
    [PolicyClose]. *)
Lemma pass_policy_silent (strategy : string) (last_update_time : datetime)
    (trades_record : list TradeRecord) (w : wake) (reason0 : string) :
  exit_policy_check strategy config_max_hold_duration_minutes (w_now w)
    (total_seconds (w_now w) start_time / 60) = (false, reason0) ->
  forall ev reason closed trades',
    pass strategy config_max_hold_duration_minutes start_time last_update_time
      trades_record w
    <> (ev, Ok (Break (PolicyClose reason closed) trades')).
Proof.
  intros H ev reason closed trades'; unfold pass, monitor_pass; rewrite H.
  destruct (negb (in_list contract_symbol (w_positions w))).
  - destruct (profit_and_result action quantity entry_price stop_price)
      as [[[pl pp] res]|e]; cbn; discriminate.
  - destruct (Qle_bool 60 _); [|cbn; discriminate].
    destruct (status_refresh action entry_price (w_market_price w));
      cbn; discriminate.
Qed.

End MonitorFacts.

(** C1 (as the code has it).  Under the EndOfDay policy a pass of the monitor
    ends in PolicyClose exactly when the wall-clock hour is 15 and the minute
    is at least 50; it then has invoked the market close with reason
    "EOD Market Close".  Such a pass is never earlier than 15:50, and a pass
    whose clock reads 16:00 or later does not end in PolicyClose. *)
Theorem eod_transition_iff (contract_symbol action : string) (quantity : Z)
    (entry_price stop_price : Q) (config_max_hold_duration_minutes : Z)
    (start_time last_update_time : datetime)
    (trades_record : list TradeRecord) (w : wake) :
  let p := monitor_pass contract_symbol action quantity entry_price stop_price
             "EOD" config_max_hold_duration_minutes start_time
             last_update_time trades_record w in
  let in_window := (hour (w_now w) = 15 /\ 50 <= minute (w_now w))%Z in
  ((exists ev reason closed trades',
      p = (ev, Ok (Break (PolicyClose reason closed) trades')))
   <-> in_window)
  /\ (in_window ->
      exists closed trades',
        p = (close_events (w_close w) action quantity,
             Ok (Break (PolicyClose "EOD Market Close" closed) trades')))
  /\ (in_window -> at_or_after 15 50 (w_now w))
  /\ ((16 <= hour (w_now w))%Z -> ~ in_window).
Proof.
  cbv zeta.
  pose proof (eod_check config_max_hold_duration_minutes (w_now w)
                (total_seconds (w_now w) start_time / 60)) as Hc.
  assert (Hfire :
    (hour (w_now w) = 15 /\ 50 <= minute (w_now w))%Z ->
    exists closed trades',
      monitor_pass contract_symbol action quantity entry_price stop_price
        "EOD" config_max_hold_duration_minutes start_time last_update_time
        trades_record w
      = (close_events (w_close w) action quantity,
         Ok (Break (PolicyClose "EOD Market Close" closed) trades'))).
  { intros [Hh Hm].
    apply Z.eqb_eq in Hh; apply Z.leb_le in Hm.
    rewrite Hh, Hm in Hc; cbn [andb] in Hc.
    rewrite (pass_policy_fires _ _ _ _ _ _ _ _ _ _ _ _ Hc).
    destruct (close_position_at_market_events (w_close w) trades_record
                action quantity entry_price start_time "EOD Market Close")
      as [closed [trades' E]].
    rewrite E; cbn; rewrite app_nil_r.
    exists closed, trades'; reflexivity. }
  split; [split|split; [exact Hfire|split]].
  - intros [ev [reason [closed [trades' E]]]].
    destruct ((hour (w_now w) =? 15)%Z && (50 <=? minute (w_now w))%Z)
      eqn:Eb.
    + apply andb_prop in Eb; destruct Eb as [Hh Hm].
      apply Z.eqb_eq in Hh; apply Z.leb_le in Hm; auto.
    + exfalso.
      exact (pass_policy_silent _ _ _ _ _ _ _ _ _ _ _ _ Hc _ _ _ _ E).
  - intros Hw; destruct (Hfire Hw) as [closed [trades' E]].
    eexists; eexists; eexists; eexists; exact E.
  - intros [Hh Hm]; right; auto.
  - intros H16 [Hh _]; lia.
Qed.

Lemma eod_transition_iff_witness :
  let t := {| hour := 15; minute := 55; timestamp := 0 |} in
  let w := {| w_now := t; w_positions := ["XAUUSD"]; w_end_time := t;
              w_market_price := None;
              w_close := {| ce_open_orders := [];
                            ce_status := fun _ => ("Filled", 2001);
                            ce_end_time := t |} |} in
  exists closed trades',
    monitor_pass "XAUUSD" "BUY" 10 2000 1998 "EOD" 60 t t [] w
    = (close_events (w_close w) "BUY" 10,
       Ok (Break (PolicyClose "EOD Market Close" closed) trades')).
Proof.
  cbv zeta.
  apply (proj1 (proj2 (eod_transition_iff "XAUUSD" "BUY" 10 2000 1998 60
           {| hour := 15; minute := 55; timestamp := 0 |}
           {| hour := 15; minute := 55; timestamp := 0 |} []
           {| w_now := {| hour := 15; minute := 55; timestamp := 0 |};
              w_positions := ["XAUUSD"];
              w_end_time := {| hour := 15; minute := 55; timestamp := 0 |};
              w_market_price := None;
              w_close :=
                {| ce_open_orders := [];
                   ce_status := fun _ => ("Filled", 2001);
                   ce_end_time :=
                     {| hour := 15; minute := 55; timestamp := 0 |} |} |}))).
  cbn; lia.
Defined.

(** C1 as stated fails: at 16:05 the wall clock is past 15:50, yet the pass
    neither closes the position nor leaves the loop. *)
Lemma eod_not_triggered_at_1605 :
  let t := {| hour := 16; minute := 5; timestamp := 900 |} in
  let t0 := {| hour := 15; minute := 50; timestamp := 0 |} in
  let w := {| w_now := t; w_positions := ["XAUUSD"]; w_end_time := t;
              w_market_price := None;
              w_close := {| ce_open_orders := [];
                            ce_status := fun _ => ("Filled", 2001);
                            ce_end_time := t |} |} in
  at_or_after 15 50 t
  /\ exit_policy_check "EOD" 60 t (total_seconds t t0 / 60) = (false, "")
  /\ monitor_pass "XAUUSD" "BUY" 10 2000 1998 "EOD" 60 t0 t0 [] w
     = ([], Ok (Continue t))
  /\ monitor_loop "XAUUSD" "BUY" 10 2000 1998 "EOD" 60 t0 t0 [] [w]
     = ([], Ok (WakesExhausted, [])).
Proof.
  cbv zeta; split; [left; cbn; lia|].
  split; [reflexivity|]; split; vm_compute; reflexivity.
Qed.

(** Once a pass breaks, the loop returns its result and looks at no later
    observation. *)
Lemma loop_break (contract_symbol action : string) (quantity : Z)
    (entry_price stop_price : Q) (strategy : string) (max_minutes : Z)
    (start_time last_update_time : datetime)
    (trades_record : list TradeRecord) (w : wake) (rest : list wake)
    (ev : list event) (how : monitor_exit) (trades' : list TradeRecord) :
  monitor_pass contract_symbol action quantity entry_price stop_price strategy
    max_minutes start_time last_update_time trades_record w
  = (ev, Ok (Break how trades')) ->
  monitor_loop contract_symbol action quantity entry_price stop_price strategy
    max_minutes start_time last_update_time trades_record (w :: rest)
  = (ev, Ok (how, trades')).
Proof.
  intros E; cbn [monitor_loop]; rewrite E; cbn; rewrite app_nil_r.
  reflexivity.
Qed.

(** C9.  When the exit policy (EOD or MaxDuration) fires in a pass and the
    market close order is not reported filled within its 40 polls (or is
    reported filled at price zero), [close_position_at_market] returns
    failure with the ledger untouched, and the monitor nevertheless leaves
    the loop in that pass: exactly one market order was submitted, the ledger
    is as it was at entry, and no later observation is looked at, whatever it
    holds. *)
Theorem policy_close_unfilled_ends_monitor (contract_symbol action : string)
    (quantity : Z) (entry_price stop_price : Q) (strategy : string)
    (max_minutes : Z) (start_time last_update_time : datetime)
    (trades_record : list TradeRecord) (w : wake) (rest : list wake)
    (reason : string) :
  exit_policy_check strategy max_minutes (w_now w)
    (total_seconds (w_now w) start_time / 60) = (true, reason) ->
  (poll_close_order (w_close w) 40 0 = None
   \/ exists p, poll_close_order (w_close w) 40 0 = Some p /\ p == 0) ->
  close_position_at_market (w_close w) trades_record action quantity
    entry_price start_time reason
  = (close_events (w_close w) action quantity, Ok (false, trades_record))
  /\ monitor_loop contract_symbol action quantity entry_price stop_price
       strategy max_minutes start_time last_update_time trades_record
       (w :: rest)
     = (close_events (w_close w) action quantity,
        Ok (PolicyClose reason false, trades_record))
  /\ List.length (filter is_place (close_events (w_close w) action quantity))
     = 1%nat.
Proof.
  intros Hfire Hunfilled.
  pose proof (close_position_at_market_unfilled (w_close w) trades_record
                action quantity entry_price start_time reason Hunfilled)
    as Hclose.
  split; [exact Hclose|]; split.
  - apply loop_break.
    rewrite (pass_policy_fires _ _ _ _ _ _ _ _ _ _ _ _ Hfire), Hclose.
    cbn; rewrite app_nil_r; reflexivity.
  - unfold close_events; rewrite filter_app; cbn.
    rewrite length_app; cbn.
    replace (filter is_place (map CancelListed (ce_open_orders (w_close w))))
      with (@nil event); [reflexivity|].
    induction (ce_open_orders (w_close w)); [reflexivity | assumption].
Qed.

Lemma policy_close_unfilled_ends_monitor_witness :
  let t0 := {| hour := 10; minute := 0; timestamp := 0 |} in
  let t := {| hour := 15; minute := 50; timestamp := 21000 |} in
  let env := {| ce_open_orders := [7%Z];
                ce_status := fun _ => ("Submitted", 0);
                ce_end_time := t |} in
  let w := {| w_now := t; w_positions := ["XAUUSD"]; w_end_time := t;
              w_market_price := None; w_close := env |} in
  let trade := new_trade_record t0 "BUY" 2000 10 1998 "XAUUSD" in
  monitor_loop "XAUUSD" "BUY" 10 2000 1998 "EOD" 60 t0 t0 [trade] [w; w]
  = ([CancelListed 7; PlaceOrder (MarketOrder "SELL" 10)],
     Ok (PolicyClose "EOD Market Close" false, [trade])).
Proof.
  cbv zeta.
  apply (proj1 (proj2
    (policy_close_unfilled_ends_monitor "XAUUSD" "BUY" 10 2000 1998 "EOD" 60
       {| hour := 10; minute := 0; timestamp := 0 |}
       {| hour := 10; minute := 0; timestamp := 0 |}
       [new_trade_record {| hour := 10; minute := 0; timestamp := 0 |}
          "BUY" 2000 10 1998 "XAUUSD"]
       {| w_now := {| hour := 15; minute := 50; timestamp := 21000 |};
          w_positions := ["XAUUSD"];
          w_end_time := {| hour := 15; minute := 50; timestamp := 21000 |};
          w_market_price := None;
          w_close :=
            {| ce_open_orders := [7%Z];
               ce_status := fun _ => ("Submitted", 0);
               ce_end_time :=
                 {| hour := 15; minute := 50; timestamp := 21000 |} |} |}
       [{| w_now := {| hour := 15; minute := 50; timestamp := 21000 |};
           w_positions := ["XAUUSD"];
           w_end_time := {| hour := 15; minute := 50; timestamp := 21000 |};
           w_market_price := None;
           w_close :=
             {| ce_open_orders := [7%Z];
                ce_status := fun _ => ("Submitted", 0);
                ce_end_time :=
                  {| hour := 15; minute := 50; timestamp := 21000 |} |} |}]
       "EOD Market Close" eq_refl (or_introl eq_refl)))).
Defined.

(** A whole run after the entry fill: the stop is accepted, the EOD close is
    never filled, and the record appended at entry still has its defaults
    when the monitor returns. *)
Example unfilled_close_leaves_entry_defaults :
  let t0 := {| hour := 10; minute := 0; timestamp := 0 |} in
  let t := {| hour := 15; minute := 50; timestamp := 21000 |} in
  let w := {| w_now := t; w_positions := ["XAUUSD"]; w_end_time := t;
              w_market_price := None;
              w_close := {| ce_open_orders := [];
                            ce_status := fun _ => ("Submitted", 0);
                            ce_end_time := t |} |} in
  let sl := {| sl_cancelled := []; sl_status := fun _ => "Submitted";
               sl_retry_status := fun _ => "Submitted";
               sl_listing_confirms := false |} in
  exists ev trade,
    main_after_trade (Some (1 # 100)) sl "XAUUSD" "EOD" 60 [] "BUY" 10 2
      (Some (2000, t0)) t0 [w]
    = (ev, Ok (Some (PolicyClose "EOD Market Close" false), [trade]))
    /\ ExitPrice trade = 0 /\ PnL trade = 0 /\ ExitReason trade = ""
    /\ Result trade = "" /\ ExitTime trade = None
    /\ List.length (filter is_place ev) = 2%nat.
Proof.
  cbv zeta; eexists; eexists; split; [vm_compute; reflexivity|].
  vm_compute; repeat split; reflexivity.
Qed.

(** ** Stop triggered *)

Lemma update_first_match_first (before after : list TradeRecord)
    (trade : TradeRecord) (entry_price : Q)
    (upd : TradeRecord -> TradeRecord) :
  forallb (fun t => negb (entry_matches t entry_price)) before = true ->
  entry_matches trade entry_price = true ->
  update_first_match (before ++ trade :: after) entry_price upd
  = before ++ upd trade :: after.
Proof.
  intros Hb Ht; induction before as [|b before IH]; cbn in *.
  - rewrite Ht; reflexivity.
  - apply andb_prop in Hb; destruct Hb as [Hb1 Hb2].
    apply negb_true_iff in Hb1; rewrite Hb1, (IH Hb2); reflexivity.
Qed.

Lemma update_first_match_none (trades_record : list TradeRecord)
    (entry_price : Q) (upd : TradeRecord -> TradeRecord) :
  forallb (fun t => negb (entry_matches t entry_price)) trades_record = true ->
  update_first_match trades_record entry_price upd = trades_record.
Proof.
  induction trades_record as [|b l IH]; cbn; intros H; [reflexivity|].
  apply andb_prop in H; destruct H as [Hb1 Hb2].
  apply negb_true_iff in Hb1; rewrite Hb1, (IH Hb2); reflexivity.
Qed.

Lemma entry_matches_iff (trade : TradeRecord) (entry_price : Q) :
  entry_matches trade entry_price = true
  <-> Qabs (EntryPrice trade - entry_price) < 1 # 10.
Proof.
  unfold entry_matches; destruct (Qlt_le_dec _ _); split; intros H;
    try reflexivity; try assumption; try discriminate; lra.
Qed.

(** C7.  In a pass where the exit policy does not fire and the instrument is
    absent from the broker's positions, the monitor takes the StopTriggered
    path and leaves the loop: the exit price is the recorded stop price, the
    signed PnL is [(exit - entry) * qty] for a BUY and [(entry - exit) * qty]
    otherwise, the result is Profit, Loss or Breakeven by the sign of that
    PnL, and the first record whose EntryPrice is within 0.1 of the entry
    price, and no other, receives the exit price, the rounded PnL and
    percentage, the result and the reason "Stop Loss Triggered".  (The entry
    price is a confirmed fill price, hence not zero.) *)
Theorem stop_triggered_updates_first_match (contract_symbol action : string)
    (quantity : Z) (entry_price stop_price : Q) (strategy : string)
    (max_minutes : Z) (start_time last_update_time : datetime)
    (trades_record : list TradeRecord) (w : wake) (rest : list wake)
    (reason0 : string) :
  exit_policy_check strategy max_minutes (w_now w)
    (total_seconds (w_now w) start_time / 60) = (false, reason0) ->
  in_list contract_symbol (w_positions w) = false ->
  ~ entry_price == 0 ->
  let exit_price := stop_price in
  let diff := if action =? "BUY" then exit_price - entry_price
              else entry_price - exit_price in
  let profit_loss := diff * inject_Z quantity in
  let profit_percent := diff / entry_price * 100 in
  let result := if Qlt_le_dec 0 profit_loss then "Profit"
                else if Qlt_le_dec profit_loss 0 then "Loss"
                else "Breakeven" in
  let booked := fun trade =>
    record_exit trade exit_price profit_loss profit_percent
      (duration_parts (total_seconds (w_end_time w) start_time)) result
      (w_end_time w) "Stop Loss Triggered" in
  monitor_loop contract_symbol action quantity entry_price stop_price strategy
    max_minutes start_time last_update_time trades_record (w :: rest)
  = ([], Ok (StopTriggered,
             update_first_match trades_record entry_price booked))
  /\ (forall before trade after,
        trades_record = before ++ trade :: after ->
        forallb (fun t => negb (entry_matches t entry_price)) before = true ->
        Qabs (EntryPrice trade - entry_price) < 1 # 10 ->
        update_first_match trades_record entry_price booked
        = before ++ booked trade :: after)
  /\ (forall trade,
        ExitPrice (booked trade) = stop_price
        /\ PnL (booked trade) = py_round2 profit_loss
        /\ PnLPercent (booked trade) = py_round2 profit_percent
        /\ Result (booked trade) = result
        /\ ExitReason (booked trade) = "Stop Loss Triggered"
        /\ EntryPrice (booked trade) = EntryPrice trade)
  /\ (0 < profit_loss -> result = "Profit")
  /\ (profit_loss < 0 -> result = "Loss")
  /\ (profit_loss == 0 -> result = "Breakeven").
Proof.
  intros Hsilent Hgone Hentry; cbv zeta.
  split; [|split; [|split; [|split; [|split]]]].
  - apply loop_break; unfold monitor_pass.
    rewrite Hsilent, Hgone; cbn [negb].
    unfold profit_and_result.
    rewrite py_div_nonzero by assumption.
    cbn; reflexivity.
  - intros before trade after -> Hb Ht.
    apply update_first_match_first; [assumption|].
    apply entry_matches_iff; assumption.
  - intros trade; repeat split; reflexivity.
  - intros H; destruct (Qlt_le_dec 0 _); [reflexivity | lra].
  - intros H; destruct (Qlt_le_dec 0 _); [lra|].
    destruct (Qlt_le_dec _ 0); [reflexivity | lra].
  - intros H; destruct (Qlt_le_dec 0 _); [lra|].
    destruct (Qlt_le_dec _ 0); [lra | reflexivity].
Qed.

Lemma stop_triggered_updates_first_match_witness :
  let t0 := {| hour := 10; minute := 0; timestamp := 0 |} in
  let t := {| hour := 10; minute := 30; timestamp := 1800 |} in
  let w := {| w_now := t; w_positions := []; w_end_time := t;
              w_market_price := None;
              w_close := {| ce_open_orders := [];
                            ce_status := fun _ => ("Submitted", 0);
                            ce_end_time := t |} |} in
  let trade := new_trade_record t0 "BUY" 2000 10 1998 "XAUUSD" in
  exists booked,
    monitor_loop "XAUUSD" "BUY" 10 2000 1998 "EOD" 60 t0 t0 [trade] [w]
    = ([], Ok (StopTriggered, [booked]))
    /\ ExitPrice booked = 1998 /\ PnL booked == -20
    /\ Result booked = "Loss" /\ ExitReason booked = "Stop Loss Triggered"
    /\ Duration booked = Some (0, 30, 0)%Z.
Proof.
  cbv zeta; eexists; split.
  - etransitivity.
    + apply (proj1
        (stop_triggered_updates_first_match "XAUUSD" "BUY" 10 2000 1998
           "EOD" 60
           {| hour := 10; minute := 0; timestamp := 0 |}
           {| hour := 10; minute := 0; timestamp := 0 |}
           [new_trade_record {| hour := 10; minute := 0; timestamp := 0 |}
              "BUY" 2000 10 1998 "XAUUSD"]
           {| w_now := {| hour := 10; minute := 30; timestamp := 1800 |};
              w_positions := [];
              w_end_time := {| hour := 10; minute := 30; timestamp := 1800 |};
              w_market_price := None;
              w_close :=
                {| ce_open_orders := [];
                   ce_status := fun _ => ("Submitted", 0);
                   ce_end_time :=
                     {| hour := 10; minute := 30; timestamp := 1800 |} |} |}
           [] "" eq_refl eq_refl (Qeq_bool_neq 2000 0 eq_refl))).
    + cbn [update_first_match]; reflexivity.
  - vm_compute; repeat split; reflexivity.
Defined.

(** ** Protective stop *)

Lemma py_round_near (x : Q) (k : Z) :
  Qabs (x - inject_Z k) < 1 # 2 -> py_round x = k.
Proof.
  intros H.
  apply Qabs_Qlt_condition in H; destruct H as [Hlo Hhi].
  pose proof (py_round_upper x) as Hu.
  pose proof (py_round_lower x) as Hl.
  destruct (Z.lt_trichotomy (py_round x) k) as [Hlt | [Heq | Hgt]];
    [|assumption|].
  - pose proof (inject_Z_succ_le _ _ Hlt); lra.
  - pose proof (inject_Z_succ_le _ _ Hgt); lra.
Qed.

Lemma quantized_multiple (global_min_tick : option Q) (price : Q) (k : Z) :
  price == inject_Z k * effective_tick_size global_min_tick ->
  quantized global_min_tick price
  = inject_Z k * effective_tick_size global_min_tick.
Proof.
  pose proof (effective_tick_size_pos global_min_tick) as Hpos.
  intros H; unfold quantized.
  rewrite (py_round_comp _ (inject_Z k)), py_round_inject; [reflexivity|].
  rewrite H; field; lra.
Qed.

Lemma formatted_stop_price_ok (global_min_tick : option Q)
    (entry_action : string) (stop_price fill_price : Q) :
  formatted_stop_price global_min_tick entry_action stop_price fill_price
  = Ok (quantized global_min_tick
          (adjusted_stop_price entry_action stop_price fill_price)).
Proof. apply format_price_quantized. Qed.

Lemma poll_stop_order_total (env : stoploss_env) (global_min_tick : option Q)
    (sl_action : string) (quantity : Z) (formatted : Q) (n i : nat) :
  exists ev r,
    poll_stop_order env global_min_tick sl_action quantity formatted n i
    = (ev, Ok r).
Proof.
  revert i; induction n as [|n IH]; intros i; cbn [poll_stop_order].
  - eexists; eexists; reflexivity.
  - destruct (in_list (sl_status env i) _);
      [eexists; eexists; reflexivity|].
    destruct (_ && _); [|apply IH].
    rewrite format_price_quantized.
    destruct (in_list (sl_retry_status env i) _).
    + eexists; eexists; cbn; reflexivity.
    + destruct (IH (S i)) as [ev [r E]]; rewrite E.
      eexists; eexists; cbn; reflexivity.
Qed.

(** The first order the stop-loss manager submits. *)
Lemma place_stoploss_order_first (env : stoploss_env)
    (global_min_tick : option Q) (entry_action : string) (quantity : Z)
    (stop_price fill_price : Q) :
  exists ev accepted,
    place_stoploss_order env global_min_tick entry_action quantity stop_price
      fill_price
    = (map CancelListed (sl_cancelled env)
       ++ PlaceOrder
            (StopOrder (stoploss_action entry_action) quantity
               (quantized global_min_tick
                  (adjusted_stop_price entry_action stop_price fill_price)))
          :: ev,
       Ok accepted).
Proof.
  unfold place_stoploss_order.
  rewrite formatted_stop_price_ok.
  destruct (poll_stop_order_total env global_min_tick
              (stoploss_action entry_action) quantity
              (quantized global_min_tick
                 (adjusted_stop_price entry_action stop_price fill_price))
              10 0) as [ev [r E]].
  cbn [lift iobind emit_all emit]; rewrite E.
  destruct r as [b|]; cbn; eexists; eexists; reflexivity.
Qed.

(** C6 (as the code has it).  The first order the stop-loss manager submits
    after a fill is a stop at [format_price(min(referenceStop,
    fillPrice*0.999))] for a long position and at
    [format_price(max(referenceStop, fillPrice*1.001))] for a short one.
    Rounding to the nearest tick keeps it within half a tick of that value:
    for a long position it is at most [fillPrice*0.999 + tick/2], for a short
    one at least [fillPrice*1.001 - tick/2]; and when the reference stop is a
    multiple of the tick the submitted stop is never above it (long), never
    below it (short). *)
Theorem protective_stop_price_bounds (env : stoploss_env)
    (global_min_tick : option Q) (entry_action : string) (quantity : Z)
    (referenceStop fillPrice : Q) :
  let tick := effective_tick_size global_min_tick in
  let raw := adjusted_stop_price entry_action referenceStop fillPrice in
  let stop := quantized global_min_tick raw in
  (exists ev accepted,
     place_stoploss_order env global_min_tick entry_action quantity
       referenceStop fillPrice
     = (map CancelListed (sl_cancelled env)
        ++ PlaceOrder (StopOrder (stoploss_action entry_action) quantity stop)
           :: ev,
        Ok accepted))
  /\ format_price global_min_tick raw = Ok stop
  /\ Qabs (stop - raw) <= tick / 2
  /\ (entry_action = "BUY" ->
      raw = Qmin referenceStop (fillPrice * (999 # 1000))
      /\ stop <= fillPrice * (999 # 1000) + tick / 2
      /\ forall k : Z, referenceStop == inject_Z k * tick ->
                       stop <= referenceStop)
  /\ (entry_action <> "BUY" ->
      raw = Qmax referenceStop (fillPrice * (1001 # 1000))
      /\ fillPrice * (1001 # 1000) - tick / 2 <= stop
      /\ forall k : Z, referenceStop == inject_Z k * tick ->
                       referenceStop <= stop).
Proof.
  cbv zeta.
  pose proof (quantized_within_half_tick global_min_tick
                (adjusted_stop_price entry_action referenceStop fillPrice))
    as Hhalf.
  apply Qabs_Qle_condition in Hhalf; destruct Hhalf as [Hlo Hhi].
  split; [apply place_stoploss_order_first|].
  split; [apply format_price_quantized|].
  split; [apply Qabs_Qle_condition; split; assumption|].
  split.
  - intros ->.
    change (adjusted_stop_price "BUY" referenceStop fillPrice)
      with (Qmin referenceStop (fillPrice * (999 # 1000))) in *.
    pose proof (Q.le_min_l referenceStop (fillPrice * (999 # 1000))).
    pose proof (Q.le_min_r referenceStop (fillPrice * (999 # 1000))).
    split; [reflexivity|]; split; [lra|].
    intros k Hk.
    apply Qle_trans with (inject_Z k * effective_tick_size global_min_tick);
      [apply quantized_le_multiple; lra | lra].
  - intros Hne.
    apply String.eqb_neq in Hne.
    assert (Hraw : adjusted_stop_price entry_action referenceStop fillPrice
                   = Qmax referenceStop (fillPrice * (1001 # 1000)))
      by (unfold adjusted_stop_price, stoploss_action; rewrite Hne;
          reflexivity).
    rewrite Hraw in *.
    pose proof (Q.le_max_l referenceStop (fillPrice * (1001 # 1000))).
    pose proof (Q.le_max_r referenceStop (fillPrice * (1001 # 1000))).
    split; [reflexivity|]; split; [lra|].
    intros k Hk.
    apply Qle_trans with (inject_Z k * effective_tick_size global_min_tick);
      [lra | apply quantized_ge_multiple; lra].
Qed.

Lemma protective_stop_price_bounds_witness :
  quantized (Some (1 # 100)) (adjusted_stop_price "BUY" 98 100) <= 98
  /\ quantized (Some (1 # 100)) (adjusted_stop_price "BUY" 98 100)
     <= 100 * (999 # 1000) + (1 # 100) / 2.
Proof.
  destruct (protective_stop_price_bounds
              {| sl_cancelled := []; sl_status := fun _ => "Submitted";
                 sl_retry_status := fun _ => "Submitted";
                 sl_listing_confirms := false |}
              (Some (1 # 100)) "BUY" 10 98 100)
    as [_ [_ [_ [Hlong _]]]].
  destruct (Hlong eq_refl) as [_ [Hband Href]].
  split; [apply (Href 9800%Z); reflexivity | exact Hband].
Defined.

(** C6 as stated fails: with tick 0.01, a BUY filled at 100.01 and the
    reference stop 100.00 that [main] derives for R = 0.01, the stop order is
    submitted at 99.91, above [fillPrice*0.999 = 99.90999]. *)
Lemma stop_above_band_after_rounding :
  let fill := 10001 # 100 in
  let sl := {| sl_cancelled := []; sl_status := fun _ => "Submitted";
               sl_retry_status := fun _ => "Submitted";
               sl_listing_confirms := false |} in
  format_price (Some (1 # 100)) (fill - (1 # 100)) = Ok (10000 # 100)
  /\ formatted_stop_price (Some (1 # 100)) "BUY" (10000 # 100) fill
     = Ok (9991 # 100)
  /\ place_stoploss_order sl (Some (1 # 100)) "BUY" 10 (10000 # 100) fill
     = ([PlaceOrder (StopOrder "SELL" 10 (9991 # 100))], Ok true)
  /\ ~ (9991 # 100 <= fill * (999 # 1000)).
Proof.
  cbv zeta; repeat split; try (vm_compute; reflexivity).
  intros H; vm_compute in H; apply H; reflexivity.
Qed.

(** ** Retry of a stop order stuck in PendingSubmit *)

Section StopRetry.

Variable env : stoploss_env.
Variable global_min_tick : option Q.
Variables (sl_action : string) (quantity : Z) (formatted : Q).

Let poll := poll_stop_order env global_min_tick sl_action quantity formatted.
Let original := StopOrder sl_action quantity formatted.
Let retried :=
  StopOrder sl_action quantity (retry_price global_min_tick sl_action formatted).

Lemma poll_stop_idle (n i : nat) :
  poll_idle env i = true -> poll (S n) i = poll n (S i).
Proof.
  unfold poll_idle; intros H.
  apply andb_prop in H; destruct H as [H1 H2].
  apply negb_true_iff in H1; apply negb_true_iff in H2.
  unfold poll; cbn [poll_stop_order]; rewrite H1, H2; reflexivity.
Qed.

Lemma poll_stop_retry (n i : nat) :
  in_list (sl_status env i) ["Submitted"; "PreSubmitted"; "Filled"] = false ->
  sl_status env i = "PendingSubmit" -> (8 <= i)%nat ->
  poll (S n) i
  = if in_list (sl_retry_status env i) ["Submitted"; "PreSubmitted"]
    then ([CancelOrder original; PlaceOrder retried], Ok (Some true))
    else (CancelOrder original :: PlaceOrder retried :: fst (poll n (S i)),
          snd (poll n (S i))).
Proof.
  intros Hacc Hpend Hi.
  apply Nat.leb_le in Hi.
  unfold poll; cbn [poll_stop_order].
  rewrite Hacc, Hpend, Hi; cbn [String.eqb Ascii.eqb Bool.eqb andb].
  rewrite format_price_quantized.
  fold (retry_price global_min_tick sl_action formatted).
  destruct (in_list (sl_retry_status env i) _); [reflexivity|].
  destruct (poll_stop_order env global_min_tick sl_action quantity formatted
              n (S i)) as [ev r].
  destruct r; reflexivity.
Qed.

Lemma pending_not_accepted (i : nat) :
  sl_status env i = "PendingSubmit" ->
  in_list (sl_status env i) ["Submitted"; "PreSubmitted"; "Filled"] = false.
Proof. intros ->; reflexivity. Qed.

(** The polls from the first retry on. *)
Lemma poll_from_retry (j : nat) :
  (j = 8 \/ j = 9)%nat ->
  (forall i, (i < j)%nat -> poll_idle env i = true) ->
  sl_status env j = "PendingSubmit" ->
  exists ev r,
    poll 10%nat 0%nat
    = (CancelOrder original :: PlaceOrder retried :: ev, Ok r)
    /\ (in_list (sl_retry_status env j) ["Submitted"; "PreSubmitted"] = true
        \/ j = 9%nat \/ sl_status env 9 <> "PendingSubmit" -> ev = []).
Proof.
  intros Hj Hidle Hpend.
  pose proof (pending_not_accepted j Hpend) as Hacc.
  destruct Hj as [-> | ->].
  - rewrite !poll_stop_idle by (apply Hidle; lia).
    rewrite (poll_stop_retry 1 8 Hacc Hpend) by lia.
    destruct (in_list (sl_retry_status env 8) _) eqn:Eretry.
    + eexists; eexists; split; [reflexivity | auto].
    + destruct (poll_stop_order_total env global_min_tick sl_action quantity
                  formatted 1 9) as [ev [r E]].
      fold poll in E; rewrite E; cbn [fst snd].
      exists ev, r; split; [reflexivity|].
      intros [H | [H | H]]; [discriminate | discriminate |].
      unfold poll in E; cbn [poll_stop_order] in E.
      destruct (in_list (sl_status env 9) _);
        [injection E as <- _; reflexivity|].
      destruct (sl_status env 9 =? "PendingSubmit") eqn:E9;
        [apply String.eqb_eq in E9; contradiction|].
      cbn in E; injection E as <- _; reflexivity.
  - rewrite !poll_stop_idle by (apply Hidle; lia).
    rewrite (poll_stop_retry 0 9 Hacc Hpend) by lia.
    destruct (in_list (sl_retry_status env 9) _);
      eexists; eexists; (split; [reflexivity | auto]).
Qed.

End StopRetry.

Lemma retry_price_one_cent_tick (global_min_tick : option Q)
    (sl_action : string) (price : Q) :
  effective_tick_size global_min_tick == 1 # 100 ->
  let formatted := quantized global_min_tick price in
  retry_price global_min_tick sl_action formatted - formatted
  == if sl_action =? "BUY" then effective_tick_size global_min_tick
     else - effective_tick_size global_min_tick.
Proof.
  intros Htick; cbv zeta; unfold retry_price.
  set (k := py_round (price / effective_tick_size global_min_tick)).
  assert (Hf : quantized global_min_tick price
               = inject_Z k * effective_tick_size global_min_tick)
    by reflexivity.
  rewrite Hf; clear Hf; clearbody k.
  destruct (sl_action =? "BUY"); cbv iota.
  - rewrite (quantized_multiple global_min_tick _ (k + 1)).
    + rewrite inject_Z_plus; change (inject_Z 1) with 1; ring.
    + rewrite inject_Z_plus; change (inject_Z 1) with 1; lra.
  - rewrite (quantized_multiple global_min_tick _ (k - 1)).
    + unfold Z.sub; rewrite inject_Z_plus, inject_Z_opp.
      change (inject_Z 1) with 1; ring.
    + unfold Z.sub; rewrite inject_Z_plus, inject_Z_opp.
      change (inject_Z 1) with 1; lra.
Qed.

Lemma retry_price_coarse_tick (global_min_tick : option Q)
    (sl_action : string) (price : Q) :
  2 # 100 < effective_tick_size global_min_tick ->
  let formatted := quantized global_min_tick price in
  retry_price global_min_tick sl_action formatted = formatted.
Proof.
  intros Htick; cbv zeta; unfold retry_price.
  set (tick := effective_tick_size global_min_tick) in *.
  set (k := py_round (price / tick)).
  assert (Hf : quantized global_min_tick price = inject_Z k * tick)
    by reflexivity.
  rewrite Hf; clear Hf; clearbody k; unfold quantized; fold tick.
  rewrite (py_round_near _ k); [reflexivity|].
  assert (Hpos : 0 < tick) by lra.
  assert (Hc : 0 < (1 # 100) / tick /\ (1 # 100) / tick < 1 # 2).
  { split; [apply Qdiv_pos; lra|].
    apply Qlt_shift_div_r; lra. }
  destruct Hc as [Hc1 Hc2].
  apply Qabs_Qlt_condition.
  destruct (sl_action =? "BUY"); cbv iota.
  - setoid_replace ((inject_Z k * tick + (1 # 100)) / tick - inject_Z k)
      with ((1 # 100) / tick) by (field; lra).
    split; lra.
  - setoid_replace ((inject_Z k * tick + - (1 # 100)) / tick - inject_Z k)
      with (- ((1 # 100) / tick)) by (field; lra).
    split; lra.
Qed.

(** C3 (as the code has it).  When the stop order is still PendingSubmit at
    attempt index 8 or 9, with no earlier poll accepting it, the stop-loss
    manager cancels it and resubmits a stop of the same side and quantity at
    [format_price(original + 0.01)] for a BUY-side stop and
    [format_price(original - 0.01)] for a SELL-side stop: the nudge is a
    fixed 0.01, not one tick.  The resubmitted price differs from the
    original by exactly one tick in that direction when the effective tick is
    0.01, and equals the original when the tick exceeds 0.02.  The
    resubmission happens once when the retry is accepted, when it starts at
    index 9, or when the cancelled order is no longer reported PendingSubmit
    at index 9. *)
Theorem stop_retry_nudges_one_cent (env : stoploss_env)
    (global_min_tick : option Q) (entry_action : string) (quantity : Z)
    (stop_price fill_price : Q) (j : nat) :
  (j = 8 \/ j = 9)%nat ->
  (forall i, (i < j)%nat -> poll_idle env i = true) ->
  sl_status env j = "PendingSubmit" ->
  let sl_action := stoploss_action entry_action in
  let tick := effective_tick_size global_min_tick in
  let formatted :=
    quantized global_min_tick
      (adjusted_stop_price entry_action stop_price fill_price) in
  let new_price := retry_price global_min_tick sl_action formatted in
  let original := StopOrder sl_action quantity formatted in
  (exists ev accepted,
     place_stoploss_order env global_min_tick entry_action quantity stop_price
       fill_price
     = (map CancelListed (sl_cancelled env)
        ++ PlaceOrder original :: CancelOrder original
           :: PlaceOrder (StopOrder sl_action quantity new_price) :: ev,
        Ok accepted)
     /\ (in_list (sl_retry_status env j) ["Submitted"; "PreSubmitted"] = true
         \/ j = 9%nat \/ sl_status env 9 <> "PendingSubmit" -> ev = []))
  /\ format_price global_min_tick
       (formatted + (if sl_action =? "BUY" then 1 # 100 else - (1 # 100)))
     = Ok new_price
  /\ (tick == 1 # 100 ->
      new_price - formatted == if sl_action =? "BUY" then tick else - tick)
  /\ (2 # 100 < tick -> new_price = formatted).
Proof.
  intros Hj Hidle Hpend; cbv zeta.
  split; [|split; [apply format_price_quantized|split]].
  - destruct (poll_from_retry env global_min_tick
                (stoploss_action entry_action) quantity
                (quantized global_min_tick
                   (adjusted_stop_price entry_action stop_price fill_price))
                j Hj Hidle Hpend) as [ev [r [E Hev]]].
    unfold place_stoploss_order.
    rewrite formatted_stop_price_ok.
    cbn [lift iobind emit_all emit]; rewrite E.
    exists ev.
    destruct r as [b|]; cbn; rewrite ?app_nil_r; eexists;
      (split; [reflexivity | exact Hev]).
  - apply retry_price_one_cent_tick.
  - apply retry_price_coarse_tick.
Qed.

Lemma stop_retry_nudges_one_cent_witness :
  let sl := {| sl_cancelled := [];
               sl_status := fun _ => "PendingSubmit";
               sl_retry_status := fun _ => "Submitted";
               sl_listing_confirms := false |} in
  exists ev accepted,
    place_stoploss_order sl (Some (1 # 100)) "BUY" 10 1998 2000
    = ([PlaceOrder (StopOrder "SELL" 10 (199800 # 100));
        CancelOrder (StopOrder "SELL" 10 (199800 # 100));
        PlaceOrder (StopOrder "SELL" 10 (199799 # 100))] ++ ev,
       Ok accepted)
    /\ ev = [].
Proof.
  cbv zeta.
  destruct (stop_retry_nudges_one_cent
              {| sl_cancelled := [];
                 sl_status := fun _ => "PendingSubmit";
                 sl_retry_status := fun _ => "Submitted";
                 sl_listing_confirms := false |}
              (Some (1 # 100)) "BUY" 10 1998 2000 8%nat
              (or_introl eq_refl)
              (fun i Hi =>
                 match Nat.leb 8 i as b
                   return (Nat.leb 8 i = b ->
                           negb false && negb (true && b) = true)
                 with
                 | true => fun Hb =>
                     match Nat.lt_irrefl i
                             (Nat.lt_le_trans _ _ _ Hi
                                (proj1 (Nat.leb_le 8 i) Hb)) with end
                 | false => fun _ => eq_refl
                 end eq_refl)
              eq_refl)
    as [[ev [accepted [E Hev]]] _].
  exists ev, accepted; split; [exact E | apply Hev; left; reflexivity].
Defined.

(** C3 as stated fails: with tick 0.25 the retry of a stop at 1998.00 is
    quantized back to 1998.00, so the resubmitted price does not differ from
    the original at all. *)
Lemma stop_retry_same_price_at_quarter_tick :
  let sl := {| sl_cancelled := [];
               sl_status := fun _ => "PendingSubmit";
               sl_retry_status := fun _ => "Submitted";
               sl_listing_confirms := false |} in
  effective_tick_size (Some (1 # 4)) = 1 # 4
  /\ place_stoploss_order sl (Some (1 # 4)) "BUY" 10 1998 2000
     = ([PlaceOrder (StopOrder "SELL" 10 (7992 # 4));
         CancelOrder (StopOrder "SELL" 10 (7992 # 4));
         PlaceOrder (StopOrder "SELL" 10 (7992 # 4))],
        Ok true)
  /\ ~ Qabs ((7992 # 4) - (7992 # 4)) == 1 # 4.
Proof.
  cbv zeta; split; [reflexivity|]; split; [vm_compute; reflexivity|].
  intros H; vm_compute in H; discriminate H.
Qed.

(** ** The EndOfDay window over a whole run of the loop *)

(** While no observation falls into hour 15, minute 50 or later, the loop
    never ends in PolicyClose under the EndOfDay policy. *)
Lemma eod_loop_silent_outside_window (contract_symbol action : string)
    (quantity : Z) (entry_price stop_price : Q) (max_minutes : Z)
    (start_time : datetime) (wakes : list wake) :
  forallb (fun w => negb ((hour (w_now w) =? 15)%Z
                          && (50 <=? minute (w_now w))%Z)) wakes = true ->
  forall last_update_time trades_record ev reason closed trades',
    monitor_loop contract_symbol action quantity entry_price stop_price "EOD"
      max_minutes start_time last_update_time trades_record wakes
    <> (ev, Ok (PolicyClose reason closed, trades')).
Proof.
  induction wakes as [|w rest IH]; intros Hall last_update_time trades_record
    ev reason closed trades'; [cbn; discriminate|].
  cbn [forallb] in Hall; apply andb_prop in Hall; destruct Hall as [Hw Hrest].
  apply negb_true_iff in Hw.
  pose proof (eod_check max_minutes (w_now w)
                (total_seconds (w_now w) start_time / 60)) as Hc.
  rewrite Hw in Hc.
  pose proof (pass_policy_silent contract_symbol action quantity entry_price
                stop_price max_minutes start_time "EOD" last_update_time
                trades_record w "" Hc) as Hsilent.
  cbn [monitor_loop].
  destruct (monitor_pass contract_symbol action quantity entry_price
              stop_price "EOD" max_minutes start_time last_update_time
              trades_record w) as [ev0 [[how t | l] | e]];
    cbn [iobind].
  - destruct how; cbn; try discriminate.
    intros _; exact (Hsilent _ _ _ _ eq_refl).
  - destruct (monitor_loop contract_symbol action quantity entry_price
                stop_price "EOD" max_minutes start_time l trades_record rest)
      as [ev1 r1] eqn:E1.
    intros E; injection E as Hev Hr; subst r1.
    exact (IH Hrest l trades_record ev1 reason closed trades' E1).
  - discriminate.
Qed.

(** * Further properties of the script *)

(** ** Entry order *)

Lemma order_eqb_refl (o : Order) : order_eqb o o = true.
Proof.
  destruct o; cbn; rewrite String.eqb_refl, Z.eqb_refl;
    try reflexivity; apply Qeq_eq_bool; reflexivity.
Qed.

Lemma live_after_app (live : option Order) (t1 t2 : list event) :
  live_after live (t1 ++ t2)
  = match live_after live t1 with
    | Some l => live_after l t2
    | None => None
    end.
Proof.
  revert live; induction t1 as [|e t1 IH]; intros live; [reflexivity|].
  destruct e as [o | o | id |]; cbn [app live_after].
  - destruct live; [reflexivity | apply IH].
  - destruct live as [l|]; [|reflexivity].
    destruct (order_eqb l o); [apply IH | reflexivity].
  - apply IH.
  - apply IH.
Qed.

Lemma live_after_listed (live : option Order) (ids : list Z) :
  live_after live (map CancelListed ids) = Some live.
Proof. induction ids as [|i ids IH]; [reflexivity | exact IH]. Qed.

Lemma count_placed_listed (ids : list Z) :
  count_placed (map CancelListed ids) = 0%nat.
Proof. induction ids as [|i ids IH]; [reflexivity | exact IH]. Qed.

Lemma count_placed_app (t1 t2 : list event) :
  count_placed (t1 ++ t2) = (count_placed t1 + count_placed t2)%nat.
Proof. unfold count_placed; rewrite filter_app, length_app; reflexivity. Qed.

Section EntryPolling.

Variable env : trade_env.
Variable global_min_tick : option Q.
Variables (action : string) (quantity : Z).

Let poll := poll_entry_order env global_min_tick action quantity.

(** What the polling loop does, whatever the broker answers: it never
    raises, keeps one order outstanding, reprices at most until the counter
    reaches 2, and leaves at the first terminal poll if there is one. *)
Lemma poll_entry_order_spec (n : nat) :
  forall (trade : Order) (limit_price start_time : Q) (count attempt : nat),
  exists ev r,
    poll trade limit_price start_time count n attempt = (ev, Ok r)
    /\ live_after (Some trade) ev = Some (Some (poll_trade r))
    /\ ((count <= 2)%nat -> (count_placed ev + count <= 2)%nat)
    /\ match r with
       | EntryFilled p _ =>
           exists j, (attempt <= j < attempt + n)%nat
                     /\ first_terminal env attempt j
                     /\ pt_status env j = ("Filled", p)
       | EntryDead _ =>
           exists j, (attempt <= j < attempt + n)%nat
                     /\ first_terminal env attempt j
                     /\ fst (pt_status env j) <> "Filled"
       | EntryPending _ =>
           forall i, (attempt <= i < attempt + n)%nat ->
                     entry_poll_open env i = true
       end.
Proof.
  induction n as [|n IH]; intros trade limit_price start_time count attempt.
  - exists [], (EntryPending trade).
    split; [reflexivity|]; split; [reflexivity|].
    split; [intros Hc; cbn; lia | intros i Hi; lia].
  - unfold poll; cbn [poll_entry_order]; fold poll.
    destruct (pt_status env attempt) as [status avg] eqn:Est.
    assert (Hopen : entry_poll_open env attempt
                    = negb (status =? "Filled")
                      && negb (in_list status
                                 ["Cancelled"; "ApiCancelled"; "Inactive"]))
      by (unfold entry_poll_open; rewrite Est; reflexivity).
    destruct (status =? "Filled") eqn:Ef.
    { cbn [negb andb] in Hopen.
      apply String.eqb_eq in Ef; subst status.
      exists [], (EntryFilled avg trade).
      split; [reflexivity|]; split; [reflexivity|].
      split; [intros Hc; cbn; lia|].
      exists attempt; split; [lia|]; split; [|assumption].
      split; [assumption | intros i Hi; lia]. }
    destruct (in_list status _) eqn:Ed.
    { cbn [negb andb] in Hopen.
      exists [], (EntryDead trade).
      split; [reflexivity|]; split; [reflexivity|].
      split; [intros Hc; cbn; lia|].
      exists attempt; split; [lia|]; split.
      - split; [assumption | intros i Hi; lia].
      - rewrite Est; cbn [fst]; intros ->; discriminate. }
    cbn [negb andb] in Hopen.
    assert (Hlater :
      forall j, first_terminal env (S attempt) j ->
                first_terminal env attempt j).
    { intros j [Hj1 Hj2]; split; [assumption|].
      intros i Hi; destruct (Nat.eq_dec i attempt) as [->|];
        [assumption | apply Hj2; lia]. }
    assert (Hwrap :
      forall r : entry_poll,
        match r with
        | EntryFilled p _ =>
            exists j, (S attempt <= j < S attempt + n)%nat
                      /\ first_terminal env (S attempt) j
                      /\ pt_status env j = ("Filled", p)
        | EntryDead _ =>
            exists j, (S attempt <= j < S attempt + n)%nat
                      /\ first_terminal env (S attempt) j
                      /\ fst (pt_status env j) <> "Filled"
        | EntryPending _ =>
            forall i, (S attempt <= i < S attempt + n)%nat ->
                      entry_poll_open env i = true
        end ->
        match r with
        | EntryFilled p _ =>
            exists j, (attempt <= j < attempt + S n)%nat
                      /\ first_terminal env attempt j
                      /\ pt_status env j = ("Filled", p)
        | EntryDead _ =>
            exists j, (attempt <= j < attempt + S n)%nat
                      /\ first_terminal env attempt j
                      /\ fst (pt_status env j) <> "Filled"
        | EntryPending _ =>
            forall i, (attempt <= i < attempt + S n)%nat ->
                      entry_poll_open env i = true
        end).
    { intros [p t | t | t].
      - intros [j [Hj [Hft Hs]]]; exists j.
        split; [lia|]; split; [apply Hlater; assumption | assumption].
      - intros [j [Hj [Hft Hs]]]; exists j.
        split; [lia|]; split; [apply Hlater; assumption | assumption].
      - intros H i Hi; destruct (Nat.eq_dec i attempt) as [->|];
          [assumption | apply H; lia]. }
    destruct ((if Qlt_le_dec 20 (pt_clock env attempt - start_time)
               then true else false)
              && (count <? 2)%nat && (status =? "Submitted")) eqn:Erep.
    + apply andb_prop in Erep; destruct Erep as [Erep _].
      apply andb_prop in Erep; destruct Erep as [_ Hcount].
      apply Nat.ltb_lt in Hcount.
      set (new_limit_price :=
             quantized global_min_tick
               (limit_price * (if action =? "BUY" then 1001 # 1000
                               else 999 # 1000))).
      assert (Hfmt :
        (if action =? "BUY"
         then format_price global_min_tick (limit_price * (1001 # 1000))
         else format_price global_min_tick (limit_price * (999 # 1000)))
        = Ok new_limit_price)
        by (unfold new_limit_price; destruct (action =? "BUY");
            apply format_price_quantized).
      rewrite Hfmt.
      destruct (IH (LimitOrder action quantity new_limit_price)
                  new_limit_price (pt_restart env attempt) (S count)
                  (S attempt)) as [ev [r [E [Hlive [Hcnt Hr]]]]].
      cbn [lift iobind emit]; rewrite E.
      exists (CancelOrder trade
              :: PlaceOrder (LimitOrder action quantity new_limit_price)
              :: ev), r.
      split; [reflexivity|]; split; [|split].
      * cbn [live_after]; rewrite order_eqb_refl; exact Hlive.
      * intros _; specialize (Hcnt ltac:(lia)).
        unfold count_placed in *; cbn [filter is_place List.length]; lia.
      * apply Hwrap; assumption.
    + destruct (IH trade limit_price start_time count (S attempt))
        as [ev [r [E [Hlive [Hcnt Hr]]]]].
      rewrite E; exists ev, r.
      split; [reflexivity|]; split; [assumption|]; split; [assumption|].
      apply Hwrap; assumption.
Qed.

End EntryPolling.

Lemma first_terminal_unique (env : trade_env) (from j j' : nat) :
  (from <= j)%nat -> (from <= j')%nat ->
  first_terminal env from j -> first_terminal env from j' -> j = j'.
Proof.
  intros Hj Hj' [H1 H2] [H1' H2'].
  destruct (Nat.lt_trichotomy j j') as [Hlt | [Heq | Hgt]]; [|assumption|].
  - rewrite (H2' j) in H1 by lia; discriminate.
  - rewrite (H2 j') in H1' by lia; discriminate.
Qed.

(** The shape of every run of [place_trade] on a signal candle. *)
Lemma place_trade_run (env : trade_env) (global_min_tick : option Q)
    (candle : Bar) (action : string) (quantity : Z) (stop_price : Q) :
  let first := LimitOrder action quantity
                 (quantized global_min_tick (close candle)) in
  exists ev r,
    poll_entry_order env global_min_tick action quantity first
      (quantized global_min_tick (close candle)) (pt_start env) 0 40 0
    = (ev, Ok r)
    /\ place_trade env global_min_tick (Some candle) action quantity
         stop_price
       = (map CancelListed (pt_cancelled env) ++ PlaceOrder first :: ev
          ++ match r with
             | EntryFilled p trade =>
                 if Qeq_bool p 0 then [CancelOrder trade] else []
             | EntryDead _ => []
             | EntryPending trade => [CancelOrder trade]
             end,
          Ok match r with
             | EntryFilled p _ =>
                 if Qeq_bool p 0 then None else Some (p, pt_entry_time env)
             | _ => None
             end).
Proof.
  cbv zeta.
  destruct (poll_entry_order_spec env global_min_tick action quantity 40
              (LimitOrder action quantity
                 (quantized global_min_tick (close candle)))
              (quantized global_min_tick (close candle)) (pt_start env) 0 0)
    as [ev [r [E _]]].
  exists ev, r; split; [exact E|].
  unfold place_trade; rewrite format_price_quantized.
  cbn [lift iobind emit emit_all]; rewrite E.
  destruct r as [p t | t | t]; cbn [iobind emit ret try_except];
    [destruct (Qeq_bool p 0)| |]; cbn; rewrite ?app_nil_r; reflexivity.
Qed.

(** X1.  Whatever the broker answers, [place_trade] returns without raising,
    never places an entry order while an earlier one is outstanding (each
    reprice first cancels the order it replaces), and places at most three
    entry orders: the first and two reprices.  Without signal candle data it
    places none. *)
Theorem place_trade_one_order_at_a_time (env : trade_env)
    (global_min_tick : option Q) (signal_candle_data : option Bar)
    (action : string) (quantity : Z) (stop_price : Q) :
  exists t r,
    place_trade env global_min_tick signal_candle_data action quantity
      stop_price = (t, Ok r)
    /\ live_after None t <> None
    /\ (count_placed t <= 3)%nat
    /\ (signal_candle_data = None -> count_placed t = 0%nat /\ r = None).
Proof.
  destruct signal_candle_data as [candle|].
  - destruct (place_trade_run env global_min_tick candle action quantity
                stop_price) as [ev [r [E Hrun]]].
    destruct (poll_entry_order_spec env global_min_tick action quantity 40
                (LimitOrder action quantity
                   (quantized global_min_tick (close candle)))
                (quantized global_min_tick (close candle)) (pt_start env) 0 0)
      as [ev' [r' [E' [Hlive [Hcnt _]]]]].
    rewrite E in E'; injection E' as <- <-.
    specialize (Hcnt ltac:(lia)).
    eexists; eexists; split; [exact Hrun|].
    split; [|split; [|discriminate]].
    + rewrite live_after_app, live_after_listed; cbn [live_after].
      rewrite live_after_app, Hlive.
      destruct r as [p t | t | t]; cbn [poll_trade];
        [destruct (Qeq_bool p 0)| |]; cbn [live_after];
        rewrite ?order_eqb_refl; discriminate.
    + rewrite count_placed_app, count_placed_listed.
      change (PlaceOrder ?o :: ?l) with ([PlaceOrder o] ++ l).
      rewrite !count_placed_app.
      destruct r as [p t | t | t]; [destruct (Qeq_bool p 0)| |];
        cbn; lia.
  - exists (map CancelListed (pt_cancelled env)), None.
    split; [unfold place_trade; cbn; rewrite ?app_nil_r; reflexivity|].
    split; [rewrite live_after_listed; discriminate|].
    rewrite count_placed_listed; split; [lia | auto].
Qed.

(** X2.  When none of the 40 polls reports Filled, Cancelled, ApiCancelled or
    Inactive, [place_trade] gives up: it returns no fill, and its last broker
    call cancels the order that was outstanding, so that no entry order of
    its own is left behind. *)
Theorem place_trade_timeout_cancels (env : trade_env)
    (global_min_tick : option Q) (candle : Bar) (action : string)
    (quantity : Z) (stop_price : Q) :
  (forall i, (i < 40)%nat -> entry_poll_open env i = true) ->
  exists t last,
    place_trade env global_min_tick (Some candle) action quantity stop_price
    = (t ++ [CancelOrder last], Ok None)
    /\ live_after None t = Some (Some last)
    /\ live_after None (t ++ [CancelOrder last]) = Some None.
Proof.
  intros Hopen.
  destruct (place_trade_run env global_min_tick candle action quantity
              stop_price) as [ev [r [E Hrun]]].
  destruct (poll_entry_order_spec env global_min_tick action quantity 40
              (LimitOrder action quantity
                 (quantized global_min_tick (close candle)))
              (quantized global_min_tick (close candle)) (pt_start env) 0 0)
    as [ev' [r' [E' [Hlive [_ Hr]]]]].
  rewrite E in E'; injection E' as <- <-.
  destruct r as [p t | t | t].
  - destruct Hr as [j [Hj [[Hclosed _] _]]].
    rewrite Hopen in Hclosed by lia; discriminate.
  - destruct Hr as [j [Hj [[Hclosed _] _]]].
    rewrite Hopen in Hclosed by lia; discriminate.
  - cbn [poll_trade] in Hlive.
    exists (map CancelListed (pt_cancelled env)
            ++ PlaceOrder (LimitOrder action quantity
                             (quantized global_min_tick (close candle)))
               :: ev), t.
    assert (Hl : live_after None
                   (map CancelListed (pt_cancelled env)
                    ++ PlaceOrder (LimitOrder action quantity
                                     (quantized global_min_tick
                                        (close candle)))
                       :: ev) = Some (Some t))
      by (rewrite live_after_app, live_after_listed; exact Hlive).
    split; [|split; [exact Hl|]].
    + rewrite Hrun, <- app_assoc; reflexivity.
    + rewrite live_after_app, Hl; cbn [live_after].
      rewrite order_eqb_refl; reflexivity.
Qed.

Lemma place_trade_timeout_cancels_witness :
  let env := {| pt_cancelled := []; pt_start := 0;
                pt_status := fun _ => ("Submitted", 0);
                pt_clock := fun i => inject_Z (Z.of_nat i);
                pt_restart := fun i => inject_Z (Z.of_nat i);
                pt_entry_time := {| hour := 10; minute := 0;
                                    timestamp := 0 |} |} in
  let candle := {| date := 0; open := 2000; high := 2002; low := 1999;
                   close := 2001; volume := 0 |} in
  exists t last,
    place_trade env (Some (1 # 100)) (Some candle) "BUY" 10 1999
    = (t ++ [CancelOrder last], Ok None).
Proof.
  cbv zeta.
  destruct (place_trade_timeout_cancels
              {| pt_cancelled := []; pt_start := 0;
                 pt_status := fun _ => ("Submitted", 0);
                 pt_clock := fun i => inject_Z (Z.of_nat i);
                 pt_restart := fun i => inject_Z (Z.of_nat i);
                 pt_entry_time := {| hour := 10; minute := 0;
                                     timestamp := 0 |} |}
              (Some (1 # 100))
              {| date := 0; open := 2000; high := 2002; low := 1999;
                 close := 2001; volume := 0 |} "BUY" 10 1999
              (fun i _ => eq_refl)) as [t [last [E _]]].
  exists t, last; exact E.
Defined.

(** X3.  At the first poll that reports a terminal status: a fill at a
    non-zero average price makes [place_trade] return that price with the
    confirmation time, and a Cancelled, ApiCancelled or Inactive status makes
    it return no fill; in both cases it issues no cancellation for that last
    order. *)
Theorem place_trade_first_terminal_poll (env : trade_env)
    (global_min_tick : option Q) (candle : Bar) (action : string)
    (quantity : Z) (stop_price : Q) (j : nat) :
  (j < 40)%nat -> first_terminal env 0 j ->
  exists t last,
    live_after None t = Some (Some last)
    /\ ((fst (pt_status env j) <> "Filled"
         \/ ~ snd (pt_status env j) == 0) ->
        place_trade env global_min_tick (Some candle) action quantity
          stop_price
        = (t, Ok (if fst (pt_status env j) =? "Filled"
                  then Some (snd (pt_status env j), pt_entry_time env)
                  else None))).
Proof.
  intros Hj Hfirst.
  destruct (place_trade_run env global_min_tick candle action quantity
              stop_price) as [ev [r [E Hrun]]].
  destruct (poll_entry_order_spec env global_min_tick action quantity 40
              (LimitOrder action quantity
                 (quantized global_min_tick (close candle)))
              (quantized global_min_tick (close candle)) (pt_start env) 0 0)
    as [ev' [r' [E' [Hlive [_ Hr]]]]].
  rewrite E in E'; injection E' as <- <-.
  exists (map CancelListed (pt_cancelled env)
          ++ PlaceOrder (LimitOrder action quantity
                           (quantized global_min_tick (close candle)))
             :: ev), (poll_trade r).
  split; [rewrite live_after_app, live_after_listed; exact Hlive|].
  intros Hok; rewrite Hrun.
  destruct r as [p t | t | t].
  - destruct Hr as [j' [Hj' [Hfirst' Hs]]].
    assert (j' = j)
      by (apply (first_terminal_unique env 0); auto; lia).
    subst j'; rewrite Hs in *; cbn [fst snd] in *.
    destruct (Qeq_bool p 0) eqn:Ep.
    + apply Qeq_bool_eq in Ep.
      destruct Hok as [Hok | Hok]; [congruence | contradiction].
    + rewrite app_nil_r; reflexivity.
  - destruct Hr as [j' [Hj' [Hfirst' Hs]]].
    assert (j' = j)
      by (apply (first_terminal_unique env 0); auto; lia).
    subst j'.
    apply String.eqb_neq in Hs; rewrite Hs, app_nil_r; reflexivity.
  - destruct Hfirst as [Hclosed _].
    rewrite Hr in Hclosed by lia; discriminate.
Qed.

Lemma place_trade_first_terminal_poll_witness :
  let env := {| pt_cancelled := []; pt_start := 0;
                pt_status := fun i => if (i <? 3)%nat then ("Submitted", 0)
                                      else ("Filled", 2001);
                pt_clock := fun i => inject_Z (Z.of_nat i);
                pt_restart := fun i => inject_Z (Z.of_nat i);
                pt_entry_time := {| hour := 10; minute := 0;
                                    timestamp := 0 |} |} in
  let candle := {| date := 0; open := 2000; high := 2002; low := 1999;
                   close := 2001; volume := 0 |} in
  exists t,
    place_trade env (Some (1 # 100)) (Some candle) "BUY" 10 1999
    = (t, Ok (Some (2001, pt_entry_time env))).
Proof.
  cbv zeta.
  destruct (place_trade_first_terminal_poll
              {| pt_cancelled := []; pt_start := 0;
                 pt_status := fun i => if (i <? 3)%nat then ("Submitted", 0)
                                       else ("Filled", 2001);
                 pt_clock := fun i => inject_Z (Z.of_nat i);
                 pt_restart := fun i => inject_Z (Z.of_nat i);
                 pt_entry_time := {| hour := 10; minute := 0;
                                     timestamp := 0 |} |}
              (Some (1 # 100))
              {| date := 0; open := 2000; high := 2002; low := 1999;
                 close := 2001; volume := 0 |} "BUY" 10 1999 3%nat)
    as [t [last [_ H]]].
  - repeat constructor.
  - split; [reflexivity|].
    intros i [_ Hi].
    destruct i as [|[|[|i]]]; [reflexivity | reflexivity | reflexivity|].
    exfalso; apply (Nat.lt_irrefl 3).
    apply Nat.le_lt_trans with (S (S (S i))); [|exact Hi].
    repeat apply le_n_S; apply Nat.le_0_l.
  - exists t; apply H.
    right; apply Qeq_bool_neq; reflexivity.
Defined.

Lemma placed_limits_app (t1 t2 : list event) :
  placed_limits (t1 ++ t2) = placed_limits t1 ++ placed_limits t2.
Proof.
  induction t1 as [|e t1 IH]; [reflexivity|].
  destruct e as [[a q p | a q p | a q] | o | id |]; cbn;
    rewrite ?IH; reflexivity.
Qed.

Lemma placed_limits_listed (ids : list Z) :
  placed_limits (map CancelListed ids) = [].
Proof. induction ids as [|i ids IH]; [reflexivity | exact IH]. Qed.

Lemma quantized_on_grid (global_min_tick : option Q) (price : Q) :
  on_tick_grid global_min_tick (quantized global_min_tick price).
Proof. eexists; unfold quantized; reflexivity. Qed.

Lemma quantized_nonneg (global_min_tick : option Q) (price : Q) :
  0 <= price -> 0 <= quantized global_min_tick price.
Proof.
  intros H.
  pose proof (quantized_ge_multiple global_min_tick price 0) as Hq.
  assert (H0 : inject_Z 0 * effective_tick_size global_min_tick == 0)
    by ring.
  lra.
Qed.

Section EntryLimits.

Variable env : trade_env.
Variable global_min_tick : option Q.
Variables (action : string) (quantity : Z).

Lemma poll_entry_limits (n : nat) :
  forall (trade : Order) (limit_price start_time : Q) (count attempt : nat),
    0 <= limit_price -> on_tick_grid global_min_tick limit_price ->
    let ev := fst (poll_entry_order env global_min_tick action quantity trade
                     limit_price start_time count n attempt) in
    limits_move_toward_fill action (limit_price :: placed_limits ev)
    /\ Forall (on_tick_grid global_min_tick) (placed_limits ev).
Proof.
  unfold limits_move_toward_fill.
  induction n as [|n IH]; intros trade limit_price start_time count attempt
    Hpos Hgrid; cbv zeta.
  - cbn; destruct (action =? "BUY"); cbn; auto.
  - cbn [poll_entry_order].
    destruct (pt_status env attempt) as [status avg].
    destruct (status =? "Filled");
      [cbn; destruct (action =? "BUY"); cbn; auto|].
    destruct (in_list status _);
      [cbn; destruct (action =? "BUY"); cbn; auto|].
    destruct (_ && _); [|apply IH; assumption].
    destruct Hgrid as [k Hk].
    destruct (action =? "BUY") eqn:Ea; rewrite format_price_quantized.
    + set (new := quantized global_min_tick (limit_price * (1001 # 1000))).
      assert (Hstep : limit_price <= new).
      { apply Qle_trans
          with (inject_Z k * effective_tick_size global_min_tick); [lra|].
        apply quantized_ge_multiple; lra. }
      specialize (IH (LimitOrder action quantity new) new
                    (pt_restart env attempt) (S count) (S attempt)
                    ltac:(lra) (quantized_on_grid _ _)).
      cbv zeta in IH; destruct IH as [IH1 IH2].
      cbn [lift iobind emit].
      destruct (poll_entry_order env global_min_tick action quantity
                  (LimitOrder action quantity new) new
                  (pt_restart env attempt) (S count) n (S attempt))
        as [ev r]; cbn [fst] in *.
      destruct r; cbn [fst placed_limits app]; (split;
        [cbn [ascending]; split; assumption
        |constructor; [apply quantized_on_grid | assumption]]).
    + set (new := quantized global_min_tick (limit_price * (999 # 1000))).
      assert (Hstep : new <= limit_price).
      { apply Qle_trans
          with (inject_Z k * effective_tick_size global_min_tick); [|lra].
        apply quantized_le_multiple; lra. }
      assert (Hnew : 0 <= new) by (apply quantized_nonneg; lra).
      specialize (IH (LimitOrder action quantity new) new
                    (pt_restart env attempt) (S count) (S attempt)
                    Hnew (quantized_on_grid _ _)).
      cbv zeta in IH; destruct IH as [IH1 IH2].
      cbn [lift iobind emit].
      destruct (poll_entry_order env global_min_tick action quantity
                  (LimitOrder action quantity new) new
                  (pt_restart env attempt) (S count) n (S attempt))
        as [ev r]; cbn [fst] in *.
      destruct r; cbn [fst placed_limits app]; (split;
        [cbn [descending]; split; assumption
        |constructor; [apply quantized_on_grid | assumption]]).
Qed.

End EntryLimits.

(** X4.  For a signal candle with a non-negative close, the limit prices of
    the entry orders [place_trade] submits are all integer multiples of the
    effective tick, and each reprice moves the limit toward a fill: never
    down for a BUY, never up for a SELL. *)
Theorem place_trade_reprices_toward_fill (env : trade_env)
    (global_min_tick : option Q) (candle : Bar) (action : string)
    (quantity : Z) (stop_price : Q) :
  0 <= close candle ->
  let limits :=
    placed_limits (fst (place_trade env global_min_tick (Some candle) action
                          quantity stop_price)) in
  limits_move_toward_fill action limits
  /\ Forall (on_tick_grid global_min_tick) limits
  /\ hd_error limits = Some (quantized global_min_tick (close candle)).
Proof.
  intros Hclose; cbv zeta.
  destruct (place_trade_run env global_min_tick candle action quantity
              stop_price) as [ev [r [E Hrun]]].
  rewrite Hrun; cbn [fst].
  pose proof (poll_entry_limits env global_min_tick action quantity 40
                (LimitOrder action quantity
                   (quantized global_min_tick (close candle)))
                (quantized global_min_tick (close candle)) (pt_start env) 0 0
                (quantized_nonneg _ _ Hclose) (quantized_on_grid _ _))
    as Hlim.
  rewrite E in Hlim; cbv zeta in Hlim; cbn [fst] in Hlim.
  destruct Hlim as [Hmove Hgrid].
  rewrite placed_limits_app, placed_limits_listed; cbn [app].
  change (PlaceOrder ?o :: ?l) with ([PlaceOrder o] ++ l).
  rewrite !placed_limits_app.
  replace (placed_limits
             match r with
             | EntryFilled p trade =>
                 if Qeq_bool p 0 then [CancelOrder trade] else []
             | EntryDead _ => []
             | EntryPending trade => [CancelOrder trade]
             end) with (@nil Q)
    by (destruct r as [p t | t | t]; [destruct (Qeq_bool p 0)| |];
        reflexivity).
  rewrite app_nil_r; cbn [placed_limits app].
  split; [exact Hmove|]; split; [|reflexivity].
  constructor; [apply quantized_on_grid | exact Hgrid].
Qed.

Lemma place_trade_reprices_toward_fill_witness :
  let env := {| pt_cancelled := []; pt_start := 0;
                pt_status := fun _ => ("Submitted", 0);
                pt_clock := fun i => inject_Z (Z.of_nat i);
                pt_restart := fun i => inject_Z (Z.of_nat i);
                pt_entry_time := {| hour := 10; minute := 0;
                                    timestamp := 0 |} |} in
  let candle := {| date := 0; open := 2000; high := 2002; low := 1999;
                   close := 2001; volume := 0 |} in
  limits_move_toward_fill "BUY"
    (placed_limits (fst (place_trade env (Some (1 # 100)) (Some candle)
                           "BUY" 10 1999))).
Proof.
  cbv zeta.
  apply (place_trade_reprices_toward_fill
           {| pt_cancelled := []; pt_start := 0;
              pt_status := fun _ => ("Submitted", 0);
              pt_clock := fun i => inject_Z (Z.of_nat i);
              pt_restart := fun i => inject_Z (Z.of_nat i);
              pt_entry_time := {| hour := 10; minute := 0;
                                  timestamp := 0 |} |}
           (Some (1 # 100))
           {| date := 0; open := 2000; high := 2002; low := 1999;
              close := 2001; volume := 0 |} "BUY" 10 1999).
  discriminate.
Defined.

Example place_trade_three_orders :
  let env := {| pt_cancelled := []; pt_start := 0;
                pt_status := fun _ => ("Submitted", 0);
                pt_clock := fun i => inject_Z (Z.of_nat (2 * i));
                pt_restart := fun i => inject_Z (Z.of_nat (2 * i));
                pt_entry_time := {| hour := 10; minute := 0;
                                    timestamp := 0 |} |} in
  let candle := {| date := 0; open := 2000; high := 2002; low := 1999;
                   close := 2001; volume := 0 |} in
  placed_limits (fst (place_trade env (Some (1 # 100)) (Some candle)
                        "BUY" 10 1999))
  = [200100 # 100; 200300 # 100; 200500 # 100].
Proof. vm_compute; reflexivity. Qed.

(** ** Price quantization, continued *)

Lemma py_round_monotone (x y : Q) : x <= y -> (py_round x <= py_round y)%Z.
Proof.
  intros Hxy.
  destruct (Z_le_gt_dec (py_round x) (py_round y)) as [|Hgt]; [assumption|].
  exfalso.
  pose proof (py_round_upper x) as Hx.
  pose proof (py_round_lower y) as Hy.
  pose proof (inject_Z_succ_le (py_round y) (py_round x) ltac:(lia)) as Hs.
  assert (Heq : x == y) by lra.
  rewrite (py_round_comp _ _ Heq) in Hgt; lia.
Qed.

(** X5.  [format_price] is idempotent: the price it returns is an integer
    multiple of the effective tick, and formatting that price again returns
    it unchanged. *)
Theorem format_price_idempotent (global_min_tick : option Q) (price : Q) :
  exists v,
    format_price global_min_tick price = Ok v
    /\ on_tick_grid global_min_tick v
    /\ format_price global_min_tick v = Ok v.
Proof.
  exists (quantized global_min_tick price).
  split; [apply format_price_quantized|].
  split; [apply quantized_on_grid|].
  rewrite format_price_quantized; f_equal.
  unfold quantized at 2 3.
  apply quantized_multiple; reflexivity.
Qed.

(** X6.  [format_price] is monotone: a price that is not above another is
    not formatted above it. *)
Theorem format_price_monotone (global_min_tick : option Q) (p q : Q) :
  p <= q ->
  exists vp vq,
    format_price global_min_tick p = Ok vp
    /\ format_price global_min_tick q = Ok vq
    /\ vp <= vq.
Proof.
  intros H.
  pose proof (effective_tick_size_pos global_min_tick) as Hpos.
  exists (quantized global_min_tick p), (quantized global_min_tick q).
  split; [apply format_price_quantized|].
  split; [apply format_price_quantized|].
  unfold quantized.
  apply Qmult_le_compat_r; [|lra].
  rewrite <- Zle_Qle; apply py_round_monotone.
  apply Qmult_le_compat_r; [assumption|].
  apply Qlt_le_weak, Qinv_lt_0_compat; assumption.
Qed.

Lemma format_price_monotone_witness :
  exists vp vq,
    format_price (Some (1 # 4)) 1998 = Ok vp
    /\ format_price (Some (1 # 4)) (19981 # 10) = Ok vq
    /\ vp <= vq.
Proof.
  apply (format_price_monotone (Some (1 # 4)) 1998 (19981 # 10)).
  discriminate.
Defined.

(** ** Volatility *)

Lemma true_ranges_length (prev : option Q) (df : list Bar) :
  List.length (true_ranges prev df) = List.length df.
Proof.
  revert prev; induction df as [|b df IH]; intros prev; [reflexivity|].
  cbn; rewrite IH; reflexivity.
Qed.

Lemma true_ranges_tail (prev prev' : option Q) (df : list Bar) :
  tl (true_ranges prev df) = tl (true_ranges prev' df).
Proof. destruct df; reflexivity. Qed.

Lemma true_ranges_app (prev : option Q) (a b : list Bar) :
  exists prev',
    true_ranges prev (a ++ b) = true_ranges prev a ++ true_ranges prev' b.
Proof.
  revert prev; induction a as [|x a IH]; intros prev.
  - exists prev; reflexivity.
  - destruct (IH (Some (close x))) as [prev' E].
    exists prev'; cbn [app true_ranges]; rewrite E; reflexivity.
Qed.

Lemma skipn_succ_tl {A : Type} (m : nat) (l : list A) :
  skipn (S m) l = skipn m (tl l).
Proof. destruct l; [destruct m|]; reflexivity. Qed.

(** X7.  The ATR looks at the last [period + 1] bars only: once the frame
    holds more bars than the window, bars further back do not change it. *)
Theorem calculate_atr_window (earlier recent : list Bar) (period : nat) :
  (period < List.length recent)%nat ->
  calculate_atr (earlier ++ recent) period = calculate_atr recent period.
Proof.
  intros Hlen; unfold calculate_atr.
  assert (Hne : recent <> []) by (destruct recent; [cbn in Hlen; lia | discriminate]).
  destruct (earlier ++ recent) as [|b0 l0] eqn:Eapp;
    [apply app_eq_nil in Eapp; tauto|].
  rewrite <- Eapp; clear Eapp b0 l0.
  destruct recent as [|r0 recent']; [contradiction|].
  set (recent := r0 :: recent') in *.
  assert (H1 : (List.length (earlier ++ recent) <? period)%nat = false)
    by (apply Nat.ltb_ge; rewrite length_app; lia).
  assert (H2 : (List.length recent <? period)%nat = false)
    by (apply Nat.ltb_ge; lia).
  rewrite H1, H2; do 3 f_equal.
  destruct (true_ranges_app None earlier recent) as [prev' E]; rewrite E.
  rewrite length_app, !true_ranges_length.
  rewrite skipn_app, true_ranges_length.
  rewrite (skipn_all2 (true_ranges None earlier))
    by (rewrite true_ranges_length; lia).
  cbn [app].
  replace (List.length earlier + List.length recent - period
           - List.length earlier)%nat
    with (S (List.length recent - period - 1)) by lia.
  replace (List.length recent - period)%nat
    with (S (List.length recent - period - 1)) at 2 by lia.
  rewrite !skipn_succ_tl.
  rewrite (true_ranges_tail prev' None); reflexivity.
Qed.

Lemma calculate_atr_window_witness :
  calculate_atr (daily_bars_around 1900 ++ daily_bars_around 2000
                 ++ daily_bars_around 2000) 14
  = calculate_atr (daily_bars_around 2000 ++ daily_bars_around 2000) 14.
Proof.
  apply (calculate_atr_window (daily_bars_around 1900)
           (daily_bars_around 2000 ++ daily_bars_around 2000) 14).
  cbn; repeat constructor.
Defined.

Lemma true_ranges_nonneg (prev : option Q) (df : list Bar) :
  Forall (fun b => low b <= high b) df ->
  Forall (fun tr => 0 <= tr) (true_ranges prev df).
Proof.
  intros H; revert prev; induction H as [|b df Hb _ IH]; intros prev;
    cbn [true_ranges]; constructor; [|apply IH].
  destruct prev as [pc|]; [|lra].
  apply Qle_trans with (high b - low b); [lra | apply Q.le_max_l].
Qed.

Lemma Forall_skipn_keep {A : Type} (P : A -> Prop) (n : nat) (l : list A) :
  Forall P l -> Forall P (skipn n l).
Proof.
  revert l; induction n as [|n IH]; intros l H; [exact H|].
  destruct H; [constructor | apply IH; assumption].
Qed.

Lemma mean_nonneg (l : list Q) : Forall (fun x => 0 <= x) l -> 0 <= mean l.
Proof.
  intros H; unfold mean, Qdiv.
  apply Qmult_le_0_compat.
  - induction H as [|x l Hx _ IH]; cbn; [discriminate | lra].
  - apply Qinv_le_0_compat.
    change 0 with (inject_Z 0); rewrite <- Zle_Qle; lia.
Qed.

(** X8.  On a frame of at least 14 bars whose highs are not below their
    lows, the ATR is a number (not NaN) and is not negative. *)
Theorem calculate_atr_nonneg (df : list Bar) :
  (14 <= List.length df)%nat ->
  Forall (fun b => low b <= high b) df ->
  exists ATR, calculate_atr df 14 = Ok (Some ATR) /\ 0 <= ATR.
Proof.
  intros Hlen Hbars; unfold calculate_atr.
  destruct df as [|b df']; [cbn in Hlen; lia|].
  apply Nat.ltb_ge in Hlen; rewrite Hlen.
  eexists; split; [reflexivity|].
  apply mean_nonneg, Forall_skipn_keep, true_ranges_nonneg; assumption.
Qed.

Lemma calculate_atr_nonneg_witness :
  exists ATR,
    calculate_atr (daily_bars_around 2000) 14 = Ok (Some ATR) /\ 0 <= ATR.
Proof.
  apply (calculate_atr_nonneg (daily_bars_around 2000)).
  - cbn; repeat constructor.
  - repeat constructor; discriminate.
Defined.

(** ** Position size, continued *)

(** X9.  For positive inputs with the price not above
    [accountSize * leverageCap], one unit fits under the leverage cap: the
    final leverage check does not fire, the quantity handed to the entry
    order is the line-1284 minimum, it is at least 1, and its market value
    stays within [accountSize * leverageCap]. *)
Theorem position_size_affordable (accountSize riskFraction leverageCap price
    R : Q) :
  0 < accountSize -> 0 < riskFraction -> 0 < leverageCap -> 0 < price ->
  0 < R -> price <= accountSize * leverageCap ->
  exists sz : sizing,
    position_size accountSize leverageCap riskFraction R price = Ok sz
    /\ leverage_check_fired sz = false
    /\ qty sz = spec_quantity accountSize riskFraction leverageCap price R
    /\ (1 <= qty sz)%Z
    /\ inject_Z (qty sz) * price <= accountSize * leverageCap.
Proof.
  intros Ha Hr HL Hp HR Hfit.
  assert (H1 : (1 <= Qfloor (accountSize * leverageCap / price))%Z).
  { change 1%Z with (Qfloor 1); apply Qfloor_resp_le.
    apply Qle_shift_div_l; lra. }
  pose proof (qmin_within_cap accountSize leverageCap riskFraction R price
                Ha Hp H1) as Hcap.
  destruct (position_size_value accountSize leverageCap riskFraction R price
              Ha HL Hr HR Hp) as [[Hf E] | [Hf E]]; [lra|].
  eexists; split; [exact E|]; cbn [leverage_check_fired qty].
  split; [reflexivity|]; split; [reflexivity|]; split; [lia|].
  set (v := inject_Z _ * price) in *.
  apply Qle_trans with (v / accountSize * accountSize).
  - setoid_replace (v / accountSize * accountSize) with v by (field; lra).
    apply Qle_refl.
  - setoid_replace (accountSize * leverageCap)
      with (leverageCap * accountSize) by ring.
    apply Qmult_le_compat_r; [exact Hcap | lra].
Qed.

Lemma position_size_affordable_witness :
  exists sz : sizing,
    position_size ACCOUNT_SIZE LEVERAGE RISK_PCT 2 2000 = Ok sz
    /\ leverage_check_fired sz = false /\ (1 <= qty sz)%Z.
Proof.
  destruct (position_size_affordable ACCOUNT_SIZE RISK_PCT LEVERAGE 2000 2
              eq_refl eq_refl eq_refl eq_refl eq_refl)
    as [sz [E [Hf [_ [Hq _]]]]]; [discriminate|].
  exists sz; auto.
Defined.

(** ** Stale or missing bar data *)

(** X10.  When the 5-minute frame is empty, or its latest bar is more than
    300 seconds away from the expected bar time [next_candle_end - 1s], the
    run ends with exit code 1 and places no order, whatever the daily data
    holds. *)
Theorem stale_bar_aborts (global_min_tick : option Q)
    (trade_and_monitor : string -> Z -> Q -> Q -> list event)
    (open_orders_at_exit : list Z) (df : list Bar) (next_candle_end : Q)
    (daily_df : list Bar) :
  df = []
  \/ (exists earlier latest_bar,
        df = earlier ++ [latest_bar]
        /\ 300 < Qabs (date latest_bar - (next_candle_end - 1))) ->
  let r := main global_min_tick trade_and_monitor open_orders_at_exit df
             next_candle_end daily_df in
  exit_code r = 1%Z /\ no_order_placed (trace r).
Proof.
  intros H; cbv zeta.
  apply main_abort; unfold main_decision.
  destruct H as [-> | [earlier [latest_bar [-> Hstale]]]]; [reflexivity|].
  rewrite rev_app_distr; cbn [rev app].
  destruct (Qlt_le_dec 300 _); [reflexivity | lra].
Qed.

Lemma stale_bar_aborts_witness :
  exit_code (main (Some (1 # 100)) (fun _ _ _ _ => []) []
               [{| date := 0; open := 2000; high := 2001; low := 1999;
                   close := 2000; volume := 0 |}] 1000
               (daily_bars_around 2000)) = 1%Z.
Proof.
  apply (stale_bar_aborts (Some (1 # 100)) (fun _ _ _ _ => []) []
           [{| date := 0; open := 2000; high := 2001; low := 1999;
               close := 2000; volume := 0 |}] 1000
           (daily_bars_around 2000)).
  right; exists [], {| date := 0; open := 2000; high := 2001; low := 1999;
                       close := 2000; volume := 0 |}.
  split; [reflexivity | reflexivity].
Defined.

(** ** Position monitor, continued *)

Lemma update_first_match_split (trades_record : list TradeRecord)
    (entry_price : Q) (upd : TradeRecord -> TradeRecord) :
  (forallb (fun t => negb (entry_matches t entry_price)) trades_record = true
   /\ update_first_match trades_record entry_price upd = trades_record)
  \/ exists before trade after,
       trades_record = before ++ trade :: after
       /\ forallb (fun t => negb (entry_matches t entry_price)) before = true
       /\ entry_matches trade entry_price = true
       /\ update_first_match trades_record entry_price upd
          = before ++ upd trade :: after.
Proof.
  induction trades_record as [|t l IH]; [left; split; reflexivity|].
  cbn [update_first_match forallb].
  destruct (entry_matches t entry_price) eqn:Et.
  - right; exists [], t, l; repeat split; assumption.
  - destruct IH as [[Hno E] | [before [trade [after [E1 [Hno [Hm E2]]]]]]].
    + left; cbn [negb andb]; split; [assumption | rewrite E; reflexivity].
    + right; exists (t :: before), trade, after.
      rewrite E1 at 1; rewrite E2; cbn [forallb app]; rewrite Et.
      repeat split; assumption.
Qed.

Lemma update_first_match_step (trades_record : list TradeRecord)
    (entry_price : Q) (upd : TradeRecord -> TradeRecord) :
  (forall t, EntryPrice (upd t) = EntryPrice t) ->
  ledger_step entry_price trades_record
    (update_first_match trades_record entry_price upd).
Proof.
  intros Hupd.
  destruct (update_first_match_split trades_record entry_price upd)
    as [[_ E] | [before [trade [after [E1 [Hno [Hm E2]]]]]]].
  - left; exact E.
  - right; exists before, trade, (upd trade), after; auto.
Qed.

Lemma record_exit_entry (trade : TradeRecord) (exit_price pl pp : Q)
    (d : Z * Z * Z) (res : string) (t : datetime) (reason : string) :
  EntryPrice (record_exit trade exit_price pl pp d res t reason)
  = EntryPrice trade.
Proof. reflexivity. Qed.

Lemma ledger_step_refl (entry_price : Q) (l : list TradeRecord) :
  ledger_step entry_price l l.
Proof. left; reflexivity. Qed.

Lemma close_position_at_market_ledger (env : close_env)
    (trades_record : list TradeRecord) (action : string) (quantity : Z)
    (entry_price : Q) (start_time : datetime) (reason : string) :
  exists closed trades',
    close_position_at_market env trades_record action quantity entry_price
      start_time reason
    = (close_events env action quantity, Ok (closed, trades'))
    /\ ledger_step entry_price trades_record trades'.
Proof.
  unfold close_position_at_market, close_events.
  destruct (poll_close_order env 40 0) as [exit_price|];
    [destruct (Qeq_bool exit_price 0);
     [|destruct (profit_and_result action quantity entry_price exit_price)
         as [[[pl pp] res]|e]]|];
    cbn; rewrite ?app_nil_r; eexists; eexists;
    (split; [reflexivity|]);
    try apply ledger_step_refl.
  apply update_first_match_step; intros t; reflexivity.
Qed.

Lemma count_placed_close_events (env : close_env) (action : string)
    (quantity : Z) :
  count_placed (close_events env action quantity) = 1%nat.
Proof.
  unfold close_events; rewrite count_placed_app, count_placed_listed.
  reflexivity.
Qed.

Section MonitorShape.

Variable contract_symbol : string.
Variables (action : string) (quantity : Z) (entry_price stop_price : Q).
Variables (strategy : string) (max_minutes : Z).
Variable start_time : datetime.

Let pass := monitor_pass contract_symbol action quantity entry_price
              stop_price strategy max_minutes start_time.
Let loop := monitor_loop contract_symbol action quantity entry_price
              stop_price strategy max_minutes start_time.
Let fires (w : wake) : bool :=
  fst (exit_policy_check strategy max_minutes (w_now w)
         (total_seconds (w_now w) start_time / 60)).

(** The ways one pass can go. *)
Lemma monitor_pass_shape (last_update_time : datetime)
    (trades_record : list TradeRecord) (w : wake) :
  (fires w = true
   /\ exists closed trades',
        pass last_update_time trades_record w
        = (close_events (w_close w) action quantity,
           Ok (Break (PolicyClose
                        (snd (exit_policy_check strategy max_minutes (w_now w)
                                (total_seconds (w_now w) start_time / 60)))
                        closed) trades'))
        /\ ledger_step entry_price trades_record trades')
  \/ (fires w = false
      /\ ((exists trades',
             pass last_update_time trades_record w
             = ([], Ok (Break StopTriggered trades'))
             /\ in_list contract_symbol (w_positions w) = false
             /\ ledger_step entry_price trades_record trades')
          \/ (exists l,
                pass last_update_time trades_record w = ([], Ok (Continue l))
                /\ in_list contract_symbol (w_positions w) = true)
          \/ (exists e, pass last_update_time trades_record w
                        = ([], Raise e)))).
Proof.
  unfold pass, fires, monitor_pass.
  destruct (exit_policy_check strategy max_minutes (w_now w)
              (total_seconds (w_now w) start_time / 60))
    as [trig reason]; cbn [fst snd].
  destruct trig.
  - left; split; [reflexivity|].
    destruct (close_position_at_market_ledger (w_close w) trades_record
                action quantity entry_price start_time reason)
      as [closed [trades' [E Hstep]]].
    exists closed, trades'; rewrite E; cbn; rewrite app_nil_r; auto.
  - right; split; [reflexivity|].
    destruct (in_list contract_symbol (w_positions w)); cbn [negb].
    + right.
      destruct (Qle_bool 60 _); [|left; eexists; split; reflexivity].
      destruct (status_refresh action entry_price (w_market_price w));
        [left | right]; eexists; cbn; try split; reflexivity.
    + destruct (profit_and_result action quantity entry_price stop_price)
        as [[[pl pp] res]|e]; cbn.
      * left; eexists; split; [reflexivity|]; split; [reflexivity|].
        apply update_first_match_step; intros t; reflexivity.
      * right; right; eexists; reflexivity.
Qed.

(** The ways a whole run of the loop can go. *)
Lemma monitor_loop_shape (wakes : list wake) :
  forall (last_update_time : datetime) (trades_record : list TradeRecord),
    (exists w reason closed trades',
       In w wakes
       /\ loop last_update_time trades_record wakes
          = (close_events (w_close w) action quantity,
             Ok (PolicyClose reason closed, trades'))
       /\ fires w = true
       /\ ledger_step entry_price trades_record trades')
    \/ (exists trades',
          loop last_update_time trades_record wakes
          = ([], Ok (StopTriggered, trades'))
          /\ ledger_step entry_price trades_record trades')
    \/ loop last_update_time trades_record wakes
       = ([], Ok (WakesExhausted, trades_record))
    \/ (exists e, loop last_update_time trades_record wakes = ([], Raise e)).
Proof.
  induction wakes as [|w rest IH]; intros last_update_time trades_record.
  - right; right; left; reflexivity.
  - unfold loop; cbn [monitor_loop]; fold loop; fold pass.
    destruct (monitor_pass_shape last_update_time trades_record w)
      as [[Hf [closed [trades' [E Hstep]]]]
         | [Hf [[trades' [E [_ Hstep]]] | [[l [E _]] | [e E]]]]];
      rewrite E; cbn [iobind ret].
    + left; eexists w, _, closed, trades'.
      rewrite app_nil_r; repeat split; auto; left; reflexivity.
    + right; left; exists trades'; auto.
    + destruct (IH l trades_record)
        as [[w' [reason [closed [trades' [Hin [E' [Hf' Hstep]]]]]]]
           | [[trades' [E' Hstep]] | [E' | [e E']]]];
        rewrite E'; cbn [app].
      * left; exists w', reason, closed, trades'.
        repeat split; auto; right; assumption.
      * right; left; exists trades'; auto.
      * right; right; left; reflexivity.
      * right; right; right; exists e; reflexivity.
    + right; right; right; exists e; reflexivity.
Qed.

End MonitorShape.

Lemma ledger_step_length (entry_price : Q) (old new : list TradeRecord) :
  ledger_step entry_price old new -> List.length new = List.length old.
Proof.
  intros [-> | [before [trade [trade' [after [-> [-> _]]]]]]];
    [reflexivity|].
  rewrite !length_app; reflexivity.
Qed.

(** X11.  Over any sequence of observations the monitor submits at most one
    order of its own, the market close of a policy exit: it submits exactly
    one when it ends in PolicyClose, and makes no order-changing broker call
    at all when it ends any other way. *)
Theorem monitor_places_at_most_one_order (contract_symbol action : string)
    (quantity : Z) (entry_price stop_price : Q) (strategy : string)
    (max_minutes : Z) (start_time last_update_time : datetime)
    (trades_record : list TradeRecord) (wakes : list wake) :
  exists ev r,
    monitor_loop contract_symbol action quantity entry_price stop_price
      strategy max_minutes start_time last_update_time trades_record wakes
    = (ev, r)
    /\ (count_placed ev <= 1)%nat
    /\ ((exists reason closed trades',
           r = Ok (PolicyClose reason closed, trades'))
        <-> count_placed ev = 1%nat)
    /\ (count_placed ev = 0%nat -> ev = []).
Proof.
  destruct (monitor_loop_shape contract_symbol action quantity entry_price
              stop_price strategy max_minutes start_time wakes
              last_update_time trades_record)
    as [[w [reason [closed [trades' [_ [E _]]]]]]
       | [[trades' [E _]] | [E | [e E]]]];
    rewrite E; eexists; eexists; (split; [reflexivity|]);
    rewrite ?count_placed_close_events.
  - split; [lia|]; split; [|intros H; discriminate].
    split; [reflexivity | intros _; eauto].
  - cbn; split; [lia|]; split; [|reflexivity].
    split; [intros [? [? [? H]]]; discriminate | discriminate].
  - cbn; split; [lia|]; split; [|reflexivity].
    split; [intros [? [? [? H]]]; discriminate | discriminate].
  - cbn; split; [lia|]; split; [|reflexivity].
    split; [intros [? [? [? H]]]; discriminate | discriminate].
Qed.

Section MonitorRunning.

Variable contract_symbol : string.
Variables (action : string) (quantity : Z) (entry_price stop_price : Q).
Variables (strategy : string) (max_minutes : Z).
Variable start_time : datetime.

Hypothesis entry_nonzero : ~ entry_price == 0.

(** With a non-zero entry price no division of a pass can fail. *)
Lemma monitor_pass_no_raise (last_update_time : datetime)
    (trades_record : list TradeRecord) (w : wake) (ev : list event)
    (e : pyerror) :
  monitor_pass contract_symbol action quantity entry_price stop_price
    strategy max_minutes start_time last_update_time trades_record w
  <> (ev, Raise e).
Proof.
  unfold monitor_pass.
  destruct (exit_policy_check strategy max_minutes (w_now w)
              (total_seconds (w_now w) start_time / 60)) as [trig reason].
  destruct trig.
  - destruct (close_position_at_market_ledger (w_close w) trades_record
                action quantity entry_price start_time reason)
      as [closed [trades' [E _]]].
    rewrite E; cbn. discriminate.
  - destruct (in_list contract_symbol (w_positions w)); cbn [negb].
    + destruct (Qle_bool 60 _); [|discriminate].
      unfold status_refresh.
      destruct (w_market_price w) as [p|]; [|discriminate].
      destruct (Qlt_le_dec 0 p); [|discriminate].
      rewrite py_div_nonzero by exact entry_nonzero. discriminate.
    + unfold profit_and_result.
      rewrite py_div_nonzero by exact entry_nonzero. discriminate.
Qed.

(** The loop is still running after the given passes exactly when every one
    of them found the policy silent and the instrument still held. *)
Lemma monitor_loop_running (wakes : list wake) :
  forall (last_update_time : datetime) (trades_record : list TradeRecord),
  exists ev how trades',
    monitor_loop contract_symbol action quantity entry_price stop_price
      strategy max_minutes start_time last_update_time trades_record wakes
    = (ev, Ok (how, trades'))
    /\ (how = WakesExhausted <->
        forall w, In w wakes ->
          fst (exit_policy_check strategy max_minutes (w_now w)
                 (total_seconds (w_now w) start_time / 60)) = false
          /\ in_list contract_symbol (w_positions w) = true).
Proof.
  induction wakes as [|w rest IH]; intros last_update_time trades_record.
  - exists [], WakesExhausted, trades_record. split; [reflexivity|].
    split; [intros _ w [] | reflexivity].
  - cbn [monitor_loop].
    pose proof (monitor_pass_no_raise last_update_time trades_record w)
      as Hok.
    destruct (monitor_pass_shape contract_symbol action quantity entry_price
                stop_price strategy max_minutes start_time last_update_time
                trades_record w)
      as [[Hf [closed [trades' [E Hstep]]]]
         | [Hf [[trades' [E [Hgone Hstep]]] | [[l [E Hheld]] | [e E]]]]].
    + rewrite E; cbn [iobind ret]. eexists; eexists; eexists.
      split; [reflexivity|].
      split; [discriminate|].
      intros H. destruct (H w (or_introl eq_refl)) as [H1 _].
      rewrite Hf in H1; discriminate H1.
    + rewrite E; cbn [iobind ret]. eexists; eexists; eexists.
      split; [reflexivity|].
      split; [discriminate|].
      intros H. destruct (H w (or_introl eq_refl)) as [_ H2].
      rewrite Hgone in H2; discriminate H2.
    + rewrite E; cbn [iobind].
      destruct (IH l trades_record) as [ev [how [trades' [E' Hiff]]]].
      rewrite E'. exists ev, how, trades'. split; [reflexivity|].
      rewrite Hiff. split.
      * intros H w' [<- | Hin]; [split; assumption | apply H; exact Hin].
      * intros H w' Hin. apply H. right. exact Hin.
    + exfalso. exact (Hok [] e E).
Qed.

End MonitorRunning.

(** X12.  Over any sequence of passes [monitor_trade_and_exit] lets no
    exception escape, and what it has done to the ledger is at most one
    booking: the ledger keeps its length, every record keeps its entry
    price, and the only record that may change is the first one whose
    EntryPrice is within 0.1 of the monitored entry price.  The ledger is
    unchanged when the monitor ends on a caught error and while the loop is
    still running.  The loop need not end: with a non-zero entry price it is
    still running after the given passes exactly when each of them found the
    exit policy silent and the instrument still among the positions. *)
Theorem monitor_books_at_most_one_record (contract_symbol action : string)
    (quantity : Z) (entry_price stop_price : Q) (strategy : string)
    (max_minutes : Z) (start_time : datetime)
    (trades_record : list TradeRecord) (wakes : list wake) :
  exists ev how trades',
    monitor_trade_and_exit contract_symbol action quantity entry_price
      stop_price strategy max_minutes start_time trades_record wakes
    = (ev, Ok (how, trades'))
    /\ ledger_step entry_price trades_record trades'
    /\ List.length trades' = List.length trades_record
    /\ (how = MonitorError \/ how = WakesExhausted ->
        trades' = trades_record)
    /\ (~ entry_price == 0 ->
        (how = WakesExhausted <->
         forall w, In w wakes ->
           fst (exit_policy_check strategy max_minutes (w_now w)
                  (total_seconds (w_now w) start_time / 60)) = false
           /\ in_list contract_symbol (w_positions w) = true)).
Proof.
  unfold monitor_trade_and_exit.
  pose proof (fun H => monitor_loop_running contract_symbol action quantity
                         entry_price stop_price strategy max_minutes
                         start_time H wakes start_time trades_record)
    as Hrun.
  destruct (monitor_loop_shape contract_symbol action quantity entry_price
              stop_price strategy max_minutes start_time wakes start_time
              trades_record)
    as [[w [reason [closed [trades' [_ [E [_ Hstep]]]]]]]
       | [[trades' [E Hstep]] | [E | [e E]]]];
    rewrite E in *; cbn [try_except ret app].
  - eexists; eexists; exists trades'; split; [reflexivity|].
    split; [assumption|]; split; [eapply ledger_step_length; eassumption|].
    split; [intros [H | H]; discriminate|].
    intros Hne. destruct (Hrun Hne) as [ev [how [tr [E' Hiff]]]].
    injection E' as <- <- <-. exact Hiff.
  - eexists; eexists; exists trades'; split; [reflexivity|].
    split; [assumption|]; split; [eapply ledger_step_length; eassumption|].
    split; [intros [H | H]; discriminate|].
    intros Hne. destruct (Hrun Hne) as [ev [how [tr [E' Hiff]]]].
    injection E' as <- <- <-. exact Hiff.
  - eexists; eexists; exists trades_record; split; [reflexivity|].
    split; [apply ledger_step_refl|]. split; [reflexivity|].
    split; [auto|].
    intros Hne. destruct (Hrun Hne) as [ev [how [tr [E' Hiff]]]].
    injection E' as <- <- <-. exact Hiff.
  - eexists; eexists; exists trades_record; split; [reflexivity|].
    split; [apply ledger_step_refl|]. split; [reflexivity|].
    split; [auto|].
    intros Hne. destruct (Hrun Hne) as [ev [how [tr [E' _]]]].
    discriminate E'.
Qed.

(** X13.  Under the MAX_DURATION policy a pass ends in PolicyClose exactly
    when the minutes elapsed since the start reach the configured maximum;
    the market close is then invoked with the reason
    "Max Duration (<n> min) Reached", and this happens before the position
    list is looked at, whatever it holds. *)
Theorem max_duration_transition_iff (contract_symbol action : string)
    (quantity : Z) (entry_price stop_price : Q) (max_minutes : Z)
    (start_time last_update_time : datetime)
    (trades_record : list TradeRecord) (w : wake) :
  let p := monitor_pass contract_symbol action quantity entry_price stop_price
             "MAX_DURATION" max_minutes start_time last_update_time
             trades_record w in
  let elapsed_minutes := total_seconds (w_now w) start_time / 60 in
  let reason := String.append "Max Duration ("
                  (String.append (string_of_Z max_minutes) " min) Reached") in
  ((exists ev why closed trades',
      p = (ev, Ok (Break (PolicyClose why closed) trades')))
   <-> inject_Z max_minutes <= elapsed_minutes)
  /\ (inject_Z max_minutes <= elapsed_minutes ->
      exists closed trades',
        p = (close_events (w_close w) action quantity,
             Ok (Break (PolicyClose reason closed) trades')))
  /\ (max_minutes = 60%Z -> reason = "Max Duration (60 min) Reached").
Proof.
  cbv zeta.
  assert (Hc : exit_policy_check "MAX_DURATION" max_minutes (w_now w)
                 (total_seconds (w_now w) start_time / 60)
               = if Qle_bool (inject_Z max_minutes)
                      (total_seconds (w_now w) start_time / 60)
                 then (true,
                       String.append "Max Duration ("
                         (String.append (string_of_Z max_minutes)
                            " min) Reached"))
                 else (false, "")) by reflexivity.
  assert (Hfire :
    inject_Z max_minutes <= total_seconds (w_now w) start_time / 60 ->
    exists closed trades',
      monitor_pass contract_symbol action quantity entry_price stop_price
        "MAX_DURATION" max_minutes start_time last_update_time trades_record w
      = (close_events (w_close w) action quantity,
         Ok (Break (PolicyClose
                      (String.append "Max Duration ("
                         (String.append (string_of_Z max_minutes)
                            " min) Reached")) closed) trades'))).
  { intros Hle; apply Qle_bool_iff in Hle; rewrite Hle in Hc.
    rewrite (pass_policy_fires _ _ _ _ _ _ _ _ _ _ _ _ Hc).
    destruct (close_position_at_market_events (w_close w) trades_record
                action quantity entry_price start_time
                (String.append "Max Duration ("
                   (String.append (string_of_Z max_minutes)
                      " min) Reached")))
      as [closed [trades' E]].
    rewrite E; cbn; rewrite app_nil_r.
    exists closed, trades'; reflexivity. }
  split; [split|split; [exact Hfire|intros ->; reflexivity]].
  - intros [ev [why [closed [trades' E]]]].
    destruct (Qle_bool (inject_Z max_minutes)
                (total_seconds (w_now w) start_time / 60)) eqn:Eb.
    + apply Qle_bool_iff; assumption.
    + exfalso.
      exact (pass_policy_silent _ _ _ _ _ _ _ _ _ _ _ _ Hc _ _ _ _ E).
  - intros Hle; destruct (Hfire Hle) as [closed [trades' E]].
    eexists; eexists; eexists; eexists; exact E.
Qed.

Lemma max_duration_transition_iff_witness :
  let t0 := {| hour := 10; minute := 0; timestamp := 0 |} in
  let t := {| hour := 11; minute := 1; timestamp := 3660 |} in
  let w := {| w_now := t; w_positions := []; w_end_time := t;
              w_market_price := None;
              w_close := {| ce_open_orders := [];
                            ce_status := fun _ => ("Filled", 2001);
                            ce_end_time := t |} |} in
  exists closed trades',
    monitor_pass "XAUUSD" "BUY" 10 2000 1998 "MAX_DURATION" 60 t0 t0 [] w
    = ([PlaceOrder (MarketOrder "SELL" 10)],
       Ok (Break (PolicyClose "Max Duration (60 min) Reached" closed)
             trades')).
Proof.
  cbv zeta.
  apply (proj1 (proj2 (max_duration_transition_iff "XAUUSD" "BUY" 10 2000
           1998 60
           {| hour := 10; minute := 0; timestamp := 0 |}
           {| hour := 10; minute := 0; timestamp := 0 |} []
           {| w_now := {| hour := 11; minute := 1; timestamp := 3660 |};
              w_positions := [];
              w_end_time := {| hour := 11; minute := 1; timestamp := 3660 |};
              w_market_price := None;
              w_close :=
                {| ce_open_orders := [];
                   ce_status := fun _ => ("Filled", 2001);
                   ce_end_time :=
                     {| hour := 11; minute := 1; timestamp := 3660 |} |} |}))).
  apply Qle_bool_imp_le; vm_compute; reflexivity.
Defined.

(** X14.  With an exit strategy other than 'EOD' and 'MAX_DURATION' the
    monitor has no policy exit: over any observations it submits and cancels
    nothing, and it never ends in PolicyClose (only a vanished position, an
    error or the end of the observations ends it). *)
Theorem unknown_strategy_only_stop_exit (contract_symbol action : string)
    (quantity : Z) (entry_price stop_price : Q) (strategy : string)
    (max_minutes : Z) (start_time last_update_time : datetime)
    (trades_record : list TradeRecord) (wakes : list wake) :
  strategy <> "EOD" -> strategy <> "MAX_DURATION" ->
  exists r,
    monitor_loop contract_symbol action quantity entry_price stop_price
      strategy max_minutes start_time last_update_time trades_record wakes
    = ([], r)
    /\ forall reason closed trades',
         r <> Ok (PolicyClose reason closed, trades').
Proof.
  intros H1 H2.
  apply String.eqb_neq in H1; apply String.eqb_neq in H2.
  assert (Hc : forall t e,
            exit_policy_check strategy max_minutes t e = (false, ""))
    by (intros t e; unfold exit_policy_check; rewrite H1, H2; reflexivity).
  destruct (monitor_loop_shape contract_symbol action quantity entry_price
              stop_price strategy max_minutes start_time wakes
              last_update_time trades_record)
    as [[w [reason [closed [trades' [_ [_ [Hf _]]]]]]]
       | [[trades' [E _]] | [E | [e E]]]].
  - rewrite Hc in Hf; discriminate.
  - rewrite E; eexists; split; [reflexivity | discriminate].
  - rewrite E; eexists; split; [reflexivity | discriminate].
  - rewrite E; eexists; split; [reflexivity | discriminate].
Qed.

Lemma unknown_strategy_only_stop_exit_witness :
  let t := {| hour := 15; minute := 55; timestamp := 90000 |} in
  let w := {| w_now := t; w_positions := ["XAUUSD"]; w_end_time := t;
              w_market_price := None;
              w_close := {| ce_open_orders := [];
                            ce_status := fun _ => ("Filled", 2001);
                            ce_end_time := t |} |} in
  exists r,
    monitor_loop "XAUUSD" "BUY" 10 2000 1998 "TRAILING" 60 t t [] [w; w]
    = ([], r).
Proof.
  cbv zeta.
  destruct (unknown_strategy_only_stop_exit "XAUUSD" "BUY" 10 2000 1998
              "TRAILING" 60
              {| hour := 15; minute := 55; timestamp := 90000 |}
              {| hour := 15; minute := 55; timestamp := 90000 |} []
              [ {| w_now := {| hour := 15; minute := 55; timestamp := 90000 |};
                   w_positions := ["XAUUSD"];
                   w_end_time :=
                     {| hour := 15; minute := 55; timestamp := 90000 |};
                   w_market_price := None;
                   w_close :=
                     {| ce_open_orders := [];
                        ce_status := fun _ => ("Filled", 2001);
                        ce_end_time :=
                          {| hour := 15; minute := 55;
                             timestamp := 90000 |} |} |};
                {| w_now := {| hour := 15; minute := 55; timestamp := 90000 |};
                   w_positions := ["XAUUSD"];
                   w_end_time :=
                     {| hour := 15; minute := 55; timestamp := 90000 |};
                   w_market_price := None;
                   w_close :=
                     {| ce_open_orders := [];
                        ce_status := fun _ => ("Filled", 2001);
                        ce_end_time :=
                          {| hour := 15; minute := 55;
                             timestamp := 90000 |} |} |} ])
    as [r [E _]]; [discriminate | discriminate|].
  exists r; exact E.
Defined.

(** ** Market close, continued *)

Lemma poll_close_order_first (env : close_env) (n : nat) :
  forall (attempt j : nat) (p : Q),
    (attempt <= j < attempt + n)%nat ->
    (forall i, (attempt <= i < j)%nat -> fst (ce_status env i) <> "Filled") ->
    ce_status env j = ("Filled", p) ->
    poll_close_order env n attempt = Some p.
Proof.
  induction n as [|n IH]; intros attempt j p Hj Hbefore Hat; [lia|].
  cbn [poll_close_order].
  destruct (Nat.eq_dec attempt j) as [->|Hne].
  - rewrite Hat; reflexivity.
  - pose proof (Hbefore attempt ltac:(lia)) as Hnot.
    destruct (ce_status env attempt) as [status avg]; cbn [fst] in Hnot.
    apply String.eqb_neq in Hnot; rewrite Hnot.
    apply (IH (S attempt) j p); [lia | intros i Hi; apply Hbefore; lia
                                | assumption].
Qed.

(** X15.  When the close order is first reported Filled within the 40 polls,
    at a non-zero average price, and the entry price is not zero,
    [close_position_at_market] cancels the listed open orders, submits one
    market order on the opposite side, returns success, and books the exit
    in the first ledger record within 0.1 of the entry price: exit price the
    fill price, PnL [(exit - entry) * qty] for a BUY and [(entry - exit) *
    qty] otherwise, rounded to two decimals, and the caller's exit reason. *)
Theorem close_position_at_market_books_fill (env : close_env)
    (trades_record : list TradeRecord) (action : string) (quantity : Z)
    (entry_price : Q) (start_time : datetime) (reason : string) (j : nat)
    (exit_price : Q) :
  (j < 40)%nat ->
  (forall i, (i < j)%nat -> fst (ce_status env i) <> "Filled") ->
  ce_status env j = ("Filled", exit_price) ->
  ~ exit_price == 0 -> ~ entry_price == 0 ->
  let diff := if action =? "BUY" then exit_price - entry_price
              else entry_price - exit_price in
  let profit_loss := diff * inject_Z quantity in
  exists booked : TradeRecord -> TradeRecord,
    close_position_at_market env trades_record action quantity entry_price
      start_time reason
    = (map CancelListed (ce_open_orders env)
       ++ [PlaceOrder (MarketOrder (if action =? "BUY" then "SELL" else "BUY")
                         quantity)],
       Ok (true, update_first_match trades_record entry_price booked))
    /\ (forall trade,
          ExitPrice (booked trade) = exit_price
          /\ PnL (booked trade) = py_round2 profit_loss
          /\ PnLPercent (booked trade) = py_round2 (diff / entry_price * 100)
          /\ Result (booked trade)
             = (if Qlt_le_dec 0 profit_loss then "Profit"
                else if Qlt_le_dec profit_loss 0 then "Loss"
                else "Breakeven")
          /\ ExitReason (booked trade) = reason
          /\ ExitTime (booked trade) = Some (ce_end_time env)
          /\ EntryPrice (booked trade) = EntryPrice trade
          /\ Quantity (booked trade) = Quantity trade)
    /\ (forall before trade after,
          trades_record = before ++ trade :: after ->
          forallb (fun t => negb (entry_matches t entry_price)) before = true ->
          Qabs (EntryPrice trade - entry_price) < 1 # 10 ->
          update_first_match trades_record entry_price booked
          = before ++ booked trade :: after).
Proof.
  intros Hj Hbefore Hat Hexit Hentry; cbv zeta.
  assert (Hpoll : poll_close_order env 40 0 = Some exit_price).
  { apply (poll_close_order_first env 40 0 j); [lia | | assumption].
    intros i Hi; apply Hbefore; lia. }
  eexists; split; [|split].
  - unfold close_position_at_market; rewrite Hpoll.
    destruct (Qeq_bool exit_price 0) eqn:Ez;
      [apply Qeq_bool_eq in Ez; contradiction|].
    unfold profit_and_result; rewrite py_div_nonzero by assumption.
    cbn; rewrite ?app_nil_r; reflexivity.
  - intros trade; repeat split; reflexivity.
  - intros before trade after -> Hno Hm.
    apply update_first_match_first; [assumption|].
    apply entry_matches_iff; assumption.
Qed.

Lemma close_position_at_market_books_fill_witness :
  let t0 := {| hour := 10; minute := 0; timestamp := 0 |} in
  let t := {| hour := 15; minute := 50; timestamp := 21000 |} in
  let env := {| ce_open_orders := [7%Z];
                ce_status := fun i => if (i <? 2)%nat then ("Submitted", 0)
                                      else ("Filled", 2005);
                ce_end_time := t |} in
  let trade := new_trade_record t0 "BUY" 2000 10 1998 "XAUUSD" in
  exists booked,
    close_position_at_market env [trade] "BUY" 10 2000 t0 "EOD Market Close"
    = ([CancelListed 7; PlaceOrder (MarketOrder "SELL" 10)],
       Ok (true, [booked]))
    /\ ExitPrice booked = 2005 /\ PnL booked == 50
    /\ Result booked = "Profit" /\ ExitReason booked = "EOD Market Close".
Proof.
  cbv zeta.
  destruct (close_position_at_market_books_fill
              {| ce_open_orders := [7%Z];
                 ce_status := fun i => if (i <? 2)%nat then ("Submitted", 0)
                                       else ("Filled", 2005);
                 ce_end_time :=
                   {| hour := 15; minute := 50; timestamp := 21000 |} |}
              [new_trade_record {| hour := 10; minute := 0; timestamp := 0 |}
                 "BUY" 2000 10 1998 "XAUUSD"]
              "BUY" 10 2000 {| hour := 10; minute := 0; timestamp := 0 |}
              "EOD Market Close" 2%nat 2005)
    as [booked [E [Hfields _]]].
  - repeat constructor.
  - intros i Hi; destruct i as [|[|i]]; cbn; try discriminate.
    exfalso; apply (Nat.lt_irrefl 2).
    apply Nat.le_lt_trans with (S (S i)); [|exact Hi].
    repeat apply le_n_S; apply Nat.le_0_l.
  - reflexivity.
  - apply Qeq_bool_neq; reflexivity.
  - apply Qeq_bool_neq; reflexivity.
  - eexists; split; [rewrite E; cbn [update_first_match]; reflexivity|].
    destruct (Hfields (new_trade_record
                         {| hour := 10; minute := 0; timestamp := 0 |}
                         "BUY" 2000 10 1998 "XAUUSD"))
      as [H1 [H2 [_ [H4 [H5 _]]]]].
    rewrite H1, H2, H4, H5.
    split; [reflexivity|]; split; [vm_compute; reflexivity|].
    split; reflexivity.
Defined.

(** ** The holding time as hours, minutes and seconds *)

Lemma Qfloor_shift (k : Z) (x : Q) :
  Qfloor (inject_Z k + x) = (k + Qfloor x)%Z.
Proof.
  pose proof (Qfloor_le x) as Hl.
  pose proof (Qlt_floor x) as Hu.
  pose proof (Qfloor_le (inject_Z k + x)) as Hl'.
  pose proof (Qlt_floor (inject_Z k + x)) as Hu'.
  rewrite inject_Z_plus in Hu, Hu'.
  change (inject_Z 1) with 1 in Hu, Hu'.
  assert (H1 : (Qfloor (inject_Z k + x) < k + Qfloor x + 1)%Z).
  { rewrite Zlt_Qlt, !inject_Z_plus. change (inject_Z 1) with 1. lra. }
  assert (H2 : (k + Qfloor x < Qfloor (inject_Z k + x) + 1)%Z).
  { rewrite Zlt_Qlt, !inject_Z_plus. change (inject_Z 1) with 1. lra. }
  lia.
Qed.

Lemma py_divmod_spec (x y : Q) :
  0 < y ->
  let '(q, r) := py_divmod x y in
  q = inject_Z (Qfloor (x / y)) /\ 0 <= r /\ r < y /\ x == q * y + r.
Proof.
  intros Hy. unfold py_divmod.
  pose proof (Qfloor_le (x / y)) as Hl.
  pose proof (Qlt_floor (x / y)) as Hu.
  rewrite inject_Z_plus in Hu. change (inject_Z 1) with 1 in Hu.
  set (f := inject_Z (Qfloor (x / y))) in *.
  assert (Hx : x == x / y * y) by (field; lra).
  split; [reflexivity|].
  split; [|split; [|ring]].
  - assert (f * y <= x / y * y) by (apply Qmult_le_compat_r; lra). lra.
  - assert (x / y * y < (f + 1) * y) by (apply Qmult_lt_compat_r; lra). lra.
Qed.

Lemma py_int_inject (k : Z) : py_int (inject_Z k) = k.
Proof. unfold py_int; simpl. apply Z.quot_1_r. Qed.

(** X16. [duration_parts] always yields minutes and seconds between 0 and 59,
    and its three parts add up to the whole seconds of the duration
    (the floor, also for a negative duration, whose hours are then
    negative). *)
Theorem duration_parts_decompose (duration_seconds : Q) :
  let '(hours, minutes, seconds) := duration_parts duration_seconds in
  (0 <= minutes < 60)%Z /\ (0 <= seconds < 60)%Z /\
  (hours * 3600 + minutes * 60 + seconds = Qfloor duration_seconds)%Z.
Proof.
  unfold duration_parts.
  pose proof (py_divmod_spec duration_seconds 3600 eq_refl) as H1.
  destruct (py_divmod duration_seconds 3600) as [hours remainder].
  destruct H1 as [Hh [Hr0 [Hr1 Hd]]].
  pose proof (py_divmod_spec remainder 60 eq_refl) as H2.
  destruct (py_divmod remainder 60) as [minutes seconds].
  destruct H2 as [Hm [Hs0 [Hs1 Hr]]].
  subst hours minutes.
  set (h := Qfloor (duration_seconds / 3600)) in *.
  set (m := Qfloor (remainder / 60)) in *.
  rewrite !py_int_inject, (py_int_nonneg seconds Hs0).
  assert (Hm0 : (0 <= m)%Z).
  { assert (E : (- 1 < m)%Z); [|lia].
    rewrite Zlt_Qlt. change (inject_Z (-1)) with (-1). lra. }
  assert (Hm1 : (m < 60)%Z).
  { rewrite Zlt_Qlt. change (inject_Z 60) with 60. lra. }
  assert (Hfs0 : (0 <= Qfloor seconds)%Z).
  { change 0%Z with (Qfloor 0). apply Qfloor_resp_le; exact Hs0. }
  assert (Hfs1 : (Qfloor seconds < 60)%Z).
  { rewrite Zlt_Qlt. change (inject_Z 60) with 60.
    apply Qle_lt_trans with seconds; [apply Qfloor_le | exact Hs1]. }
  split; [lia|]. split; [lia|].
  assert (E : duration_seconds ==
              inject_Z (h * 3600 + m * 60) + seconds).
  { rewrite inject_Z_plus, !inject_Z_mult.
    change (inject_Z 3600) with 3600. change (inject_Z 60) with 60. lra. }
  rewrite (Qfloor_comp _ _ E), Qfloor_shift. lia.
Qed.

(** ** The sign of a booked trade *)

Lemma Qmult_pos_iff (d q : Q) : 0 < q -> (0 < d * q <-> 0 < d).
Proof.
  intros Hq; split; intros H.
  - destruct (Qlt_le_dec 0 d) as [|Hd]; [assumption|].
    exfalso. assert (d * q <= 0 * q) by (apply Qmult_le_compat_r; lra). lra.
  - assert (0 * q < d * q) by (apply Qmult_lt_compat_r; assumption). lra.
Qed.

Lemma Qmult_neg_iff (d q : Q) : 0 < q -> (d * q < 0 <-> d < 0).
Proof.
  intros Hq; split; intros H.
  - destruct (Qlt_le_dec d 0) as [|Hd]; [assumption|].
    exfalso. assert (0 * q <= d * q) by (apply Qmult_le_compat_r; lra). lra.
  - assert (d * q < 0 * q) by (apply Qmult_lt_compat_r; assumption). lra.
Qed.

(** X17. For a positive quantity and a positive entry price the booked result
    follows the prices alone: a BUY is a "Profit" exactly when it exits above
    its entry and a "Loss" exactly when it exits below, any other action the
    other way round, and "Breakeven" exactly at equal prices; the percentage
    has the sign of the amount. *)
Theorem profit_and_result_labels (action : string) (quantity : Z)
    (entry_price exit_price : Q) :
  (0 < quantity)%Z -> 0 < entry_price ->
  exists profit_loss profit_percent result,
    profit_and_result action quantity entry_price exit_price =
      Ok (profit_loss, profit_percent, result) /\
    let gain := if action =? "BUY" then exit_price - entry_price
                else entry_price - exit_price in
    (result = "Profit" <-> 0 < gain) /\
    (result = "Loss" <-> gain < 0) /\
    (result = "Breakeven" <-> gain == 0) /\
    (0 < profit_percent <-> 0 < profit_loss) /\
    (profit_percent < 0 <-> profit_loss < 0).
Proof.
  intros Hq He. unfold profit_and_result.
  rewrite py_div_nonzero by lra. cbn [bind].
  set (gain := if action =? "BUY" then exit_price - entry_price
               else entry_price - exit_price).
  assert (Hq' : 0 < inject_Z quantity).
  { change 0 with (inject_Z 0). rewrite <- Zlt_Qlt. exact Hq. }
  pose proof (Qmult_pos_iff gain _ Hq') as Hp.
  pose proof (Qmult_neg_iff gain _ Hq') as Hn.
  assert (Hi : 0 < / entry_price) by (apply Qinv_lt_0_compat; exact He).
  assert (Hpp : 0 < gain / entry_price * 100 <-> 0 < gain).
  { unfold Qdiv. rewrite <- Qmult_assoc. apply Qmult_pos_iff.
    assert (0 * 100 < / entry_price * 100)
      by (apply Qmult_lt_compat_r; [reflexivity | exact Hi]). lra. }
  assert (Hpn : gain / entry_price * 100 < 0 <-> gain < 0).
  { unfold Qdiv. rewrite <- Qmult_assoc. apply Qmult_neg_iff.
    assert (0 * 100 < / entry_price * 100)
      by (apply Qmult_lt_compat_r; [reflexivity | exact Hi]). lra. }
  do 3 eexists. split; [reflexivity|]. cbv zeta.
  split; [|split; [|split; [|split]]].
  - destruct (Qlt_le_dec 0 (gain * inject_Z quantity)) as [H|H].
    + split; [intros _; apply Hp; exact H | reflexivity].
    + split; [|intros H'; apply Hp in H'; lra].
      destruct (Qlt_le_dec (gain * inject_Z quantity) 0); discriminate.
  - destruct (Qlt_le_dec 0 (gain * inject_Z quantity)) as [H|H].
    + split; [discriminate | intros H'; apply Hn in H'; lra].
    + destruct (Qlt_le_dec (gain * inject_Z quantity) 0) as [H'|H'].
      * split; [intros _; apply Hn; exact H' | reflexivity].
      * split; [discriminate | intros G; apply Hn in G; lra].
  - destruct (Qlt_le_dec 0 (gain * inject_Z quantity)) as [H|H].
    + split; [discriminate | intros G; apply Hp in H; lra].
    + destruct (Qlt_le_dec (gain * inject_Z quantity) 0) as [H'|H'].
      * split; [discriminate | intros G; apply Hn in H'; lra].
      * split; [intros _ | reflexivity].
        destruct (Qlt_le_dec 0 gain) as [G|G]; [apply Hp in G; lra|].
        destruct (Qlt_le_dec gain 0) as [G'|G']; [apply Hn in G'; lra|].
        lra.
  - rewrite Hpp, Hp; reflexivity.
  - rewrite Hpn, Hn; reflexivity.
Qed.

Lemma profit_and_result_labels_witness :
  exists profit_loss profit_percent result,
    profit_and_result "BUY" 10 2000 1998 =
      Ok (profit_loss, profit_percent, result) /\
    (result = "Loss" <-> 1998 - 2000 < 0).
Proof.
  destruct (profit_and_result_labels "BUY" 10 2000 1998)
    as [pl [pp [r [E [_ [H _]]]]]]; [reflexivity | reflexivity |].
  exists pl, pp, r. split; [exact E | exact H].
Defined.

(** ** How many stop orders are submitted *)

Lemma poll_stop_order_budget (env : stoploss_env)
    (global_min_tick : option Q) (sl_action : string) (quantity : Z)
    (formatted : Q) (remaining i : nat) :
  exists t r,
    poll_stop_order env global_min_tick sl_action quantity formatted
      remaining i = (t, Ok r)
    /\ Forall (stop_event global_min_tick sl_action quantity formatted) t
    /\ (count_placed t <= i + remaining - Nat.max i 8)%nat.
Proof.
  revert i; induction remaining as [|n IH]; intros i.
  - exists [], None. split; [reflexivity|]. split; [constructor|].
    cbn; lia.
  - cbn [poll_stop_order].
    destruct (in_list (sl_status env i) ["Submitted"; "PreSubmitted"; "Filled"]).
    { exists [], (Some true). split; [reflexivity|]. split; [constructor|].
      cbn; lia. }
    destruct (IH (S i)) as [t [r [E [HF Hc]]]].
    destruct ((sl_status env i =? "PendingSubmit") && (8 <=? i)%nat) eqn:Eretry.
    + apply andb_true_iff in Eretry. destruct Eretry as [_ Hi].
      apply Nat.leb_le in Hi.
      rewrite format_price_ok.
      cbn [iobind emit lift ret app].
      set (new_price := inject_Z _ * _).
      assert (Hnew : stop_event global_min_tick sl_action quantity formatted
                       (PlaceOrder (StopOrder sl_action quantity new_price))).
      { exists new_price. split; [reflexivity|].
        eexists. unfold new_price. reflexivity. }
      assert (Hcancel : stop_event global_min_tick sl_action quantity formatted
                          (CancelOrder (StopOrder sl_action quantity formatted)))
        by reflexivity.
      destruct (in_list (sl_retry_status env i) ["Submitted"; "PreSubmitted"]).
      * eexists; eexists. split; [reflexivity|].
        split; [repeat constructor; assumption|].
        cbn; lia.
      * rewrite E. eexists; eexists. split; [reflexivity|].
        split; [repeat constructor; assumption|].
        change (S (count_placed t) <= i + S n - Nat.max i 8)%nat. lia.
    + exists t, r. split; [exact E|]. split; [exact HF|].
      apply andb_false_iff in Eretry. lia.
Qed.

(** The calls of one stop-loss placement. *)
Lemma place_stoploss_order_shape (env : stoploss_env)
    (global_min_tick : option Q) (entry_action : string) (quantity : Z)
    (stop_price fill_price : Q) :
  let sl_action := stoploss_action entry_action in
  exists formatted t accepted,
    formatted_stop_price global_min_tick entry_action stop_price fill_price
      = Ok formatted
    /\ place_stoploss_order env global_min_tick entry_action quantity
         stop_price fill_price
       = (map CancelListed (sl_cancelled env)
          ++ PlaceOrder (StopOrder sl_action quantity formatted) :: t,
          Ok accepted)
    /\ Forall (stop_event global_min_tick sl_action quantity formatted)
         (PlaceOrder (StopOrder sl_action quantity formatted) :: t)
    /\ (1 <= count_placed
               (PlaceOrder (StopOrder sl_action quantity formatted) :: t)
          <= 3)%nat.
Proof.
  cbv zeta. unfold place_stoploss_order, formatted_stop_price.
  rewrite format_price_ok.
  set (formatted := inject_Z _ * _).
  destruct (poll_stop_order_budget env global_min_tick
              (stoploss_action entry_action) quantity formatted 10 0)
    as [t [r [E [HF Hc]]]].
  cbn [iobind emit_all lift emit].
  rewrite E. cbn [try_except iobind ret app].
  exists formatted, t.
  assert (Hfirst : stop_event global_min_tick (stoploss_action entry_action)
                     quantity formatted
                     (PlaceOrder (StopOrder (stoploss_action entry_action)
                                    quantity formatted))).
  { exists formatted. split; [reflexivity|].
    eexists; unfold formatted; reflexivity. }
  assert (Hcount : (1 <= count_placed
                          (PlaceOrder (StopOrder (stoploss_action entry_action)
                                         quantity formatted) :: t) <= 3)%nat).
  { change (1 <= S (count_placed t) <= 3)%nat. cbn in Hc. lia. }
  destruct r as [b|]; cbn [try_except iobind ret app]; rewrite ?app_nil_r.
  - exists b.
    split; [reflexivity|]. split; [reflexivity|].
    split; [constructor; assumption | exact Hcount].
  - exists (sl_listing_confirms env).
    split; [reflexivity|]. split; [reflexivity|].
    split; [constructor; assumption | exact Hcount].
Qed.

(** X18. [place_stoploss_order] never raises and submits between one and
    three stop orders, whatever the broker reports: after the listed orders
    are cancelled, the first call submits the stop at the formatted stop
    price; every order submitted is a stop order on the side opposite to the
    entry, for the entry quantity, at a price on the tick grid; and the only
    order it ever cancels is the one it submitted first. *)
Theorem place_stoploss_order_budget (env : stoploss_env)
    (global_min_tick : option Q) (entry_action : string) (quantity : Z)
    (stop_price fill_price : Q) :
  let sl_action := stoploss_action entry_action in
  exists formatted t accepted,
    formatted_stop_price global_min_tick entry_action stop_price fill_price
      = Ok formatted
    /\ place_stoploss_order env global_min_tick entry_action quantity
         stop_price fill_price
       = (map CancelListed (sl_cancelled env)
          ++ PlaceOrder (StopOrder sl_action quantity formatted) :: t,
          Ok accepted)
    /\ Forall (stop_event global_min_tick sl_action quantity formatted)
         (PlaceOrder (StopOrder sl_action quantity formatted) :: t)
    /\ (1 <= count_placed
               (PlaceOrder (StopOrder sl_action quantity formatted) :: t)
          <= 3)%nat.
Proof.
  exact (place_stoploss_order_shape env global_min_tick entry_action
           quantity stop_price fill_price).
Qed.

(** ** From the fill to the end of the monitor *)

Lemma monitor_trade_and_exit_shape (contract_symbol action : string)
    (quantity : Z) (entry_price stop_price : Q) (strategy : string)
    (max_minutes : Z) (start_time : datetime)
    (trades_record : list TradeRecord) (wakes : list wake) :
  exists ev how trades',
    monitor_trade_and_exit contract_symbol action quantity entry_price
      stop_price strategy max_minutes start_time trades_record wakes
    = (ev, Ok (how, trades'))
    /\ ledger_step entry_price trades_record trades'
    /\ (count_placed ev <= 1)%nat.
Proof.
  unfold monitor_trade_and_exit.
  destruct (monitor_loop_shape contract_symbol action quantity entry_price
              stop_price strategy max_minutes start_time wakes start_time
              trades_record)
    as [[w [reason [closed [trades' [_ [E [_ Hstep]]]]]]]
       | [[trades' [E Hstep]] | [E | [e E]]]];
    rewrite E; cbn [try_except ret app].
  - eexists; eexists; exists trades'; split; [reflexivity|].
    split; [assumption|]. rewrite count_placed_close_events; lia.
  - eexists; eexists; exists trades'; split; [reflexivity|].
    split; [assumption | cbn; lia].
  - eexists; eexists; exists trades_record; split; [reflexivity|].
    split; [apply ledger_step_refl | cbn; lia].
  - eexists; eexists; exists trades_record; split; [reflexivity|].
    split; [apply ledger_step_refl | cbn; lia].
Qed.

Lemma recorded_stop_on_grid (global_min_tick : option Q) (action : string)
    (fill_price R : Q) :
  on_tick_grid global_min_tick
    (recorded_stop global_min_tick action fill_price R).
Proof.
  unfold recorded_stop; destruct (action =? "BUY"); apply quantized_on_grid.
Qed.

(** X19. After a fill at a non-zero price the main flow never raises: it
    cancels the listed orders, submits the protective stop first, appends one
    record to the ledger with the fill price and the stop computed from the
    fill, and hands that ledger to the monitor, which books at most one exit
    in it.  The stop order actually submitted is never looser than the stop
    written to the ledger (at or below it for a BUY, at or above it
    otherwise; the two can differ because the order is also held 0.1 percent
    away from the fill), and at most four orders are submitted in all. *)
Theorem after_fill_stop_then_monitor (global_min_tick : option Q)
    (sl_env : stoploss_env) (contract_symbol trade_exit_strategy : string)
    (trade_max_hold_duration_minutes : Z) (trades_record : list TradeRecord)
    (action : string) (qty : Z) (R fill_price : Q)
    (trade_time start_time : datetime) (wakes : list wake) :
  ~ fill_price == 0 ->
  let stop_price := recorded_stop global_min_tick action fill_price R in
  exists order_price t how ledger,
    main_after_trade global_min_tick sl_env contract_symbol
      trade_exit_strategy trade_max_hold_duration_minutes trades_record
      action qty R (Some (fill_price, trade_time)) start_time wakes
    = (map CancelListed (sl_cancelled sl_env)
       ++ PlaceOrder (StopOrder (stoploss_action action) qty order_price) :: t,
       Ok (Some how, ledger))
    /\ ledger_step fill_price
         (trades_record
          ++ [new_trade_record trade_time action fill_price qty stop_price
                contract_symbol])
         ledger
    /\ (if action =? "BUY" then order_price <= stop_price
        else stop_price <= order_price)
    /\ (count_placed t <= 3)%nat.
Proof.
  intros Hfill. cbv zeta. unfold main_after_trade.
  destruct (Qeq_bool fill_price 0) eqn:E0;
    [apply Qeq_bool_iff in E0; contradiction|].
  assert (Hstop : (if action =? "BUY"
                   then format_price global_min_tick (fill_price - R)
                   else format_price global_min_tick (fill_price + R))
                  = Ok (recorded_stop global_min_tick action fill_price R)).
  { unfold recorded_stop; destruct (action =? "BUY");
      apply format_price_quantized. }
  rewrite Hstop. cbn [iobind lift].
  set (stop_price := recorded_stop global_min_tick action fill_price R).
  destruct (place_stoploss_order_shape sl_env global_min_tick action qty
              stop_price fill_price)
    as [formatted [t [accepted [Ef [Ep [_ Hc]]]]]].
  rewrite Ep. cbn [iobind].
  rewrite !py_div_nonzero by (intros H; discriminate H).
  cbn [iobind lift].
  destruct (monitor_trade_and_exit_shape contract_symbol action qty
              fill_price stop_price trade_exit_strategy
              trade_max_hold_duration_minutes start_time
              (trades_record
               ++ [new_trade_record trade_time action fill_price qty
                     stop_price contract_symbol]) wakes)
    as [ev [how [ledger [Em [Hstep Hm]]]]].
  rewrite Em. cbn [iobind ret fst snd app].
  exists formatted, (t ++ ev), how, ledger.
  split.
  { rewrite ?app_nil_r, <- !app_assoc. reflexivity. }
  split; [exact Hstep|].
  split.
  - rewrite formatted_stop_price_ok in Ef.
    injection Ef as Ef. subst formatted.
    destruct (recorded_stop_on_grid global_min_tick action fill_price R)
      as [k Hk]. fold stop_price in Hk.
    unfold adjusted_stop_price, stoploss_action.
    destruct (action =? "BUY"); cbn [String.eqb Ascii.eqb Bool.eqb].
    + apply Qle_trans with (inject_Z k * effective_tick_size global_min_tick);
        [|lra].
      apply quantized_le_multiple.
      apply Qle_trans with stop_price; [apply Q.le_min_l | lra].
    + apply Qle_trans with (inject_Z k * effective_tick_size global_min_tick);
        [lra|].
      apply quantized_ge_multiple.
      apply Qle_trans with stop_price; [lra | apply Q.le_max_l].
  - rewrite count_placed_app.
    change (1 <= S (count_placed t) <= 3)%nat in Hc. lia.
Qed.

Lemma after_fill_stop_then_monitor_witness :
  let sl_env := {| sl_cancelled := [7%Z];
                   sl_status := fun _ => "Submitted";
                   sl_retry_status := fun _ => "";
                   sl_listing_confirms := false |} in
  let t0 := {| hour := 10; minute := 5; timestamp := 300 |} in
  ~ 100 == 0 /\
  exists order_price t how ledger,
    main_after_trade (Some (1 # 100)) sl_env "XAUUSD" "EOD" 60 [] "BUY" 10
      (1 # 20) (Some (100, t0)) t0 []
    = (map CancelListed (sl_cancelled sl_env)
       ++ PlaceOrder (StopOrder (stoploss_action "BUY") 10 order_price) :: t,
       Ok (Some how, ledger))
    /\ ledger_step 100
         ([] ++ [new_trade_record t0 "BUY" 100 10
                   (recorded_stop (Some (1 # 100)) "BUY" 100 (1 # 20))
                   "XAUUSD"])
         ledger
    /\ (if "BUY" =? "BUY"
        then order_price <= recorded_stop (Some (1 # 100)) "BUY" 100 (1 # 20)
        else recorded_stop (Some (1 # 100)) "BUY" 100 (1 # 20) <= order_price)
    /\ (count_placed t <= 3)%nat.
Proof.
  cbv zeta.
  assert (H : ~ 100 == 0) by (intros H; discriminate H).
  split; [exact H|].
  exact (after_fill_stop_then_monitor (Some (1 # 100))
           {| sl_cancelled := [7%Z];
              sl_status := fun _ => "Submitted";
              sl_retry_status := fun _ => "";
              sl_listing_confirms := false |}
           "XAUUSD" "EOD" 60 [] "BUY" 10 (1 # 20) 100
           {| hour := 10; minute := 5; timestamp := 300 |}
           {| hour := 10; minute := 5; timestamp := 300 |} [] H).
Defined.

(** With a fill at 100 and R = 0.05 the ledger holds the stop 99.95 while
    the order submitted rests at 99.90. *)
Example after_fill_order_below_recorded_stop :
  let sl_env := {| sl_cancelled := [];
                   sl_status := fun _ => "Submitted";
                   sl_retry_status := fun _ => "";
                   sl_listing_confirms := false |} in
  let t0 := {| hour := 10; minute := 5; timestamp := 300 |} in
  exists order_price stop_price how,
    main_after_trade (Some (1 # 100)) sl_env "XAUUSD" "EOD" 60 [] "BUY" 10
      (1 # 20) (Some (100, t0)) t0 []
    = ([PlaceOrder (StopOrder "SELL" 10 order_price)],
       Ok (Some how,
           [new_trade_record t0 "BUY" 100 10 stop_price "XAUUSD"]))
    /\ order_price == 999 # 10 /\ stop_price == 9995 # 100.
Proof.
  cbv zeta. eexists; eexists; eexists.
  split; [vm_compute; reflexivity|].
  split; reflexivity.
Qed.

(** ** The five-minute clock *)

Lemma wc_seconds_split (c : wallclock) :
  wc_valid c ->
  exists frac : Q,
    0 <= frac /\ frac < 1
    /\ wc_seconds c ==
       inject_Z (wc_day c * 86400 + wc_hour c * 3600 + wc_minute c * 60
                 + wc_second c) + frac.
Proof.
  intros [_ [_ [_ [Hm0 Hm1]]]].
  exists (inject_Z (wc_microsecond c) / 1000000).
  assert (H0 : 0 <= inject_Z (wc_microsecond c)).
  { change 0 with (inject_Z 0). rewrite <- Zle_Qle. exact Hm0. }
  assert (H1 : inject_Z (wc_microsecond c) < 1000000).
  { change 1000000 with (inject_Z 1000000). rewrite <- Zlt_Qlt. exact Hm1. }
  split; [|split; [|reflexivity]].
  - apply Qle_shift_div_l; [reflexivity | lra].
  - apply Qlt_shift_div_r; [reflexivity | lra].
Qed.

Lemma wc_seconds_whole (d h m : Z) :
  wc_seconds {| wc_day := d; wc_hour := h; wc_minute := m; wc_second := 0;
                wc_microsecond := 0 |}
  == inject_Z (d * 86400 + h * 3600 + m * 60).
Proof.
  unfold wc_seconds; cbn [wc_day wc_hour wc_minute wc_second wc_microsecond].
  rewrite Z.add_0_r.
  setoid_replace (inject_Z 0 / 1000000) with 0 by reflexivity. ring.
Qed.

(** X20. For a clock reading with a Python datetime's field ranges,
    [calculate_wait_time_to_next_5min] returns 0 exactly on a five-minute
    boundary (minute divisible by 5, second 0) and otherwise between 15 and
    300 seconds; waiting that long from the start of the current second
    ends on a five-minute boundary, or up to 14 seconds after one when the
    boundary was less than 15 seconds away. *)
Theorem calculate_wait_time_bounds (now : wallclock) :
  wc_valid now ->
  let wait := calculate_wait_time_to_next_5min now in
  let landing := ((wc_minute now * 60 + wc_second now + wait) mod 300)%Z in
  (wait = 0%Z <-> (wc_minute now mod 5 = 0 /\ wc_second now = 0)%Z)
  /\ (wait <> 0%Z -> (15 <= wait <= 300)%Z)
  /\ (0 <= landing <= 14)%Z
  /\ (landing = 0%Z <->
      (wait = 0 \/ 15 <= (5 - wc_minute now mod 5) * 60 - wc_second now)%Z).
Proof.
  intros [_ [[Hm0 Hm1] [[Hs0 Hs1] _]]]. cbv zeta.
  unfold calculate_wait_time_to_next_5min.
  destruct ((5 - wc_minute now mod 5 =? 5)%Z && (wc_second now =? 0)%Z)
    eqn:E.
  - apply andb_true_iff in E; destruct E as [E1 E2].
    apply Z.eqb_eq in E1, E2.
    repeat split; intros; try (Z.div_mod_to_equations; lia).
  - apply andb_false_iff in E.
    assert (E' : (wc_minute now mod 5 <> 0 \/ wc_second now <> 0)%Z).
    { destruct E as [E|E]; apply Z.eqb_neq in E; [left|right]; lia. }
    clear E.
    repeat split; intros; try (Z.div_mod_to_equations; lia).
Qed.

Lemma calculate_wait_time_bounds_witness :
  wc_valid {| wc_day := 0; wc_hour := 10; wc_minute := 7; wc_second := 20;
              wc_microsecond := 0 |} /\
  calculate_wait_time_to_next_5min
    {| wc_day := 0; wc_hour := 10; wc_minute := 7; wc_second := 20;
       wc_microsecond := 0 |} = 160%Z /\
  ((7 * 60 + 20
    + calculate_wait_time_to_next_5min
        {| wc_day := 0; wc_hour := 10; wc_minute := 7; wc_second := 20;
           wc_microsecond := 0 |}) mod 300 = 0)%Z.
Proof.
  assert (H : wc_valid {| wc_day := 0; wc_hour := 10; wc_minute := 7;
                          wc_second := 20; wc_microsecond := 0 |})
    by (unfold wc_valid; cbn; lia).
  split; [exact H|]. split; [reflexivity|].
  destruct (calculate_wait_time_bounds _ H) as [_ [_ [_ [_ Hland]]]].
  apply Hland. right. vm_compute. discriminate.
Defined.

Lemma next_candle_offset (now : wallclock) :
  wc_valid now ->
  let current_5min := (wc_minute now / 5 * 5)%Z in
  let next_5min := ((current_5min + 5) mod 60)%Z in
  let next_hour :=
    if (next_5min <? current_5min)%Z then ((wc_hour now + 1) mod 24)%Z
    else wc_hour now in
  let A := (wc_day now * 86400 + next_hour * 3600 + next_5min * 60)%Z in
  let B := (wc_day now * 86400 + wc_hour now * 3600 + wc_minute now * 60
            + wc_second now)%Z in
  (exists k, A = 300 * k)%Z
  /\ (if ((wc_hour now =? 23) && (55 <=? wc_minute now))%Z
      then (- 86399 <= A - B <= - 86100)%Z
      else (1 <= A - B <= 300)%Z).
Proof.
  intros [[Hh0 Hh1] [[Hm0 Hm1] [[Hs0 Hs1] _]]]. cbv zeta.
  split.
  - exists (wc_day now * 288
            + (if ((wc_minute now / 5 * 5 + 5) mod 60
                   <? wc_minute now / 5 * 5)%Z
               then ((wc_hour now + 1) mod 24)%Z else wc_hour now) * 12
            + ((wc_minute now / 5 * 5 + 5) mod 60) / 5)%Z.
    destruct ((wc_minute now / 5 * 5 + 5) mod 60 <? wc_minute now / 5 * 5)%Z;
      Z.div_mod_to_equations; lia.
  - destruct ((wc_hour now =? 23) && (55 <=? wc_minute now))%Z eqn:L.
    + apply andb_true_iff in L; destruct L as [L1 L2].
      apply Z.eqb_eq in L1. apply Z.leb_le in L2.
      destruct ((wc_minute now / 5 * 5 + 5) mod 60 <? wc_minute now / 5 * 5)%Z
        eqn:E; [apply Z.ltb_lt in E | apply Z.ltb_ge in E];
        Z.div_mod_to_equations; lia.
    + apply andb_false_iff in L.
      assert (L' : (wc_hour now <> 23 \/ wc_minute now < 55)%Z).
      { destruct L as [L|L]; [left; apply Z.eqb_neq in L; exact L
                             | right; apply Z.leb_gt in L; exact L]. }
      clear L.
      destruct ((wc_minute now / 5 * 5 + 5) mod 60 <? wc_minute now / 5 * 5)%Z
        eqn:E; [apply Z.ltb_lt in E | apply Z.ltb_ge in E];
        Z.div_mod_to_equations; lia.
Qed.

(** X21. For a clock reading with a Python datetime's field ranges,
    [wait_for_next_5min_candle] sleeps until the first five-minute boundary
    strictly after now (more than 0 and at most 300 seconds away) and returns
    that boundary with the one 300 seconds later; except from 23:55 on, where
    the hour wraps to 0 on the same date, the computed start lies most of a
    day in the past and [time.sleep] is called with a negative argument. *)
Theorem wait_for_next_5min_candle_boundary (now : wallclock) :
  wc_valid now ->
  let late := (wc_hour now = 23 /\ 55 <= wc_minute now)%Z in
  match wait_for_next_5min_candle now with
  | CandleWaited wait_seconds next_candle_start next_candle_end =>
      ~ late
      /\ 0 < wait_seconds /\ wait_seconds <= 300
      /\ next_candle_start == wc_seconds now + wait_seconds
      /\ next_candle_end == next_candle_start + 300
      /\ on_5min_boundary next_candle_start
  | SleepValueError wait_seconds =>
      late /\ wait_seconds <= - 85800
  end.
Proof.
  intros Hv. cbv zeta.
  destruct (next_candle_offset now Hv) as [[k Hk] Hoff].
  destruct (wc_seconds_split now Hv) as [frac [Hf0 [Hf1 Hnow]]].
  unfold wait_for_next_5min_candle.
  set (next_5min := ((wc_minute now / 5 * 5 + 5) mod 60)%Z) in *.
  set (next_hour := if (next_5min <? wc_minute now / 5 * 5)%Z
                    then ((wc_hour now + 1) mod 24)%Z else wc_hour now) in *.
  pose proof (wc_seconds_whole (wc_day now) next_hour next_5min) as Hrep.
  set (replaced := wc_seconds {| wc_day := wc_day now; wc_hour := next_hour;
                                 wc_minute := next_5min; wc_second := 0;
                                 wc_microsecond := 0 |}) in *.
  set (A := (wc_day now * 86400 + next_hour * 3600 + next_5min * 60)%Z) in *.
  set (B := (wc_day now * 86400 + wc_hour now * 3600 + wc_minute now * 60
             + wc_second now)%Z) in *.
  assert (HAB : inject_Z A == inject_Z B + inject_Z (A - B)).
  { rewrite <- inject_Z_plus. replace (B + (A - B))%Z with A by lia.
    reflexivity. }
  destruct ((wc_hour now =? 23) && (55 <=? wc_minute now))%Z eqn:L.
  - apply andb_true_iff in L; destruct L as [L1 L2].
    apply Z.eqb_eq in L1. apply Z.leb_le in L2.
    destruct Hoff as [Hlo Hhi].
    assert (Hhi' : inject_Z (A - B) <= - 86100).
    { change (- 86100) with (inject_Z (- 86100)). rewrite <- Zle_Qle.
      exact Hhi. }
    assert (Hle : Qle_bool replaced (wc_seconds now) = true).
    { apply Qle_bool_iff. lra. }
    rewrite Hle.
    destruct (Qlt_le_dec (replaced + 300 - wc_seconds now) 0) as [Hneg|Hpos].
    + split; [split; assumption | lra].
    + exfalso. lra.
  - apply andb_false_iff in L.
    assert (L' : ~ (wc_hour now = 23 /\ 55 <= wc_minute now)%Z).
    { intros [L1 L2]. destruct L as [L|L];
        [apply Z.eqb_neq in L; contradiction
        | apply Z.leb_gt in L; lia]. }
    destruct Hoff as [Hlo Hhi].
    assert (Hlo' : 1 <= inject_Z (A - B)).
    { change 1 with (inject_Z 1). rewrite <- Zle_Qle. exact Hlo. }
    assert (Hhi' : inject_Z (A - B) <= 300).
    { change 300 with (inject_Z 300). rewrite <- Zle_Qle. exact Hhi. }
    assert (Hle : Qle_bool replaced (wc_seconds now) = false).
    { destruct (Qle_bool replaced (wc_seconds now)) eqn:E; [|reflexivity].
      apply Qle_bool_iff in E. exfalso. lra. }
    rewrite Hle.
    destruct (Qlt_le_dec (replaced - wc_seconds now) 0) as [Hneg|Hpos].
    + exfalso. lra.
    + split; [exact L'|]. split; [lra|]. split; [lra|].
      split; [ring|]. split; [reflexivity|].
      exists k. rewrite Hrep, Hk. reflexivity.
Qed.

Lemma wait_for_next_5min_candle_boundary_witness :
  wc_valid {| wc_day := 0; wc_hour := 9; wc_minute := 57; wc_second := 30;
              wc_microsecond := 500000 |} /\
  match wait_for_next_5min_candle
          {| wc_day := 0; wc_hour := 9; wc_minute := 57; wc_second := 30;
             wc_microsecond := 500000 |} with
  | CandleWaited wait_seconds next_candle_start next_candle_end =>
      0 < wait_seconds /\ on_5min_boundary next_candle_start
  | SleepValueError _ => False
  end.
Proof.
  assert (H : wc_valid {| wc_day := 0; wc_hour := 9; wc_minute := 57;
                          wc_second := 30; wc_microsecond := 500000 |})
    by (unfold wc_valid; cbn; lia).
  split; [exact H|].
  pose proof (wait_for_next_5min_candle_boundary _ H) as P. cbv zeta in P.
  destruct (wait_for_next_5min_candle
              {| wc_day := 0; wc_hour := 9; wc_minute := 57; wc_second := 30;
                 wc_microsecond := 500000 |}) as [w s e|w].
  - destruct P as [_ [Hw [_ [_ [_ Hb]]]]]. split; assumption.
  - destruct P as [[P _] _]. cbn in P. discriminate P.
Defined.

(** At 23:57:00 the computed start is 00:05:00 of the same date and the
    sleep is asked for -85920 seconds. *)
Example wait_for_next_5min_candle_before_midnight :
  exists wait_seconds,
    wait_for_next_5min_candle
      {| wc_day := 0; wc_hour := 23; wc_minute := 57; wc_second := 0;
         wc_microsecond := 0 |} = SleepValueError wait_seconds
    /\ wait_seconds == - 85920.
Proof. eexists; split; [vm_compute; reflexivity | reflexivity]. Qed.

Lemma latest_bar_offset (now : wallclock) :
  wc_valid now ->
  let latest_bar_minute := (wc_minute now / 5 * 5)%Z in
  let A := (wc_day now * 86400 + wc_hour now * 3600
            + latest_bar_minute * 60)%Z in
  let B := (wc_day now * 86400 + wc_hour now * 3600 + wc_minute now * 60
            + wc_second now)%Z in
  (exists k, A = 300 * k)%Z
  /\ (if ((wc_minute now mod 5 =? 0) && (wc_second now <? 3))%Z
      then (0 <= B - A <= 2)%Z
      else (3 <= B - A <= 299)%Z).
Proof.
  intros [[Hh0 Hh1] [[Hm0 Hm1] [[Hs0 Hs1] _]]]. cbv zeta.
  split.
  - exists (wc_day now * 288 + wc_hour now * 12 + wc_minute now / 5)%Z.
    lia.
  - destruct ((wc_minute now mod 5 =? 0) && (wc_second now <? 3))%Z eqn:E.
    + apply andb_true_iff in E; destruct E as [E1 E2].
      apply Z.eqb_eq in E1. apply Z.ltb_lt in E2.
      Z.div_mod_to_equations; lia.
    + apply andb_false_iff in E.
      assert (E' : (wc_minute now mod 5 <> 0 \/ 3 <= wc_second now)%Z).
      { destruct E as [E|E]; [left; apply Z.eqb_neq in E; exact E
                             | right; apply Z.ltb_ge in E; exact E]. }
      clear E. Z.div_mod_to_equations; lia.
Qed.

(** X22. [get_latest_complete_5min_bar] asks the broker for the bars ending
    at a five-minute boundary that is at least 3 and less than 303 seconds
    before the clock reading (in the first three seconds after a boundary it
    steps back to the previous one), and returns the last bar of the answer;
    it returns None when the answer is empty or the request raises. *)
Theorem get_latest_complete_5min_bar_request (now : wallclock)
    (reqHistoricalData : Q -> option (list Bar)) :
  wc_valid now ->
  let bar_end_time := latest_bar_end_time now in
  on_5min_boundary bar_end_time
  /\ 3 <= wc_seconds now - bar_end_time
  /\ wc_seconds now - bar_end_time < 303
  /\ (forall latest_bar,
        get_latest_complete_5min_bar now reqHistoricalData = Some latest_bar
        <-> exists earlier,
              reqHistoricalData bar_end_time = Some (earlier ++ [latest_bar]))
  /\ (get_latest_complete_5min_bar now reqHistoricalData = None
      <-> reqHistoricalData bar_end_time = None
          \/ reqHistoricalData bar_end_time = Some []).
Proof.
  intros Hv. cbv zeta.
  destruct (latest_bar_offset now Hv) as [[k Hk] Hoff].
  destruct (wc_seconds_split now Hv) as [frac [Hf0 [Hf1 Hnow]]].
  pose proof (wc_seconds_whole (wc_day now) (wc_hour now)
                (wc_minute now / 5 * 5)) as Hrep.
  assert (Hreq : on_5min_boundary (latest_bar_end_time now)
                 /\ 3 <= wc_seconds now - latest_bar_end_time now
                 /\ wc_seconds now - latest_bar_end_time now < 303).
  { unfold latest_bar_end_time.
    set (bar_end := wc_seconds {| wc_day := wc_day now;
                                  wc_hour := wc_hour now;
                                  wc_minute := (wc_minute now / 5 * 5)%Z;
                                  wc_second := 0; wc_microsecond := 0 |}) in *.
    set (A := (wc_day now * 86400 + wc_hour now * 3600
               + wc_minute now / 5 * 5 * 60)%Z) in *.
    set (B := (wc_day now * 86400 + wc_hour now * 3600 + wc_minute now * 60
               + wc_second now)%Z) in *.
    assert (HAB : inject_Z B == inject_Z A + inject_Z (B - A)).
    { rewrite <- inject_Z_plus. replace (A + (B - A))%Z with B by lia.
      reflexivity. }
    destruct ((wc_minute now mod 5 =? 0) && (wc_second now <? 3))%Z.
    - destruct Hoff as [Hlo Hhi].
      assert (0 <= inject_Z (B - A)).
      { change 0 with (inject_Z 0). rewrite <- Zle_Qle. exact Hlo. }
      assert (inject_Z (B - A) <= 2).
      { change 2 with (inject_Z 2). rewrite <- Zle_Qle. exact Hhi. }
      split; [|split; lra].
      exists (k - 1)%Z. rewrite Hrep, Hk.
      replace (300 * (k - 1))%Z with (300 * k + - 300)%Z by lia.
      rewrite (inject_Z_plus (300 * k)). reflexivity.
    - destruct Hoff as [Hlo Hhi].
      assert (3 <= inject_Z (B - A)).
      { change 3 with (inject_Z 3). rewrite <- Zle_Qle. exact Hlo. }
      assert (inject_Z (B - A) <= 299).
      { change 299 with (inject_Z 299). rewrite <- Zle_Qle. exact Hhi. }
      split; [|split; lra].
      exists k. rewrite Hrep, Hk. reflexivity. }
  destruct Hreq as [Hb [H3 H303]].
  split; [exact Hb|]. split; [exact H3|]. split; [exact H303|].
  unfold get_latest_complete_5min_bar.
  destruct (reqHistoricalData (latest_bar_end_time now)) as [bars|].
  - destruct (rev bars) as [|b rest] eqn:E.
    + assert (bars = []) by (rewrite <- (rev_involutive bars), E; reflexivity).
      subst bars. split.
      * intros latest_bar; split; [discriminate|].
        intros [earlier H]. injection H as H.
        destruct earlier; discriminate H.
      * split; [intros _; right; reflexivity | reflexivity].
    + assert (Hbars : bars = rev rest ++ [b])
        by (rewrite <- (rev_involutive bars), E; reflexivity).
      split.
      * intros latest_bar; split.
        -- intros H; injection H as <-. exists (rev rest). rewrite Hbars.
           reflexivity.
        -- intros [earlier H]. injection H as H. rewrite Hbars in H.
           apply app_inj_tail in H. destruct H as [_ <-]. reflexivity.
      * split; [discriminate|].
        intros [H|H]; [discriminate H|].
        injection H as H. rewrite Hbars in H.
        destruct (rev rest); discriminate H.
  - split.
    + intros latest_bar; split; [discriminate|].
      intros [earlier H]; discriminate H.
    + split; [intros _; left; reflexivity | reflexivity].
Qed.

Lemma get_latest_complete_5min_bar_request_witness :
  let now := {| wc_day := 0; wc_hour := 10; wc_minute := 5; wc_second := 1;
                wc_microsecond := 0 |} in
  wc_valid now /\
  latest_bar_end_time now == 36000 /\
  3 <= wc_seconds now - latest_bar_end_time now.
Proof.
  cbv zeta.
  assert (H : wc_valid {| wc_day := 0; wc_hour := 10; wc_minute := 5;
                          wc_second := 1; wc_microsecond := 0 |})
    by (unfold wc_valid; cbn; lia).
  split; [exact H|]. split; [reflexivity|].
  exact (proj1 (proj2 (get_latest_complete_5min_bar_request _
                         (fun _ => None) H))).
Defined.

(** ** The figures of the run summary *)

Lemma summary_loop_spec (trades_record : list TradeRecord) :
  forall (total_pnl : Q) (winning_trades total_trades : Z),
  exists (pnl : Q) (wins : Z),
    summary_loop trades_record total_pnl winning_trades total_trades
    = (pnl, (winning_trades + wins)%Z,
       (total_trades
        + Z.of_nat (List.length (filter closed_trade trades_record)))%Z)
    /\ pnl == total_pnl + sum_pnl (filter closed_trade trades_record)
    /\ (0 <= wins
        <= Z.of_nat (List.length (filter closed_trade trades_record)))%Z.
Proof.
  induction trades_record as [|trade rest IH]; intros total_pnl w t.
  - exists total_pnl, 0%Z. cbn. rewrite !Z.add_0_r.
    split; [reflexivity|]. split; [ring | lia].
  - cbn [summary_loop filter].
    assert (Hc : closed_trade trade
                 = if Qlt_le_dec 0 (ExitPrice trade) then true else false)
      by reflexivity.
    destruct (Qlt_le_dec 0 (ExitPrice trade)); rewrite Hc.
    + destruct (IH (total_pnl + PnL trade)
                  (if Qlt_le_dec 0 (PnL trade) then (w + 1)%Z else w)
                  (t + 1)%Z) as [pnl [wins [E [Hp Hw]]]].
      rewrite E. cbn [List.length sum_pnl fold_right].
      fold (sum_pnl (filter closed_trade rest)).
      destruct (Qlt_le_dec 0 (PnL trade)).
      * exists pnl, (1 + wins)%Z.
        split; [f_equal; [f_equal|]; lia|]. split; [lra | lia].
      * exists pnl, wins.
        split; [f_equal; lia|]. split; [lra | lia].
    + destruct (IH total_pnl w t) as [pnl [wins [E [Hp Hw]]]].
      exists pnl, wins. auto.
Qed.

(** X23. [print_trade_summary] never divides by zero.  On an empty ledger
    it reports nothing; otherwise it counts exactly the records with a
    positive exit price (a record left at its entry defaults is not counted),
    totals their PnL, and reports a win rate between 0 and 100 that is 0
    when no record is counted. *)
Theorem print_trade_summary_figures (trades_record : list TradeRecord) :
  exists r,
    print_trade_summary trades_record = Ok r
    /\ (r = None <-> trades_record = [])
    /\ forall total_trades win_rate total_pnl,
         r = Some (total_trades, win_rate, total_pnl) ->
         total_trades
         = Z.of_nat (List.length (filter closed_trade trades_record))
         /\ total_pnl == sum_pnl (filter closed_trade trades_record)
         /\ 0 <= win_rate /\ win_rate <= 100
         /\ (total_trades = 0%Z -> win_rate == 0).
Proof.
  destruct trades_record as [|trade rest].
  - exists None. split; [reflexivity|].
    split; [split; reflexivity | discriminate].
  - unfold print_trade_summary.
    destruct (summary_loop_spec (trade :: rest) 0 0%Z 0%Z)
      as [pnl [wins [E [Hp Hw]]]].
    rewrite E. rewrite !Z.add_0_l.
    set (n := Z.of_nat (List.length (filter closed_trade (trade :: rest))))
      in *.
    destruct (0 <? n)%Z eqn:En.
    + apply Z.ltb_lt in En.
      assert (Hn : 0 < inject_Z n).
      { change 0 with (inject_Z 0). rewrite <- Zlt_Qlt. exact En. }
      rewrite py_div_nonzero by lra. cbn [bind].
      eexists. split; [reflexivity|].
      split; [split; discriminate|].
      intros t w p H. injection H as <- <- <-.
      assert (Hw0 : 0 <= inject_Z wins).
      { change 0 with (inject_Z 0). rewrite <- Zle_Qle. lia. }
      assert (Hw1 : inject_Z wins <= inject_Z n).
      { rewrite <- Zle_Qle. lia. }
      assert (Hq0 : 0 <= inject_Z wins / inject_Z n).
      { apply Qle_shift_div_l; [exact Hn | lra]. }
      assert (Hq1 : inject_Z wins / inject_Z n <= 1).
      { apply Qle_shift_div_r; [exact Hn | lra]. }
      split; [reflexivity|]. split; [lra|].
      split; [lra|]. split; [lra|]. lia.
    + cbn [bind]. eexists. split; [reflexivity|].
      split; [split; discriminate|].
      intros t w p H. injection H as <- <- <-.
      split; [reflexivity|]. split; [lra|].
      split; [lra|]. split; [lra|]. intros _; reflexivity.
Qed.

(** ** The tick size after the contract lookup *)

Section ContractLookupFacts.

Variable IBContract : Type.
Variable qualifyContracts : base_contract -> option (list IBContract).
Variable reqContractDetails_base :
  base_contract -> option (list (IBContract * Q)).
Variable reqContractDetails : IBContract -> option (list (IBContract * Q)).
Variable reqHistoricalData : IBContract -> string -> option bool.

Lemma resolve_contract_tick_pos (base : base_contract) (c : IBContract)
    (tick : Q) :
  resolve_contract IBContract qualifyContracts reqContractDetails_base base
  = Some (c, tick) -> 0 < tick.
Proof.
  unfold resolve_contract.
  destruct base;
    repeat match goal with
           | |- context [match ?x with _ => _ end] => destruct x
           end;
    intros H; try discriminate H; injection H as _ <-;
    try reflexivity; assumption.
Qed.

Lemma detailed_min_tick_pos (c : IBContract) (tick : Q) :
  0 < tick -> 0 < detailed_min_tick IBContract reqContractDetails c tick.
Proof.
  intros H. unfold detailed_min_tick.
  repeat match goal with
         | |- context [match ?x with _ => _ end] => destruct x
         end; assumption.
Qed.

End ContractLookupFacts.

(** X24. [get_contract_from_config] keeps [global_min_tick] positive: when
    it returns a contract the global tick is 0.01 or a strictly positive
    minTick reported by the broker, so [format_price] then rounds to that
    tick and never falls back to its default; when it returns None the
    global tick is left as it was.  It returns None, whatever the broker
    answers, for a secType other than FUT, STK, CMDTY and CASH and for a
    FUT without a contract month. *)
Theorem get_contract_keeps_tick_positive (IBContract : Type)
    (qualifyContracts : base_contract -> option (list IBContract))
    (reqContractDetails_base : base_contract -> option (list (IBContract * Q)))
    (reqContractDetails : IBContract -> option (list (IBContract * Q)))
    (reqHistoricalData : IBContract -> string -> option bool)
    (cfg : trading_config) (global_min_tick : Q) :
  0 < global_min_tick ->
  let r := get_contract_from_config IBContract qualifyContracts
             reqContractDetails_base reqContractDetails reqHistoricalData
             cfg global_min_tick in
  0 < snd r
  /\ effective_tick_size (Some (snd r)) = snd r
  /\ (fst r = None -> snd r = global_min_tick)
  /\ (in_list (trade_sec_type cfg) ["FUT"; "STK"; "CMDTY"; "CASH"] = false
      -> fst r = None)
  /\ (trade_sec_type cfg = "FUT" -> trade_last_trade_date cfg = None
      -> fst r = None).
Proof.
  intros Hg. cbv zeta.
  assert (Hpos : 0 < snd (get_contract_from_config IBContract qualifyContracts
                            reqContractDetails_base reqContractDetails
                            reqHistoricalData cfg global_min_tick)
                 /\ (fst (get_contract_from_config IBContract qualifyContracts
                            reqContractDetails_base reqContractDetails
                            reqHistoricalData cfg global_min_tick) = None ->
                     snd (get_contract_from_config IBContract qualifyContracts
                            reqContractDetails_base reqContractDetails
                            reqHistoricalData cfg global_min_tick)
                     = global_min_tick)).
  { unfold get_contract_from_config.
    destruct (base_contract_of cfg) as [base|]; [|split; auto].
    destruct (resolve_contract IBContract qualifyContracts
                reqContractDetails_base base) as [[c tick]|] eqn:Er;
      [|split; auto].
    pose proof (detailed_min_tick_pos IBContract reqContractDetails c tick
                  (resolve_contract_tick_pos _ _ _ _ _ _ Er)) as Ht.
    destruct (reqHistoricalData c (trade_what_to_show cfg)) as [[|]|];
      [split; [exact Ht | discriminate] | | split; auto].
    destruct (negb (trade_what_to_show cfg =? "MIDPOINT")
              && negb (trade_sec_type cfg =? "FUT")); [|split; auto].
    destruct (reqHistoricalData c "MIDPOINT") as [[|]|];
      [split; [exact Ht | discriminate] | split; auto | split; auto]. }
  destruct Hpos as [Hpos Hnone].
  split; [exact Hpos|].
  split.
  { rewrite effective_tick_size_eq.
    destruct (Qlt_le_dec 0 _) as [|Hle]; [reflexivity | exfalso; lra]. }
  split; [exact Hnone|].
  split.
  - intros Hsec. unfold get_contract_from_config, base_contract_of.
    cbn [in_list existsb] in Hsec.
    repeat (apply orb_false_iff in Hsec; destruct Hsec as [? Hsec]).
    repeat match goal with H : (_ =? _) = false |- _ => rewrite H; clear H end.
    reflexivity.
  - intros Hsec Hdate. unfold get_contract_from_config, base_contract_of.
    rewrite Hsec, Hdate. reflexivity.
Qed.

Lemma get_contract_keeps_tick_positive_witness :
  let r := get_contract_from_config string
             (fun _ => Some [])
             (fun _ => Some [("XAUUSD", 1 # 1000)])
             (fun _ => None)
             (fun _ _ => Some true)
             {| trade_symbol := "XAUUSD"; trade_sec_type := "CMDTY";
                trade_exchange := "SMART"; trade_currency := "USD";
                trade_last_trade_date := None;
                trade_what_to_show := "MIDPOINT" |} (1 # 100) in
  0 < 1 # 100 /\ r = (Some "XAUUSD", 1 # 1000) /\ 0 < snd r.
Proof.
  cbv zeta.
  assert (H : 0 < 1 # 100) by reflexivity.
  split; [exact H|]. split; [vm_compute; reflexivity|].
  exact (proj1 (get_contract_keeps_tick_positive string
                  (fun _ => Some [])
                  (fun _ => Some [("XAUUSD", 1 # 1000)])
                  (fun _ => None)
                  (fun _ _ => Some true)
                  {| trade_symbol := "XAUUSD"; trade_sec_type := "CMDTY";
                     trade_exchange := "SMART"; trade_currency := "USD";
                     trade_last_trade_date := None;
                     trade_what_to_show := "MIDPOINT" |} (1 # 100) H)).
Defined.

(** ** Writing the trade history twice *)

Lemma py_round2_idempotent (x : Q) : py_round2 (py_round2 x) = py_round2 x.
Proof.
  unfold py_round2.
  rewrite (py_round_comp _ (inject_Z (py_round (x * 100)))) by field.
  rewrite py_round_inject. reflexivity.
Qed.

Section DailyReportFacts.

Variable other_columns : Type.

Lemma round_row_idempotent (r : report_row other_columns) :
  round_row other_columns (round_row other_columns r)
  = round_row other_columns r.
Proof.
  unfold round_row; cbn. rewrite !py_round2_idempotent. reflexivity.
Qed.

Lemma map_round_row_idempotent (l : list (report_row other_columns)) :
  map (round_row other_columns) (map (round_row other_columns) l)
  = map (round_row other_columns) l.
Proof.
  rewrite map_map. apply map_ext. apply round_row_idempotent.
Qed.

Lemma is_duplicate_self (r : report_row other_columns) (l : list (report_row other_columns)) :
  In r l -> is_duplicate other_columns r l = true.
Proof.
  intros H. unfold is_duplicate. apply existsb_exists.
  exists r. split; [exact H|].
  rewrite String.eqb_refl. cbn [andb].
  destruct (Qlt_le_dec _ _) as [|Hge]; [reflexivity|].
  exfalso. revert Hge. apply Qlt_not_le.
  assert (E : row_EntryPrice other_columns r - row_EntryPrice other_columns r
              == 0) by ring.
  rewrite E. reflexivity.
Qed.

Lemma is_duplicate_app_l (r : report_row other_columns) (l1 l2 : list (report_row other_columns)) :
  is_duplicate other_columns r l1 = true ->
  is_duplicate other_columns r (l1 ++ l2) = true.
Proof.
  unfold is_duplicate. rewrite existsb_app. intros ->. reflexivity.
Qed.

Lemma filter_nil_of_all_false {A : Type} (f : A -> bool) (l : list A) :
  (forall x, In x l -> f x = false) -> filter f l = [].
Proof.
  induction l as [|a l IH]; intros H; [reflexivity|].
  cbn. rewrite (H a (or_introl eq_refl)).
  apply IH. intros x Hx. apply H. right. exact Hx.
Qed.

Lemma print_daily_report_written (csv : option (list (report_row other_columns)))
    (trades_record : list (report_row other_columns)) :
  match print_daily_report other_columns csv trades_record with
  | None => trades_record = []
  | Some written =>
      trades_record <> []
      /\ map (round_row other_columns) written = written
      /\ (forall r, In r (map (round_row other_columns) trades_record) ->
                    is_duplicate other_columns r written = true)
      /\ (forall existing, csv = Some existing ->
            exists added,
              written = map (round_row other_columns) existing ++ added
              /\ incl added (map (round_row other_columns) trades_record))
  end.
Proof.
  destruct trades_record as [|t0 rest]; [reflexivity|].
  set (trades_record := t0 :: rest).
  unfold print_daily_report. fold trades_record.
  change (match trades_record with [] => None | _ :: _ => ?x end) with x.
  destruct csv as [existing|].
  - set (ex := map (round_row other_columns) existing).
    set (cur := map (round_row other_columns) trades_record).
    set (new := filter (fun n => negb (is_duplicate other_columns n ex)) cur).
    assert (Hnew : map (round_row other_columns) new = new).
    { unfold new, cur. clear.
      induction trades_record as [|a l IH]; [reflexivity|].
      cbn [map filter].
      destruct (negb _); cbn [map];
        [rewrite round_row_idempotent; f_equal|]; exact IH. }
    assert (Hdup : forall r, In r cur ->
                     is_duplicate other_columns r (ex ++ new) = true).
    { intros r Hr.
      destruct (is_duplicate other_columns r ex) eqn:E.
      - apply is_duplicate_app_l; exact E.
      - apply is_duplicate_self. apply in_or_app. right.
        unfold new. apply filter_In. split; [exact Hr|].
        rewrite E. reflexivity. }
    assert (Hwritten : (match new with [] => ex | _ :: _ => ex ++ new end)
                       = ex ++ new).
    { destruct new; [rewrite app_nil_r|]; reflexivity. }
    rewrite Hwritten.
    split; [discriminate|]. split.
    { rewrite map_app, Hnew. unfold ex.
      rewrite map_round_row_idempotent. reflexivity. }
    split; [exact Hdup|].
    intros existing' H. injection H as <-.
    exists new. split; [reflexivity|].
    intros r Hr. unfold new in Hr. apply filter_In in Hr. apply Hr.
  - split; [discriminate|]. split.
    { apply map_round_row_idempotent. }
    split; [intros r Hr; apply is_duplicate_self; exact Hr|].
    intros existing H. discriminate H.
Qed.

End DailyReportFacts.

(** X25. [print_daily_report] is idempotent on the history file: when the
    frame it has written is read back and the same ledger is reported again
    (the main flow reports after the monitor and once more in its [finally]
    block), exactly the same frame is written, so no trade is recorded
    twice.  The rows already in the file are never dropped: the written
    frame is the existing rows, with their PnL columns rounded to two
    places, followed by rows of the ledger.  Nothing is written for an empty
    ledger. *)
Theorem print_daily_report_idempotent (other_columns : Type)
    (csv : option (list (report_row other_columns)))
    (trades_record : list (report_row other_columns)) :
  match print_daily_report other_columns csv trades_record with
  | None => trades_record = []
  | Some written =>
      print_daily_report other_columns (Some written) trades_record
      = Some written
      /\ (forall existing, csv = Some existing ->
            exists added,
              written = map (round_row other_columns) existing ++ added
              /\ incl added (map (round_row other_columns) trades_record))
  end.
Proof.
  pose proof (print_daily_report_written other_columns csv trades_record)
    as H.
  destruct (print_daily_report other_columns csv trades_record)
    as [written|]; [|exact H].
  destruct H as [Hne [Hround [Hdup Hpre]]].
  split; [|exact Hpre].
  destruct trades_record as [|t0 rest]; [contradiction|].
  unfold print_daily_report. rewrite Hround.
  rewrite (filter_nil_of_all_false
             (fun n => negb (is_duplicate other_columns n written))
             (map (round_row other_columns) (t0 :: rest))).
  - reflexivity.
  - intros r Hr. rewrite (Hdup r Hr). reflexivity.
Qed.

(** ** A stop-out is not a profit *)

Lemma recorded_stop_side (global_min_tick : option Q) (action : string)
    (fill_price R : Q) :
  on_tick_grid global_min_tick fill_price -> 0 <= R ->
  if action =? "BUY"
  then recorded_stop global_min_tick action fill_price R <= fill_price
  else fill_price <= recorded_stop global_min_tick action fill_price R.
Proof.
  intros [k Hk] HR. unfold recorded_stop.
  destruct (action =? "BUY").
  - apply Qle_trans with (inject_Z k * effective_tick_size global_min_tick);
      [|lra].
    apply quantized_le_multiple. lra.
  - apply Qle_trans with (inject_Z k * effective_tick_size global_min_tick);
      [lra|].
    apply quantized_ge_multiple. lra.
Qed.

(** X26. When the fill price is a multiple of the tick, the stop the main
    flow records (format_price of the fill less R for a BUY, plus R
    otherwise, R not negative) is never on the profitable side of the fill;
    so the exit that the monitor books at that stop when the position has
    vanished has a PnL that is zero or negative and is never labelled
    "Profit". *)
Theorem stop_out_books_no_profit (global_min_tick : option Q)
    (action : string) (qty : Z) (fill_price R : Q) :
  on_tick_grid global_min_tick fill_price ->
  ~ fill_price == 0 -> 0 <= R -> (0 <= qty)%Z ->
  let stop_price := recorded_stop global_min_tick action fill_price R in
  (if action =? "BUY" then stop_price <= fill_price
   else fill_price <= stop_price)
  /\ exists profit_loss profit_percent result,
       profit_and_result action qty fill_price stop_price
       = Ok (profit_loss, profit_percent, result)
       /\ profit_loss <= 0
       /\ result <> "Profit".
Proof.
  intros Hgrid Hfill HR Hq. cbv zeta.
  pose proof (recorded_stop_side global_min_tick action fill_price R Hgrid HR)
    as Hside.
  split; [exact Hside|].
  unfold profit_and_result.
  rewrite py_div_nonzero by exact Hfill. cbn [bind].
  set (stop_price := recorded_stop global_min_tick action fill_price R) in *.
  set (gain := if action =? "BUY" then stop_price - fill_price
               else fill_price - stop_price).
  assert (Hgain : gain <= 0).
  { unfold gain. destruct (action =? "BUY"); lra. }
  assert (Hq' : 0 <= inject_Z qty).
  { change 0 with (inject_Z 0). rewrite <- Zle_Qle. exact Hq. }
  assert (Hpl : gain * inject_Z qty <= 0).
  { assert (gain * inject_Z qty <= 0 * inject_Z qty)
      by (apply Qmult_le_compat_r; assumption). lra. }
  do 3 eexists. split; [reflexivity|]. split; [exact Hpl|].
  destruct (Qlt_le_dec 0 (gain * inject_Z qty)) as [H|H]; [exfalso; lra|].
  destruct (Qlt_le_dec (gain * inject_Z qty) 0); discriminate.
Qed.

Lemma stop_out_books_no_profit_witness :
  exists profit_loss profit_percent result,
    profit_and_result "BUY" 10 2000
      (recorded_stop (Some (1 # 100)) "BUY" 2000 2)
    = Ok (profit_loss, profit_percent, result)
    /\ profit_loss <= 0
    /\ result <> "Profit".
Proof.
  refine (proj2 (stop_out_books_no_profit (Some (1 # 100)) "BUY" 10 2000 2
                   _ _ _ _)).
  - exists 200000%Z. reflexivity.
  - intros H; discriminate H.
  - discriminate.
  - discriminate.
Defined.

(** With a tick of 0.25, a fill reported at 100.20 and R = 0.01 the recorded
    stop is 100.25, above the fill, and a stop-out of the BUY is booked as a
    profit. *)
Example stop_out_profit_off_grid :
  recorded_stop (Some (1 # 4)) "BUY" (1002 # 10) (1 # 100) == 10025 # 100
  /\ exists profit_loss profit_percent,
       profit_and_result "BUY" 10 (1002 # 10)
         (recorded_stop (Some (1 # 4)) "BUY" (1002 # 10) (1 # 100))
       = Ok (profit_loss, profit_percent, "Profit").
Proof.
  split; [reflexivity|]. eexists; eexists. vm_compute. reflexivity.
Qed.

(** ** The money at risk *)

(** X27. For positive inputs with R not above the risk budget
    [accountSize * riskFraction], the quantity handed to the entry order
    keeps the money at risk within the budget: quantity * R is at most
    accountSize * riskFraction.  (When R exceeds the budget the risk
    quantity is raised to 1 and the bound can fail.) *)
Theorem position_size_risk_budget (accountSize riskFraction leverageCap price
    R : Q) :
  0 < accountSize -> 0 < riskFraction -> 0 < leverageCap -> 0 < price ->
  0 < R -> R <= accountSize * riskFraction ->
  exists sz : sizing,
    position_size accountSize leverageCap riskFraction R price = Ok sz
    /\ (0 <= qty sz)%Z
    /\ inject_Z (qty sz) * R <= accountSize * riskFraction.
Proof.
  intros Ha Hr HL Hp HR Hbudget.
  pose proof (Qfloor_mult_le (accountSize * riskFraction) R HR) as Hfl.
  assert (H1 : (1 <= Qfloor (accountSize * riskFraction / R))%Z).
  { change 1%Z with (Qfloor 1). apply Qfloor_resp_le.
    apply Qle_shift_div_l; [exact HR | lra]. }
  destruct (position_size_value accountSize leverageCap riskFraction R price
              Ha HL Hr HR Hp) as [[Hf E] | [Hf E]];
    rewrite E; eexists; (split; [reflexivity|]); cbn [qty].
  - rewrite (fired_quantity_zero accountSize leverageCap riskFraction R price
               Ha HL Hp Hf).
    split; [lia|].
    setoid_replace (inject_Z 0 * R) with 0 by ring. nra.
  - set (risk_floor := Qfloor (accountSize * riskFraction / R)) in *.
    set (lev_floor := Qfloor (accountSize * leverageCap / price)) in *.
    assert (Hq0 : (0 <= Z.min (Z.max 1 risk_floor) (Z.max 1 lev_floor))%Z)
      by lia.
    assert (Hq1 : (Z.min (Z.max 1 risk_floor) (Z.max 1 lev_floor)
                   <= risk_floor)%Z) by lia.
    split; [exact Hq0|].
    rewrite Zle_Qle in Hq1.
    apply Qle_trans with (inject_Z risk_floor * R); [|exact Hfl].
    apply Qmult_le_compat_r; [exact Hq1 | lra].
Qed.

Lemma position_size_risk_budget_witness :
  exists sz : sizing,
    position_size ACCOUNT_SIZE LEVERAGE RISK_PCT 2 2000 = Ok sz
    /\ (0 <= qty sz)%Z
    /\ inject_Z (qty sz) * 2 <= ACCOUNT_SIZE * RISK_PCT.
Proof.
  apply (position_size_risk_budget ACCOUNT_SIZE RISK_PCT LEVERAGE 2000 2);
    try reflexivity; discriminate.
Defined.

(** With R = 300 above the budget of 250 the quantity is 1 and the money at
    risk is 300. *)
Example position_size_risk_above_budget :
  exists sz : sizing,
    position_size ACCOUNT_SIZE LEVERAGE RISK_PCT 300 2000 = Ok sz
    /\ qty sz = 1%Z
    /\ ACCOUNT_SIZE * RISK_PCT < inject_Z (qty sz) * 300.
Proof.
  eexists. split; [vm_compute; reflexivity|]. split; reflexivity.
Qed.
